(** * Spyder variable explorer: remote value channel, collections delegate
      and lazily loaded sortable table model.

    The development embeds

    - [spyder/plugins/ipythonconsole/widgets/namespacebrowser.py]
      ([NamepaceBrowserWidget.get_value], [set_value]),
    - [spyder/plugins/variableexplorer/widgets/collectionsdelegate.py]
      ([CollectionsDelegate] and [ToggleColumnDelegate]),
    - the table model behind [spyder/widgets/tests/test_collectioneditor.py]
      (natural sort, cyclic sort state, paged loading),

    as Rocq functions and proves properties of them.  Python exceptions are
    an explicit [result] type; the state of a delegate is passed
    explicitly. *)

From Stdlib Require Import ZArith List Bool Ascii String Lia Permutation Sorted.
From Stdlib Require Import DecimalString DecimalNat QArith_base.
From stdpp Require Import base option strings gmap.

Import ListNotations.
Local Open Scope string_scope.
Local Open Scope list_scope.

(* ===================================================================== *)
(** * Python values, exceptions and results                               *)
(* ===================================================================== *)

Module Py.

(** Exception classes that the embedded code names in an [except]
    clause or raises itself; [UserClass] stands for any other class. *)
Inductive exc_class : Type :=
| BaseException | Exception
| TimeoutError | PicklingError | UnpicklingError | TypeError
| RuntimeError | NotImplementedError | KeyError | IndexError
| CommError | ModuleNotFoundError | AttributeError | ValueError
| UserClass (name : string).

Definition exc_class_eqb (a b : exc_class) : bool :=
  match a, b with
  | BaseException, BaseException | Exception, Exception
  | TimeoutError, TimeoutError | PicklingError, PicklingError
  | UnpicklingError, UnpicklingError | TypeError, TypeError
  | RuntimeError, RuntimeError | NotImplementedError, NotImplementedError
  | KeyError, KeyError | IndexError, IndexError
  | CommError, CommError | ModuleNotFoundError, ModuleNotFoundError
  | AttributeError, AttributeError | ValueError, ValueError => true
  | UserClass n, UserClass m => String.eqb n m
  | _, _ => false
  end.

(** The first positional argument of an exception.  A kernel-side error
    reaches Spyder re-raised as [etype(wrapper)], the wrapper holding the
    original error; [wrapped_name] is [wrapper.error.name] ([None] when
    Python's [None]). *)
Inductive exc_arg : Type :=
| ArgText (s : string)
| ArgCommsErrorWrapper (wrapped_name : option string).

(** An exception object, as far as the embedded code observes it:
    the classes it is an instance of (its MRO), [str(e)], [e.args] and,
    for import errors, [e.name]. *)
Record exception : Type := mk_exception {
  exc_mro  : list exc_class;
  exc_str  : string;
  exc_args : list exc_arg;
  exc_name : option string
}.

(** [isinstance(e, c)], the test an [except c] clause performs. *)
Definition isinstance (e : exception) (c : exc_class) : bool :=
  existsb (exc_class_eqb c) (exc_mro e).

(** [except (c1, c2, ...)]. *)
Definition isinstance_any (e : exception) (cs : list exc_class) : bool :=
  existsb (isinstance e) cs.

(** [raise C(text)] for a built-in subclass [C] of [Exception]. *)
Definition new_exception (c : exc_class) (text : string) : exception :=
  {| exc_mro := [c; Exception; BaseException];
     exc_str := text;
     exc_args := [ArgText text];
     exc_name := None |}.

(** Outcome of running a piece of Python: a value or a raised
    exception. *)
Inductive result (A : Type) : Type :=
| Ok (a : A)
| Raise (e : exception).
Arguments Ok {A} a.
Arguments Raise {A} e.

Definition bind {A B : Type} (r : result A) (k : A -> result B) : result B :=
  match r with
  | Ok a => k a
  | Raise e => Raise e
  end.

(** [str.startswith]. *)
Definition startswith (s p : string) : bool := String.prefix p s.

(** [p in s] on strings. *)
Definition contains (s p : string) : bool :=
  match String.index 0 p s with
  | Some _ => true
  | None => false
  end.

(** [str(n)] for a non-negative integer. *)
Definition str_of_nat (n : nat) : string :=
  NilEmpty.string_of_uint (Nat.to_uint n).

(** ["sep".join(parts)]. *)
Fixpoint join (sep : string) (parts : list string) : string :=
  match parts with
  | [] => ""
  | [p] => p
  | p :: rest => p ++ sep ++ join sep rest
  end.

(** ["{}".format(x)] with [x] a string or [None]. *)
Definition format_opt (o : option string) : string :=
  match o with
  | Some s => s
  | None => "None"
  end.

(** [e.args[0].error.name]: [IndexError] without arguments,
    [AttributeError] when the argument is not an error wrapper. *)
Definition args0_error_name (e : exception) : result (option string) :=
  match exc_args e with
  | [] => Raise (new_exception IndexError "tuple index out of range")
  | ArgText _ :: _ =>
      Raise (new_exception AttributeError
               "'str' object has no attribute 'error'")
  | ArgCommsErrorWrapper n :: _ => Ok n
  end.

(** [a == b] where both are a string or [None]. *)
Definition option_eqb_string (a b : option string) : bool :=
  match a, b with
  | Some x, Some y => String.eqb x y
  | None, None => true
  | _, _ => false
  end.

(** [s.startswith(p)] where [s] may be [None]. *)
Definition opt_startswith (o : option string) (p : string) : result bool :=
  match o with
  | Some s => Ok (startswith s p)
  | None =>
      Raise (new_exception AttributeError
               "'NoneType' object has no attribute 'startswith'")
  end.

End Py.

Notation "'let*' x ':=' r 'in' k" := (Py.bind r (fun x => k))
  (at level 10, x name, r at level 100, k at level 200).

(* ===================================================================== *)
(** * namespacebrowser.py: the remote value channel                       *)
(* ===================================================================== *)

Module NamespaceBrowser.
Import Py.

(** Max time before giving up when making a blocking call to the
    kernel. *)
Definition CALL_KERNEL_TIMEOUT : nat := 30.

Definition GH_ISSUES : string :=
  "https://github.com/spyder-ide/spyder/issues/new".

(** What [get_value] and [set_value] use of the widget and of the
    process they run in.  The translation function [_] is taken in the
    untranslated locale, where it returns its argument. *)
Record Shell (Value : Type) : Type := mk_Shell {
  (** [call_kernel(blocking=True, display_error=False,
      timeout=CALL_KERNEL_TIMEOUT).get_value(name, encoded=True)] *)
  kernel_get_value : string -> result string;
  (** [call_kernel(interrupt=True, blocking=True,
      display_error=True).set_value(name, encoded_value, encoded=True)] *)
  kernel_set_value : string -> string -> result unit;
  cloudpickle_loads : string -> result Value;
  cloudpickle_dumps : Value -> result string;
  (** [sys.version_info] *)
  sys_version_info : list nat;
  (** [self.get_pythonenv_info()["python_version"]] *)
  pythonenv_python_version : string;
  (** [parse(a) < parse(b)] of [packaging.version] *)
  version_lt : string -> string -> bool;
  is_conda_based_app : bool
}.
Arguments kernel_get_value {Value} _ _.
Arguments kernel_set_value {Value} _ _ _.
Arguments cloudpickle_loads {Value} _ _.
Arguments cloudpickle_dumps {Value} _ _.
Arguments sys_version_info {Value} _.
Arguments pythonenv_python_version {Value} _.
Arguments version_lt {Value} _ _ _.
Arguments is_conda_based_app {Value} _.

(** ** The explanations of [get_value] *)

Definition reason_big : string := "The variable is too big to be retrieved".

Definition reason_not_picklable : string :=
  "It was not possible to create a copy of the variable in the " ++
  "kernel or to load that copy in Spyder.<br><br>" ++
  "If the object you're trying to view contains a generator, you " ++
  "need to replace it by a list because generators can't be " ++
  "serialized.".

Definition reason_dead : string := "The kernel is dead".

Definition reason_other : string := "An unknown error occurred, sorry.".

Definition reason_comm : string :=
  "The channel used to communicate with the kernel is not working.".

(** [reason_missing_package_target.format(name)] *)
Definition reason_missing_package_target (name : string) : string :=
  "The '<tt>" ++ name ++ "</tt>' module is required to open this variable and " ++
  "it's not installed in the console environment. To fix this " ++
  "problem, please install it in the environment which you use to " ++
  "run your code.".

(** [reason_missing_package_installer.format(name)] *)
Definition reason_missing_package_installer (name : string) : string :=
  "The '<tt>" ++ name ++ "</tt>' module is required to open this variable. " ++
  "Unfortunately, it's not part of our installer, which means your " ++
  "variable can't be displayed by Spyder.".

(** [reason_missing_package.format(name)] *)
Definition reason_missing_package (name : string) : string :=
  "The '<tt>" ++ name ++ "</tt>' module is required to open this variable and " ++
  "it's not installed alongside Spyder. To fix this problem, please " ++
  "install it in the same environment that you use to run Spyder.".

Definition reason_mismatched_numpy : string :=
  "There is a mismatch between the Numpy versions used by Spyder " ++
  "and the kernel of your current console. To fix this problem, " ++
  "please upgrade <tt>numpy</tt> in the environment that you use to " ++
  "run Spyder to version 1.26.1 or higher.".

Definition reason_mismatched_pandas : string :=
  "There is a mismatch between the Pandas versions used by Spyder " ++
  "and the kernel of your current console. To fix this problem, " ++
  "please upgrade <tt>pandas</tt> in the console environment " ++
  "to version 2.0 or higher.".

(** [reason_mismatched_python.format(spyder, kernel, good, compatible)] *)
Definition reason_mismatched_python
    (py_spyder_version py_kernel_version py_good_version
     compatible_versions : string) : string :=
  "There is a mismatch between the Python versions used by Spyder " ++
  "(" ++ py_spyder_version ++ ") and the kernel of your current console (" ++
  py_kernel_version ++ ").<br><br>" ++
  "To fix it, you need to recreate your console environment with " ++
  "Python " ++ py_good_version ++ " or " ++ compatible_versions ++ ".".

(** [msg % reason], [msg] being the note with the link to
    [GH_ISSUES] filled in. *)
Definition msg (reason : string) : string :=
  "<br>" ++ reason ++ "<br><br>" ++
  "<b>Note</b>: If you consider this to be a valid error that needs " ++
  "to be fixed by the Spyder team, please report it on " ++
  "<a href='" ++ GH_ISSUES ++ "'>Github</a>.".

(** [ValueError(text)] *)
Definition value_error (text : string) : exception :=
  new_exception ValueError text.

(** ** [get_value]: the [except] clauses, in the order of the source.
    [kernel_call_success] tells whether the kernel call had returned
    when [err] was raised. *)
Definition get_value_except {Value : Type} (self : Shell Value)
    (kernel_call_success : bool) (err : exception) : result Value :=
  if isinstance err TimeoutError then
    Raise (value_error (msg reason_big))
  else if isinstance_any err [PicklingError; UnpicklingError; TypeError] then
    if startswith (exc_str err) "code expected at most"
       || startswith (exc_str err) "code() argument"
    then
      let py_spyder_version :=
        join "." (map str_of_nat (firstn 3 (sys_version_info self))) in
      let py_kernel_version := pythonenv_python_version self in
      let '(py_good_version, compatible_versions) :=
        if version_lt self py_spyder_version py_kernel_version
        then ("3.10", "lower")
        else ("3.11", "greater") in
      Raise (value_error
               (msg (reason_mismatched_python
                       py_spyder_version py_kernel_version
                       py_good_version compatible_versions)))
    else
      Raise (value_error (msg reason_not_picklable))
  else if isinstance err RuntimeError then
    Raise (value_error (msg reason_dead))
  else if isinstance err KeyError then
    Raise err
  else if isinstance err CommError then
    Raise (value_error (msg reason_comm))
  else if isinstance err ModuleNotFoundError then
    let* reason :=
      (if negb kernel_call_success then
         let* name := args0_error_name err in
         Ok (reason_missing_package_target (format_opt name))
       else if is_conda_based_app self then
         Ok (reason_missing_package_installer (format_opt (exc_name err)))
       else
         let* is_numpy := opt_startswith (exc_name err) "numpy._core" in
         if is_numpy then Ok reason_mismatched_numpy
         else if option_eqb_string (exc_name err)
                   (Some "pandas.core.indexes.numeric")
         then Ok reason_mismatched_pandas
         else Ok (reason_missing_package (format_opt (exc_name err)))) in
    Raise (value_error (msg reason))
  else if isinstance err Exception then
    Raise (value_error (msg reason_other))
  else
    Raise err.

(** [NamepaceBrowserWidget.get_value]: ask the kernel for a value. *)
Definition get_value {Value : Type} (self : Shell Value) (name : string)
    : result Value :=
  match kernel_get_value self name with
  | Raise err => get_value_except self false err
  | Ok encoded =>
      match cloudpickle_loads self encoded with
      | Raise err => get_value_except self true err
      | Ok value => Ok value
      end
  end.

(** ** [set_value] *)

Definition set_reason_mismatched_numpy : string :=
  "There is a mismatch between the Numpy versions used by Spyder " ++
  "and the kernel of your current console. To fix this problem, " ++
  "please upgrade <tt>numpy</tt> in the console environment to " ++
  "version 2.0 or higher.".

(** [NamepaceBrowserWidget.set_value]: the value is encoded before the
    [try] block is entered; the kernel call is inside it. *)
Definition set_value {Value : Type} (self : Shell Value) (name : string)
    (value : Value) : result unit :=
  let* encoded_value := cloudpickle_dumps self value in
  match kernel_set_value self name encoded_value with
  | Ok _ => Ok tt
  | Raise e =>
      if isinstance e ModuleNotFoundError then
        let* name := args0_error_name e in
        let* is_numpy := opt_startswith name "numpy._core" in
        if is_numpy
        then Raise (value_error (msg set_reason_mismatched_numpy))
        else Ok tt
      else if isinstance e Exception then
        Ok tt  (* swallow exception *)
      else
        Raise e
  end.

End NamespaceBrowser.

(* ===================================================================== *)
(** * Values shown in the variable explorer                               *)
(* ===================================================================== *)

Module Values.
Import Py.

(** Keys of the rows of a collections editor: list positions, dictionary
    keys and attribute names. *)
Inductive key : Type :=
| KInt (z : Z)
| KStr (s : string).

Definition key_eqb (a b : key) : bool :=
  match a, b with
  | KInt x, KInt y => Z.eqb x y
  | KStr x, KStr y => String.eqb x y
  | _, _ => false
  end.

(** Classes that [createEditor] tests with [isinstance]. *)
Inductive pyclass : Type :=
| NpVoid | NdArray | MaskedArray | PilImage
| PdDataFrame | PdIndex | PdSeries
| Date | DateTime
| OtherClass (name : string).

Set Warnings "-register-all".

(** Python values.  An object carries its class and, per attribute
    name, what reading the attribute gives: a value or a raised
    exception.  Attributes of built-in values are not modelled. *)
Inductive value : Type :=
| VNone
| VBool (b : bool)
| VInt (z : Z)
| VStr (s : string)
| VList (items : list value)
| VTuple (items : list value)
| VSet (items : list value)
| VFrozenSet (items : list value)
| VDict (items : list (key * value))
| VObject (cls : pyclass) (attrs : list (string * (value + exception))).

Definition repr_key (k : key) : string :=
  match k with
  | KInt z => if (z <? 0)%Z then "-" ++ str_of_nat (Z.abs_nat z)
              else str_of_nat (Z.abs_nat z)
  | KStr s => "'" ++ s ++ "'"
  end.

(** [isinstance(data, (tuple, list, dict, set))] *)
Definition is_tuple_list_dict_set (v : value) : bool :=
  match v with
  | VTuple _ | VList _ | VDict _ | VSet _ => true
  | _ => false
  end.

(** [isinstance(value, (tuple, set))] *)
Definition is_tuple_or_set (v : value) : bool :=
  match v with
  | VTuple _ | VSet _ => true
  | _ => false
  end.

(** [isinstance(value, (list, set, frozenset, tuple, dict))] *)
Definition is_collection (v : value) : bool :=
  match v with
  | VList _ | VSet _ | VFrozenSet _ | VTuple _ | VDict _ => true
  | _ => false
  end.

Definition has_class (v : value) (P : pyclass -> bool) : bool :=
  match v with
  | VObject c _ => P c
  | _ => false
  end.

(** [isinstance(value, np.void)] *)
Definition is_np_void (v : value) : bool :=
  has_class v (fun c => match c with NpVoid => true | _ => false end).

(** [isinstance(value, (np.ndarray, np.ma.MaskedArray))] *)
Definition is_ndarray (v : value) : bool :=
  has_class v (fun c =>
    match c with NdArray | MaskedArray => true | _ => false end).

(** [isinstance(value, PIL.Image.Image)] *)
Definition is_pil_image (v : value) : bool :=
  has_class v (fun c => match c with PilImage => true | _ => false end).

(** [isinstance(value, (pd.DataFrame, pd.Index, pd.Series))] *)
Definition is_pandas (v : value) : bool :=
  has_class v (fun c =>
    match c with PdDataFrame | PdIndex | PdSeries => true | _ => false end).

(** [isinstance(value, datetime.date)]; [datetime] is a subclass of
    [date]. *)
Definition is_date (v : value) : bool :=
  has_class v (fun c =>
    match c with Date | DateTime => true | _ => false end).

(** [isinstance(value, datetime.datetime)] *)
Definition is_datetime (v : value) : bool :=
  has_class v (fun c => match c with DateTime => true | _ => false end).

(** [is_text_string(value)] *)
Definition is_text_string (v : value) : bool :=
  match v with
  | VStr _ => true
  | _ => false
  end.

(** [len(value)] of a text string. *)
Definition text_len (v : value) : nat :=
  match v with
  | VStr s => String.length s
  | _ => 0
  end.

(** [value.bit_length()] when [isinstance(value, int)]; [bool] is a
    subclass of [int]. *)
Definition int_bit_length (v : value) : option Z :=
  match v with
  | VInt z => Some (if (z =? 0)%Z then 0 else Z.log2 (Z.abs z) + 1)%Z
  | VBool b => Some (if b then 1 else 0)%Z
  | _ => None
  end.

(** [xs[i]] on a list or tuple: negative positions count from the
    end. *)
Definition seq_getitem (xs : list value) (i : Z) : result value :=
  let n := Z.of_nat (List.length xs) in
  let j := if (i <? 0)%Z then (i + n)%Z else i in
  if (j <? 0)%Z || (n <=? j)%Z then
    Raise (new_exception IndexError "index out of range")
  else
    match nth_error xs (Z.to_nat j) with
    | Some v => Ok v
    | None => Raise (new_exception IndexError "index out of range")
    end.

Fixpoint dict_lookup (items : list (key * value)) (k : key) : option value :=
  match items with
  | [] => None
  | (k', v) :: rest => if key_eqb k' k then Some v else dict_lookup rest k
  end.

(** [data[key]] *)
Definition getitem (data : value) (k : key) : result value :=
  match data with
  | VList xs | VTuple xs =>
      match k with
      | KInt i => seq_getitem xs i
      | KStr _ =>
          Raise (new_exception TypeError
                   "indices must be integers or slices, not str")
      end
  | VDict items =>
      match dict_lookup items k with
      | Some v => Ok v
      | None => Raise (new_exception KeyError (repr_key k))
      end
  | _ => Raise (new_exception TypeError "object is not subscriptable")
  end.

Fixpoint attr_lookup (attrs : list (string * (value + exception)))
    (name : string) : option (value + exception) :=
  match attrs with
  | [] => None
  | (n, a) :: rest =>
      if String.eqb n name then Some a else attr_lookup rest name
  end.

(** [getattr(data, name)] with [name] a string. *)
Definition getattr_str (data : value) (name : string) : result value :=
  match data with
  | VObject _ attrs =>
      match attr_lookup attrs name with
      | Some (inl v) => Ok v
      | Some (inr e) => Raise e
      | None =>
          Raise (new_exception AttributeError
                   ("object has no attribute '" ++ name ++ "'"))
      end
  | _ =>
      Raise (new_exception AttributeError
               ("object has no attribute '" ++ name ++ "'"))
  end.

(** [getattr(data, key)]: the attribute name must be a string. *)
Definition getattr (data : value) (k : key) : result value :=
  match k with
  | KStr name => getattr_str data name
  | KInt _ =>
      Raise (new_exception TypeError
               "attribute name must be string, not 'int'")
  end.

End Values.

(* ===================================================================== *)
(** * collectionsdelegate.py                                              *)
(* ===================================================================== *)

Module CollectionsDelegate.
Import Py Values.

(** [LARGE_COLLECTION = 1e5] and [LARGE_ARRAY = 5e6]: both floats are
    whole numbers and Python compares an [int] with a [float] exactly. *)
Definition LARGE_COLLECTION : Z := 100000.
Definition LARGE_ARRAY : Z := 5000000.

Definition MAX_INT_DIGITS_FOR_EDITING : Z := 32767.

(** [int(MAX_INT_DIGITS_FOR_EDITING * math.log(10) / math.log(2))] *)
Definition MAX_INT_BIT_LENGTH_FOR_EDITING : Z := 108849.

(** ** Text helpers of [show_warning] (ASCII text) *)

Definition is_digit (c : ascii) : bool :=
  (48 <=? nat_of_ascii c)%nat && (nat_of_ascii c <=? 57)%nat.

Definition digit_value (c : ascii) : Z := Z.of_nat (nat_of_ascii c - 48).

(** White space that [int()] skips around a literal. *)
Definition is_space (c : ascii) : bool :=
  ((9 <=? nat_of_ascii c)%nat && (nat_of_ascii c <=? 13)%nat)
  || (nat_of_ascii c =? 32)%nat.

Definition is_paren (c : ascii) : bool :=
  Ascii.eqb c "("%char || Ascii.eqb c ")"%char.

Fixpoint lstrip (p : ascii -> bool) (l : list ascii) : list ascii :=
  match l with
  | c :: rest => if p c then lstrip p rest else l
  | [] => []
  end.

(** [s.strip(chars)], [p] telling the characters of [chars]. *)
Definition strip (p : ascii -> bool) (l : list ascii) : list ascii :=
  rev (lstrip p (rev (lstrip p l))).

(** [s.split(sep)] for a one-character separator. *)
Fixpoint split (sep : ascii) (l : list ascii) : list (list ascii) :=
  match l with
  | [] => [[]]
  | c :: rest =>
      if Ascii.eqb c sep then [] :: split sep rest
      else match split sep rest with
           | piece :: pieces => (c :: piece) :: pieces
           | [] => [[c]]
           end
  end.

(** Digits of a decimal literal; single underscores may separate
    digits.  [after_digit] tells whether the previous character was a
    digit. *)
Fixpoint parse_digits (acc : Z) (after_digit : bool) (l : list ascii)
    : option Z :=
  match l with
  | [] => if after_digit then Some acc else None
  | c :: rest =>
      if is_digit c then parse_digits (10 * acc + digit_value c) true rest
      else if Ascii.eqb c "_"%char && after_digit
           then parse_digits acc false rest
           else None
  end.

(** [int(s)] for a string: white space, an optional sign, digits. *)
Definition int_of_text (l : list ascii) : result Z :=
  let body := strip is_space l in
  let parsed :=
    match body with
    | "+"%char :: digits => parse_digits 0 false digits
    | "-"%char :: digits => option_map Z.opp (parse_digits 0 false digits)
    | _ => parse_digits 0 false body
    end in
  match parsed with
  | Some z => Ok z
  | None =>
      Raise (new_exception ValueError
               ("invalid literal for int() with base 10: '" ++
                string_of_list_ascii l ++ "'"))
  end.

(** What a cell of the size column holds: a number or a text. *)
Inductive cell : Type :=
| CellInt (z : Z)
| CellStr (s : string).

(** [int(val_size)] *)
Definition py_int (c : cell) : result Z :=
  match c with
  | CellInt z => Ok z
  | CellStr s => int_of_text (list_ascii_of_string s)
  end.

(** [val_size.strip("()")]: an [int] has no [strip]. *)
Definition cell_strip_parens (c : cell) : result (list ascii) :=
  match c with
  | CellStr s => Ok (strip is_paren (list_ascii_of_string s))
  | CellInt _ =>
      Raise (new_exception AttributeError
               "'int' object has no attribute 'strip'")
  end.

(** [[int(s) for s in pieces if s]] *)
Fixpoint int_of_pieces (pieces : list (list ascii)) : result (list Z) :=
  match pieces with
  | [] => Ok []
  | [] :: rest => int_of_pieces rest
  | piece :: rest =>
      let* z := int_of_text piece in
      let* zs := int_of_pieces rest in
      Ok (z :: zs)
  end.

(** [functools.reduce(operator.mul, shape)] *)
Definition reduce_mul (shape : list Z) : result Z :=
  match shape with
  | [] =>
      Raise (new_exception TypeError
               "reduce() of empty iterable with no initial value")
  | z :: zs => Ok (fold_left Z.mul zs z)
  end.

Definition in_strings (s : string) (l : list string) : bool :=
  existsb (String.eqb s) l.

(** The body of the [try] block of [show_warning]: [Ok true] stands for
    [return True], [Ok false] for falling out of the block. *)
Definition show_warning_try (val_size : cell) : result bool :=
  let* stripped := cell_strip_parens val_size in
  let* shape := int_of_pieces (split ","%char stripped) in
  let* size := reduce_mul shape in
  Ok (LARGE_ARRAY <? size)%Z.

(** [CollectionsDelegate.show_warning]; [val_type] and [val_size] are the
    data of columns 1 and 2 of the row of [index]. *)
Definition show_warning (val_type : string) (val_size : cell) : result bool :=
  if in_strings val_type ["list"; "set"; "tuple"; "dict"] then
    let* n := py_int val_size in
    if (LARGE_COLLECTION <? n)%Z then Ok true else Ok false
  else if in_strings val_type ["DataFrame"; "Series"]
          || contains val_type "Array" || contains val_type "Index" then
    match show_warning_try val_size with
    | Ok true => Ok true
    | Ok false => Ok false
    | Raise e => if isinstance e Exception then Ok false else Raise e
    end
  else Ok false.


(** ** Data functions *)

(** A zero-argument callable stored as [data_function]: the callable
    handed to the outermost editor, which fetches a name again, or a
    closure built by a [make_data_function], with what it captured.  A
    closure reads [self.data_function] when it is called; the attribute
    is assigned in [__init__] only, so this is the function the delegate
    had when the closure was built, [parent] here. *)
Inductive DataFun : Type :=
| RootFun (name : string)
| ItemFun (parent : DataFun) (k : key)
| AttrPathFun (parent : DataFun) (path_elements : list string).

(** The classes caught by both nested [datafun]s. *)
Definition datafun_caught : list exc_class :=
  [NotImplementedError; AttributeError; TypeError; ValueError].

(** [datafun] of [CollectionsDelegate.make_data_function], after
    [data = self.data_function()]. *)
Definition datafun_item (data : value) (k : key) : result value :=
  if is_tuple_list_dict_set data then getitem data k
  else
    match getattr data k with
    | Ok v => Ok v
    | Raise e => if isinstance_any e datafun_caught then Ok VNone else Raise e
    end.

(** [for attribute_name in path_elements: data = getattr(data,
    attribute_name)] *)
Fixpoint walk_attributes (data : value) (path_elements : list string)
    : result value :=
  match path_elements with
  | [] => Ok data
  | attribute_name :: rest =>
      let* data' := getattr_str data attribute_name in
      walk_attributes data' rest
  end.

(** [datafun] of [ToggleColumnDelegate.make_data_function], after
    [data = self.data_function()]. *)
Definition datafun_path (data : value) (path_elements : list string)
    : result value :=
  match walk_attributes data path_elements with
  | Ok v => Ok v
  | Raise e => if isinstance_any e datafun_caught then Ok VNone else Raise e
  end.

(** Calling a data function while the namespace is [ns]: [ns name] is
    what fetching [name] gives at the time of the call. *)
Fixpoint call (ns : string -> result value) (f : DataFun) : result value :=
  match f with
  | RootFun name => ns name
  | ItemFun parent k =>
      let* data := call ns parent in datafun_item data k
  | AttrPathFun parent path_elements =>
      let* data := call ns parent in datafun_path data path_elements
  end.

(** ** Models, indexes and the delegate *)

Record Index : Type := mk_Index {
  row : nat;
  column : nat;
  isValid : bool
}.

(** What the delegates use of [index.model()]; the models themselves
    are in [spyder/widgets/collectionseditor.py] and in the object
    explorer. *)
Class TableModel (M : Type) : Type := {
  (** [index.sibling(row, 1).data()] *)
  m_type_data : M -> nat -> string;
  (** [index.sibling(row, 2).data()] *)
  m_size_data : M -> nat -> cell;
  (** [model.keys] *)
  m_keys : M -> list key;
  (** [model.get_key(index)] *)
  m_get_key : M -> nat -> key;
  (** [model.get_key(index).obj_name] and [.obj_path] of a tree model *)
  m_obj_name : M -> nat -> string;
  m_obj_path : M -> nat -> string;
  (** [model.get_value(index)] *)
  m_get_value : M -> nat -> result value;
  (** [model.treeItem(index).obj] and its assignment *)
  m_tree_item_obj : M -> nat -> value;
  m_set_tree_item_obj : M -> nat -> value -> M;
  (** [model.set_value(index, value)]: the model afterwards and the
      exception raised, if any *)
  m_set_value : M -> nat -> value -> M * option exception;
  (** [model.get_index_from_key(key)] *)
  m_get_index_from_key : M -> key -> Index;
  (** [source_index.model().row_type(source_index.row())] *)
  m_row_type : M -> nat -> string
}.

Inductive editor_kind : Type :=
| CollectionsEditor | ArrayEditor | DataFrameEditor | TextEditor
| ObjectExplorer.

(** Widgets returned by [createEditor] for in-place editing. *)
Inductive InlineEditor : Type :=
| QDateTimeEdit (v : value)
| QDateEdit (v : value)
| QLineEdit.

(** An editor dialog: [ed_value] is what [editor.get_value()]
    returns. *)
Record Editor : Type := mk_Editor {
  ed_kind : editor_kind;
  ed_value : value;
  ed_readonly : bool;
  ed_data_function : option DataFun
}.

(** An entry of [self._editors]: the [dict] given to
    [create_dialog]. *)
Record Session : Type := mk_Session {
  ses_editor : Editor;
  ses_key : key;
  ses_readonly : bool;
  ses_conv : option (value -> result value)
}.

Inductive signal : Type :=
| sig_free_memory_requested
| sig_editor_creation_started
| sig_editor_shown.

(** What a delegate does that is visible outside it. *)
Inductive event : Type :=
| Emitted (s : signal)
| WarningBox
| CriticalBox (text : string)
| EditorShown (editor_id : nat).

(** A delegate with the model of its view.  [qt_alive] tells whether
    the wrapped Qt object still exists: emitting a signal of a deleted
    object raises [RuntimeError].  [current_index] and [old_obj] are
    the attributes added by [ToggleColumnDelegate]. *)
Record Delegate (M : Type) : Type := mk_Delegate {
  _editors : gmap nat Session;
  data_function : option DataFun;
  parent_readonly : bool;
  model : M;
  log : list event;
  qt_alive : bool;
  current_index : option Index;
  old_obj : value
}.
Arguments mk_Delegate {M}.
Arguments _editors {M} _.
Arguments data_function {M} _.
Arguments parent_readonly {M} _.
Arguments model {M} _.
Arguments log {M} _.
Arguments qt_alive {M} _.
Arguments current_index {M} _.
Arguments old_obj {M} _.

(** What a call of [createEditor] takes from outside the delegate. *)
Record Env : Type := mk_Env {
  (** [is_known_type] and [is_editable_type] of
      [spyder_kernels.utils.nsview] *)
  is_known_type : value -> bool;
  is_editable_type : value -> bool;
  (** [np.ndarray is not FakeObject], [PIL.Image is not FakeObject],
      [pd.DataFrame is not FakeObject] *)
  numpy_available : bool;
  pil_available : bool;
  pandas_available : bool;
  (** [QMessageBox.warning(...) == QMessageBox.No] *)
  warning_answer_no : bool;
  (** [editor.setup_and_check(value, ...)] *)
  setup_and_check : editor_kind -> value -> bool;
  (** [id(editor)] of the editor about to be created *)
  new_editor_id : nat;
  (** [np.array(value)] *)
  np_array : value -> value;
  (** [lambda arr: PIL.Image.fromarray(arr, mode=value.mode)] *)
  pil_fromarray : value -> value -> result value;
  (** [value.copy()], or [copy.deepcopy(value)] when [value] has no
      [copy] *)
  copy_of : value -> result value
}.

Section DelegateMethods.
Context {M : Type} `{TableModel M}.

(** A method of a delegate: it runs from a state of the delegate and
    ends in a state, returning a value or raising an exception. *)
Definition Action (A : Type) : Type :=
  Delegate M -> Delegate M * result A.

Definition ret {A : Type} (a : A) : Action A :=
  fun self => (self, Ok a).

Definition lift {A : Type} (r : result A) : Action A :=
  fun self => (self, r).

Definition abind {A B : Type} (a : Action A) (k : A -> Action B)
    : Action B :=
  fun self =>
    match a self with
    | (self', Ok x) => k x self'
    | (self', Raise e) => (self', Raise e)
    end.

Definition gets {A : Type} (f : Delegate M -> A) : Action A :=
  fun self => (self, Ok (f self)).

Definition modify (f : Delegate M -> Delegate M) : Action unit :=
  fun self => (f self, Ok tt).

(** [try: body except <caught> as e: handler(e)] *)
Definition try_except {A : Type} (body : Action A)
    (caught : exception -> bool) (handler : exception -> Action A)
    : Action A :=
  fun self =>
    match body self with
    | (self', Ok x) => (self', Ok x)
    | (self', Raise e) =>
        if caught e then handler e self' else (self', Raise e)
    end.

Notation "'let!' x ':=' a 'in' k" := (abind a (fun x => k))
  (at level 10, x name, a at level 100, k at level 200).
Notation "a ';;;' k" := (abind a (fun _ => k))
  (at level 100, k at level 200, right associativity).

Definition with_model (m : M) (self : Delegate M) : Delegate M :=
  mk_Delegate (_editors self) (data_function self) (parent_readonly self)
    m (log self) (qt_alive self) (current_index self) (old_obj self).

Definition with_editors (eds : gmap nat Session) (self : Delegate M)
    : Delegate M :=
  mk_Delegate eds (data_function self) (parent_readonly self)
    (model self) (log self) (qt_alive self) (current_index self)
    (old_obj self).

Definition with_current_index (ci : option Index) (self : Delegate M)
    : Delegate M :=
  mk_Delegate (_editors self) (data_function self) (parent_readonly self)
    (model self) (log self) (qt_alive self) ci (old_obj self).

Definition with_old_obj (old : value) (self : Delegate M) : Delegate M :=
  mk_Delegate (_editors self) (data_function self) (parent_readonly self)
    (model self) (log self) (qt_alive self) (current_index self) old.

Definition log_event (ev : event) (self : Delegate M) : Delegate M :=
  mk_Delegate (_editors self) (data_function self) (parent_readonly self)
    (model self) (log self ++ [ev]) (qt_alive self) (current_index self)
    (old_obj self).

(** [self.<signal>.emit()] *)
Definition emit (s : signal) : Action unit :=
  fun self =>
    if qt_alive self then (log_event (Emitted s) self, Ok tt)
    else (self, Raise (new_exception RuntimeError
                         "wrapped C/C++ object has been deleted")).

(** [CollectionsDelegate.get_value] *)
Definition get_value (index : Index) : Action value :=
  fun self =>
    if isValid index then (self, m_get_value (model self) (row index))
    else (self, Ok VNone).

(** [CollectionsDelegate.set_value] and
    [ToggleColumnDelegate.set_value] *)
Definition set_value (index : Index) (v : value) : Action unit :=
  fun self =>
    if isValid index then
      let '(m', raised) := m_set_value (model self) (row index) v in
      (with_model m' self,
       match raised with
       | None => Ok tt
       | Some e => Raise e
       end)
    else (self, Ok tt).

(** [CollectionsDelegate.make_data_function] *)
Definition make_data_function (index : Index) : Action (option DataFun) :=
  fun self =>
    match data_function self with
    | None => (self, Ok None)
    | Some f =>
        match nth_error (m_keys (model self)) (row index) with
        | Some k => (self, Ok (Some (ItemFun f k)))
        | None =>
            (self,
             Raise (new_exception IndexError "list index out of range"))
        end
    end.

(** [obj_path.split('.')] followed by [del path_elements[0]] *)
Definition path_elements_of (obj_path : string) : list string :=
  tl (map string_of_list_ascii
        (split "."%char (list_ascii_of_string obj_path))).

(** [ToggleColumnDelegate.make_data_function] *)
Definition toggle_make_data_function (index : Index)
    : Action (option DataFun) :=
  fun self =>
    match data_function self with
    | None => (self, Ok None)
    | Some f =>
        (self,
         Ok (Some (AttrPathFun f
                     (path_elements_of
                        (m_obj_path (model self) (row index))))))
    end.

(** The [readonly] flag computed by both [createEditor]s:
    [isinstance(value, (tuple, set)) or self.parent().readonly or not
    is_known_type(value)] *)
Definition compute_readonly (env : Env) (self : Delegate M) (v : value)
    : bool :=
  is_tuple_or_set v || parent_readonly self || negb (is_known_type env v).

(** [CollectionsDelegate.create_dialog] *)
Definition create_dialog (editor_id : nat) (data : Session)
    : Action unit :=
  modify (fun self =>
            with_editors (<[editor_id := data]> (_editors self)) self) ;;;
  emit sig_editor_shown ;;;
  modify (log_event (EditorShown editor_id)).

(** [CollectionsDelegate.free_memory] *)
Definition free_memory : Action unit :=
  try_except (emit sig_free_memory_requested)
    (fun e => isinstance e RuntimeError)
    (fun _ => ret tt).

(** [try: self._editors.pop(editor_id) except KeyError: pass] *)
Definition pop_editor (editor_id : nat) : Action unit :=
  modify (fun self =>
            with_editors (delete editor_id (_editors self)) self).

(** [self._editors[editor_id]] *)
Definition lookup_editor (editor_id : nat) : Action Session :=
  fun self =>
    match _editors self !! editor_id with
    | Some data => (self, Ok data)
    | None => (self, Raise (new_exception KeyError (str_of_nat editor_id)))
    end.

(** [conv_func(value)] with [conv_func = data.get('conv', lambda v:
    v)] *)
Definition apply_conv (data : Session) (v : value) : Action value :=
  match ses_conv data with
  | Some conv_func => lift (conv_func v)
  | None => ret v
  end.

Definition set_error_text (problem : string) : string :=
  "Spyder was unable to set this variable in the " ++
  "console to the new value.<br><br>" ++
  "The problem is:<br>" ++ problem.

(** [CollectionsDelegate.editor_accepted] *)
Definition editor_accepted (editor_id : nat) : Action unit :=
  let! data := lookup_editor editor_id in
  (if negb (ses_readonly data) then
     let! index :=
       gets (fun self => m_get_index_from_key (model self) (ses_key data)) in
     let v := ed_value (ses_editor data) in
     try_except
       (let! converted := apply_conv data v in set_value index converted)
       (fun e => isinstance e Exception)
       (fun msg =>
          modify (log_event (CriticalBox (set_error_text (exc_str msg)))))
   else ret tt) ;;;
  pop_editor editor_id ;;;
  free_memory.

(** [CollectionsDelegate.editor_rejected] *)
Definition editor_rejected (editor_id : nat) : Action unit :=
  pop_editor editor_id ;;;
  free_memory.

(** [ToggleColumnDelegate.restore_object]; [old_obj] is [VNone] for
    Python's [None]. *)
Definition restore_object : Action unit :=
  modify (fun self =>
    match current_index self, old_obj self with
    | None, _ => self
    | Some _, VNone => self
    | Some index, old =>
        with_model (m_set_tree_item_obj (model self) (row index) old) self
    end).

(** [ToggleColumnDelegate.get_value] *)
Definition toggle_get_value (index : Index) : Action value :=
  fun self =>
    if isValid index
    then (self, Ok (m_tree_item_obj (model self) (row index)))
    else (self, Ok VNone).

(** [ToggleColumnDelegate.editor_accepted] *)
Definition toggle_editor_accepted (editor_id : nat) : Action unit :=
  let! data := lookup_editor editor_id in
  let! current := gets current_index in
  (match negb (ses_readonly data), current with
   | true, Some index =>
       let v := ed_value (ses_editor data) in
       let! converted := apply_conv data v in
       set_value index converted
   | _, _ => ret tt
   end) ;;;
  pop_editor editor_id ;;;
  free_memory.

(** [ToggleColumnDelegate.editor_rejected] *)
Definition toggle_editor_rejected (editor_id : nat) : Action unit :=
  restore_object ;;;
  editor_rejected editor_id.

Definition retrieve_error_text (problem : string) : string :=
  "Spyder was unable to retrieve the value of this variable " ++
  "from the console.<br><br>" ++
  "The problem is:<br>" ++ problem.

Definition too_large_text : string :=
  "The value of this variable is too large to be edited.".

(** [self.show_warning(index)] *)
Definition show_warning_at (index : Index) : Action bool :=
  fun self =>
    (self,
     show_warning (m_type_data (model self) (row index))
                  (m_size_data (model self) (row index))).

(** [value is None] *)
Definition is_none (v : value) : bool :=
  match v with
  | VNone => true
  | _ => false
  end.

(** The [try] block of [CollectionsDelegate.createEditor] that fetches
    the value: [None] when the method returns from inside it. *)
Definition fetch_value (index : Index) : Action (option value) :=
  try_except
    (let! v := get_value index in
     ret (if is_none v then None else Some v))
    (fun e => isinstance e Exception)
    (fun msg =>
       emit sig_editor_shown ;;;
       modify (log_event (CriticalBox (retrieve_error_text (exc_str msg)))) ;;;
       ret None).

(** [self.sig_editor_shown.emit(); return None] *)
Definition shown_and_none : Action (option InlineEditor) :=
  emit sig_editor_shown ;;; ret None.

(** [self.create_dialog(editor, dict(model=..., editor=editor,
    key=key, readonly=readonly[, conv=conv_func])); return None] *)
Definition dialog_and_none (env : Env) (editor : Editor) (k : key)
    (readonly : bool) (conv : option (value -> result value))
    : Action (option InlineEditor) :=
  create_dialog (new_editor_id env)
    (mk_Session editor k readonly conv) ;;;
  ret None.

(** [CollectionsDelegate.createEditor] from the line that reads the
    key on, [v] being the value fetched. *)
Definition createEditor_for (env : Env) (index : Index)
    (object_explorer : bool) (v : value) : Action (option InlineEditor) :=
  let! k := gets (fun self => m_get_key (model self) (row index)) in
  let! readonly := gets (fun self => compute_readonly env self v) in
  if is_np_void v then shown_and_none
  else if is_collection v && negb object_explorer then
    let! df := make_data_function index in
    dialog_and_none env (mk_Editor CollectionsEditor v readonly df)
      k readonly None
  else if is_ndarray v && numpy_available env && negb object_explorer then
    let! df := make_data_function index in
    if negb (setup_and_check env ArrayEditor v) then shown_and_none
    else dialog_and_none env (mk_Editor ArrayEditor v readonly df)
           k readonly None
  else if is_pil_image v && numpy_available env && pil_available env
          && negb object_explorer then
    let arr := np_array env v in
    if negb (setup_and_check env ArrayEditor arr) then shown_and_none
    else dialog_and_none env (mk_Editor ArrayEditor arr readonly None)
           k readonly (Some (pil_fromarray env v))
  else if is_pandas v && pandas_available env && negb object_explorer then
    let! type_of_value :=
      gets (fun self => m_row_type (model self) (row index)) in
    let readonly :=
      if String.eqb type_of_value "Polars DataFrame" then true
      else readonly in
    let! df := make_data_function index in
    if negb (setup_and_check env DataFrameEditor v) then shown_and_none
    else dialog_and_none env (mk_Editor DataFrameEditor v readonly df)
           k readonly None
  else if is_date v && negb object_explorer then
    if readonly then shown_and_none
    else if is_datetime v then
      (* [value.time()], here the reading of [time], raises
         [ValueError] for NaT *)
      let! has_time :=
        try_except (lift (getattr_str v "time") ;;; ret true)
          (fun e => isinstance e ValueError)
          (fun _ => ret false) in
      if has_time
      then emit sig_editor_shown ;;; ret (Some (QDateTimeEdit v))
      else shown_and_none
    else
      emit sig_editor_shown ;;; ret (Some (QDateEdit v))
  else if is_text_string v && (40 <? text_len v)%nat
          && negb object_explorer then
    if setup_and_check env TextEditor v
    then dialog_and_none env (mk_Editor TextEditor v readonly None)
           k readonly None
    else ret None
  else if is_editable_type env v && negb object_explorer then
    if readonly then shown_and_none
    else if match int_bit_length v with
            | Some bits => (MAX_INT_BIT_LENGTH_FOR_EDITING <=? bits)%Z
            | None => false
            end
    then
      emit sig_editor_shown ;;;
      modify (log_event (CriticalBox too_large_text)) ;;;
      ret None
    else
      emit sig_editor_shown ;;; ret (Some QLineEdit)
  else
    let! df := make_data_function index in
    dialog_and_none env (mk_Editor ObjectExplorer v readonly df)
      k readonly None.

(** [CollectionsDelegate.createEditor] *)
Definition createEditor (env : Env) (index : Index)
    (object_explorer : bool) : Action (option InlineEditor) :=
  emit sig_editor_creation_started ;;;
  if (column index <? 3)%nat then ret None
  else
    let! warn := show_warning_at index in
    let! declined :=
      (if warn then
         modify (log_event WarningBox) ;;;
         ret (warning_answer_no env)
       else ret false) in
    if declined then shown_and_none
    else
      let! fetched := fetch_value index in
      match fetched with
      | None => ret None
      | Some v => createEditor_for env index object_explorer v
      end.

Definition toggle_retrieve_error_text (problem : string) : string :=
  "Spyder was unable to retrieve the value of this variable " ++
  "from the console.<br><br>" ++
  "The problem is:<br>" ++
  "<i>" ++ problem ++ "</i>".

(** The [try] block of [ToggleColumnDelegate.createEditor]. *)
Definition toggle_fetch_value (env : Env) (index : Index)
    : Action (option value) :=
  try_except
    (let! v := toggle_get_value index in
     let! old := lift (copy_of env v) in
     modify (with_old_obj old) ;;;
     ret (if is_none v then None else Some v))
    (fun e => isinstance e Exception)
    (fun msg =>
       modify (log_event
                 (CriticalBox (toggle_retrieve_error_text (exc_str msg)))) ;;;
       ret None).

(** [ToggleColumnDelegate.createEditor] from the assignment of
    [self.current_index] on. *)
Definition toggle_createEditor_for (env : Env) (index : Index)
    (v : value) : Action (option InlineEditor) :=
  modify (with_current_index (Some index)) ;;;
  let! name := gets (fun self => m_obj_name (model self) (row index)) in
  let k := KStr name in
  let! readonly := gets (fun self => compute_readonly env self v) in
  if is_collection v then
    let! df := toggle_make_data_function index in
    dialog_and_none env (mk_Editor CollectionsEditor v readonly df)
      k readonly None
  else if is_ndarray v && numpy_available env then
    let! df := toggle_make_data_function index in
    if negb (setup_and_check env ArrayEditor v) then ret None
    else dialog_and_none env (mk_Editor ArrayEditor v readonly df)
           k readonly None
  else if is_pil_image v && numpy_available env && pil_available env then
    let arr := np_array env v in
    if negb (setup_and_check env ArrayEditor arr) then ret None
    else dialog_and_none env (mk_Editor ArrayEditor arr readonly None)
           k readonly (Some (pil_fromarray env v))
  else if is_pandas v && pandas_available env then
    let! df := toggle_make_data_function index in
    if negb (setup_and_check env DataFrameEditor v) then ret None
    else dialog_and_none env (mk_Editor DataFrameEditor v false df)
           k readonly None
  else if is_date v then
    if readonly then ret None
    else if is_datetime v then ret (Some (QDateTimeEdit v))
    else ret (Some (QDateEdit v))
  else if is_text_string v && (40 <? text_len v)%nat then
    if setup_and_check env TextEditor v
    then dialog_and_none env (mk_Editor TextEditor v readonly None)
           k readonly None
    else ret None
  else if is_editable_type env v then
    if readonly then ret None
    else ret (Some QLineEdit)
  else ret None.

(** [ToggleColumnDelegate.createEditor] *)
Definition toggle_createEditor (env : Env) (index : Index)
    : Action (option InlineEditor) :=
  let! warn := show_warning_at index in
  let! declined :=
    (if warn then
       modify (log_event WarningBox) ;;;
       ret (warning_answer_no env)
     else ret false) in
  if declined then ret None
  else
    let! fetched := toggle_fetch_value env index in
    match fetched with
    | None => ret None
    | Some v => toggle_createEditor_for env index v
    end.

End DelegateMethods.

End CollectionsDelegate.

(* ===================================================================== *)
(** * collectionsdelegate.py: writing an inline editor back               *)
(* ===================================================================== *)

Module DelegateEditing.
Import Py Values CollectionsDelegate.

(** The editor widget handed to [setModelData], with what is read from
    it: [editor.text()], [editor.date()] or [editor.dateTime()]. *)
Inductive EditorWidget : Type :=
| LineEditWidget (text : string)
| DateEditWidget (year month day : Z)
| DateTimeEditWidget (year month day hour minute second msec : Z)
| OtherWidget.

(** What [setModelData] asks of its [model] argument with [hasattr]. *)
Record ModelCaps : Type := mk_ModelCaps {
  has_sourceModel : bool;
  sourceModel_has_set_value : bool;
  has_set_value : bool
}.

(** [datetime.date(year, month, day)] *)
Definition date_value (year month day : Z) : value :=
  VObject Date
    [("year", inl (VInt year)); ("month", inl (VInt month));
     ("day", inl (VInt day))].

(** [datetime.datetime(year, month, day, hour, minute, second,
    microsecond)] *)
Definition datetime_value (year month day hour minute second microsecond : Z)
    : value :=
  VObject DateTime
    [("year", inl (VInt year)); ("month", inl (VInt month));
     ("day", inl (VInt day)); ("hour", inl (VInt hour));
     ("minute", inl (VInt minute)); ("second", inl (VInt second));
     ("microsecond", inl (VInt microsecond))].

Definition assign_error_text (problem : string) : string :=
  "<b>Unable to assign data to item.</b>" ++
  "<br><br>Error message:<br>" ++ problem.

Section SetModelData.
Context {M : Type} `{TableModel M}.

(** [display_to_value(to_qvariant(text), current, ignore_errors=False)]
    of [spyder_kernels.utils.nsview] is the parameter
    [display_to_value]. *)
Variable display_to_value : string -> value -> result value.

(** The [try] block of the [QLineEdit] branch of [setModelData] with its
    [except Exception] clause: [None] when the method returns from the
    clause. *)
Definition line_edit_value (text : string) (index : Index)
    : Action (M := M) (option value) :=
  try_except
    (abind (get_value index) (fun current =>
     abind (lift (display_to_value text current)) (fun v =>
     ret (Some v))))
    (fun e => isinstance e Exception)
    (fun msg =>
       abind (modify (log_event (CriticalBox (assign_error_text (exc_str msg)))))
         (fun _ => ret None)).

(** [CollectionsDelegate.setModelData] *)
Definition setModelData (editor : EditorWidget) (caps : ModelCaps)
    (index : Index) : Action (M := M) unit :=
  if (has_sourceModel caps && negb (sourceModel_has_set_value caps))
     || negb (has_set_value caps)
  then ret tt
  else
    match editor with
    | LineEditWidget text =>
        abind (line_edit_value text index) (fun converted =>
          match converted with
          | None => ret tt
          | Some v => set_value index v
          end)
    | DateEditWidget year month day =>
        set_value index (date_value year month day)
    | DateTimeEditWidget year month day hour minute second msec =>
        (* datetime uses microseconds, QDateTime returns milliseconds *)
        set_value index
          (datetime_value year month day hour minute second (msec * 1000))
    | OtherWidget =>
        fun self =>
          (self, Raise (new_exception RuntimeError "Unsupported editor widget"))
    end.

End SetModelData.

End DelegateEditing.

(* ===================================================================== *)
(** * The lazily loaded, sortable table model                             *)
(* ===================================================================== *)

(** The model class and [natsort] live in
    [spyder/widgets/collectionseditor.py]; the definitions of this module
    follow the description of the table model. *)
Module CollectionsModel.
Import Py.

Definition is_digit := CollectionsDelegate.is_digit.

(** ** Natural sort *)

(** A run of a key: a number, for a run of digits, or a text. *)
Inductive run : Type :=
| Num (n : nat)
| Txt (s : list ascii).

(** Modelled from the spec: the splitting step of [natsort], of
    [collectionseditor.py]: the key is cut into maximal runs of digits
    and of non-digits, which therefore alternate; the flag of a run
    tells whether it is made of digits. *)
Fixpoint split_runs (l : list ascii) : list (bool * list ascii) :=
  match l with
  | [] => []
  | c :: rest =>
      match split_runs rest with
      | (d, r) :: more =>
          if Bool.eqb d (is_digit c) then (d, c :: r) :: more
          else (is_digit c, [c]) :: (d, r) :: more
      | [] => [(is_digit c, [c])]
      end
  end.

(** Modelled from the spec: the numeric value [natsort] gives to a run
    of digits, the number it writes in base ten. *)
Definition digits_value (l : list ascii) : nat :=
  fold_left (fun acc c => 10 * acc + (nat_of_ascii c - 48)) l 0.

(** Modelled from the spec: the runs of [natsort]: a run of digits
    counts by its numeric value, any other run by its text. *)
Definition run_of (r : bool * list ascii) : run :=
  if fst r then Num (digits_value (snd r)) else Txt (snd r).

(** Modelled from the spec: the sort key [natsort] gives to a key. *)
Definition natural_key (s : string) : list run :=
  map run_of (split_runs (list_ascii_of_string s)).

Definition lex (c1 c2 : comparison) : comparison :=
  match c1 with
  | Eq => c2
  | _ => c1
  end.

(** Lexicographic comparison of two lists. *)
Fixpoint list_compare {A : Type} (cmp : A -> A -> comparison)
    (l1 l2 : list A) : comparison :=
  match l1, l2 with
  | [], [] => Eq
  | [], _ :: _ => Lt
  | _ :: _, [] => Gt
  | x :: r1, y :: r2 => lex (cmp x y) (list_compare cmp r1 r2)
  end.

Definition ascii_compare (a b : ascii) : comparison :=
  Nat.compare (nat_of_ascii a) (nat_of_ascii b).

Definition text_compare (a b : list ascii) : comparison :=
  list_compare ascii_compare a b.

(** Modelled from the spec: the comparison of two runs by [natsort]:
    numeric runs by numeric value, non-numeric runs lexicographically,
    character by character as written.  The description leaves a numeric
    run against a text run open; the number goes first here. *)
Definition run_compare (a b : run) : comparison :=
  match a, b with
  | Num x, Num y => Nat.compare x y
  | Txt x, Txt y => text_compare x y
  | Num _, Txt _ => Lt
  | Txt _, Num _ => Gt
  end.

(** Modelled from the spec: the key-column comparator built on
    [natsort]: keys are compared run by run. *)
Definition natsort_compare (a b : string) : comparison :=
  list_compare run_compare (natural_key a) (natural_key b).

Definition leb_of {A : Type} (cmp : A -> A -> comparison) (a b : A) : bool :=
  match cmp a b with
  | Gt => false
  | _ => true
  end.

Definition natsort_leb : string -> string -> bool := leb_of natsort_compare.

(** ** Stable sorting *)

(** Modelled from the spec: one insertion step of the stable sort of
    the model of [collectionseditor.py]: [x], which comes before the
    rows of [l] in insertion order, goes before the first row it is not
    greater than. *)
Fixpoint insert_sorted {A : Type} (leb : A -> A -> bool) (x : A)
    (l : list A) : list A :=
  match l with
  | [] => [x]
  | y :: rest =>
      if leb x y then x :: l else y :: insert_sorted leb x rest
  end.

(** Modelled from the spec: the sort of the model of
    [collectionseditor.py], a stable sort: rows that compare equal keep
    their insertion order. *)
Fixpoint stable_sort {A : Type} (leb : A -> A -> bool) (l : list A)
    : list A :=
  match l with
  | [] => []
  | x :: rest => insert_sorted leb x (stable_sort leb rest)
  end.

(** ** Entries and column comparators *)

(** Modelled from the spec: the size descriptor of a row of
    [CollectionsModel]: a count or a tuple of dimensions. *)
Inductive SizeDescriptor : Type :=
| Count (n : nat)
| Dims (dims : list nat).

(** Modelled from the spec: a row of [CollectionsModel]: key, type tag,
    size descriptor, display text and, for a numeric value, the
    number. *)
Record Entry : Type := mk_Entry {
  entry_key : string;
  type_tag : string;
  size : SizeDescriptor;
  display : string;
  number : option Q
}.

Inductive Column : Type := KeyColumn | TypeColumn | SizeColumn | ValueColumn.

Inductive Direction : Type := Ascending | Descending | InsertionOrder.

Definition string_compare (a b : string) : comparison :=
  text_compare (list_ascii_of_string a) (list_ascii_of_string b).

(** Modelled from the spec: the size comparison of
    [CollectionsModel.sort]: counts numerically, dimension tuples
    lexicographically, a count before a tuple. *)
Definition size_compare (a b : SizeDescriptor) : comparison :=
  match a, b with
  | Count x, Count y => Nat.compare x y
  | Dims x, Dims y => list_compare Nat.compare x y
  | Count _, Dims _ => Lt
  | Dims _, Count _ => Gt
  end.

(** Modelled from the spec: the value comparison of
    [CollectionsModel.sort]: numerically when both values are numbers,
    otherwise by the display text. *)
Definition value_compare (a b : Entry) : comparison :=
  match number a, number b with
  | Some x, Some y => Qcompare x y
  | _, _ => string_compare (display a) (display b)
  end.

(** Modelled from the spec: the comparator of each column of
    [CollectionsModel.sort]. *)
Definition column_compare (c : Column) (a b : Entry) : comparison :=
  match c with
  | KeyColumn => natsort_compare (entry_key a) (entry_key b)
  | TypeColumn =>
      lex (string_compare (type_tag a) (type_tag b))
        (lex (size_compare (size a) (size b))
             (natsort_compare (entry_key a) (entry_key b)))
  | SizeColumn =>
      lex (size_compare (size a) (size b))
          (natsort_compare (entry_key a) (entry_key b))
  | ValueColumn => value_compare a b
  end.

(** ** Sort state *)

(** Modelled from the spec: the sort state of the table view of
    [collectionseditor.py]. *)
Record SortState : Type := mk_SortState {
  sort_column : Column;
  direction : Direction
}.

Definition column_eqb (a b : Column) : bool :=
  match a, b with
  | KeyColumn, KeyColumn | TypeColumn, TypeColumn
  | SizeColumn, SizeColumn | ValueColumn, ValueColumn => true
  | _, _ => false
  end.

(** Modelled from the spec: the cycle of directions of the table view
    of [collectionseditor.py]. *)
Definition next_direction (d : Direction) : Direction :=
  match d with
  | Ascending => Descending
  | Descending => InsertionOrder
  | InsertionOrder => Ascending
  end.

(** Modelled from the spec: the handling of a click on a column header
    by the table view of [collectionseditor.py]: the same column again
    moves to the next direction, another column starts at
    [Ascending]. *)
Definition activate (c : Column) (s : SortState) : SortState :=
  if column_eqb c (sort_column s)
  then mk_SortState c (next_direction (direction s))
  else mk_SortState c Ascending.

(** Modelled from the spec: a sort state of the view of
    [collectionseditor.py] in which rows are in insertion order, as for a
    dictionary that has just been opened. *)
Definition unsorted : SortState := mk_SortState KeyColumn InsertionOrder.

(** Modelled from the spec: the comparator of the descending direction
    of [CollectionsModel.sort]: the comparator of the column with the
    two rows exchanged. *)
Definition reversed {A : Type} (cmp : A -> A -> comparison) (a b : A)
    : comparison :=
  cmp b a.

(** Modelled from the spec: the row order [CollectionsModel.sort]
    produces from the entries in insertion order: the stable sort by
    the comparator of the column, the stable sort by that comparator
    reversed, or the insertion order itself.  Sorting is stable in both
    directions: rows that compare equal keep their insertion order. *)
Definition row_order (s : SortState) (entries : list Entry) : list Entry :=
  match direction s with
  | Ascending => stable_sort (leb_of (column_compare (sort_column s))) entries
  | Descending =>
      stable_sort (leb_of (reversed (column_compare (sort_column s)))) entries
  | InsertionOrder => entries
  end.

(** ** Paged loading *)

(** Modelled from the spec: [rows_loaded] of [CollectionsModel] and the
    page size [ROWS_TO_LOAD]. *)
Record PageWindow : Type := mk_PageWindow {
  loaded_count : nat;
  page_size : nat
}.

Inductive LoadState : Type := Unloaded | PartiallyLoaded | FullyLoaded.

(** Modelled from the spec: the loading state of [CollectionsModel],
    read off its page window and the number of entries. *)
Definition load_state (total : nat) (w : PageWindow) : LoadState :=
  if (loaded_count w =? total)%nat then FullyLoaded
  else if (loaded_count w =? 0)%nat then Unloaded
  else PartiallyLoaded.

(** Modelled from the spec: [CollectionsModel.fetchMore]: nothing once
    fully loaded, otherwise one more page, clamped to the number of
    entries. *)
Definition fetch_more (total : nat) (w : PageWindow) : PageWindow :=
  match load_state total w with
  | FullyLoaded => w
  | _ => mk_PageWindow (Nat.min (loaded_count w + page_size w) total)
                       (page_size w)
  end.

(** Modelled from the spec: [CollectionsModel.rowCount]: the rows
    loaded. *)
Definition row_count (w : PageWindow) : nat := loaded_count w.

(** Modelled from the spec: the rows [CollectionsModel] shows: the
    loaded part of the row order. *)
Definition visible_rows (s : SortState) (w : PageWindow)
    (entries : list Entry) : list Entry :=
  firstn (loaded_count w) (row_order s entries).

(** [ceil(total / page)] *)
Definition pages_needed (total page : nat) : nat :=
  (total + page - 1) / page.

End CollectionsModel.

(* ===================================================================== *)
(** * Concrete consoles, models and delegates                             *)
(* ===================================================================== *)

Module Inputs.
Import Py Values NamespaceBrowser.

(** Release numbers of a dotted version such as ["3.10.4"]. *)
Definition release_of (v : string) : list nat :=
  map CollectionsModel.digits_value
    (CollectionsDelegate.split "."%char (list_ascii_of_string v)).

(** [parse(a) < parse(b)] on dotted versions. *)
Definition release_lt (a b : string) : bool :=
  match CollectionsModel.list_compare Nat.compare
          (release_of a) (release_of b) with
  | Lt => true
  | _ => false
  end.

(** [ModuleNotFoundError("No module named 'name'", name=name)], as an
    [import] of this process raises it. *)
Definition module_not_found (name : string) : exception :=
  {| exc_mro := [ModuleNotFoundError; UserClass "ImportError"; Exception;
                 BaseException];
     exc_str := "No module named '" ++ name ++ "'";
     exc_args := [ArgText ("No module named '" ++ name ++ "'")];
     exc_name := Some name |}.

(** [ModuleNotFoundError(wrapper)], as the comm re-raises an import
    error of the kernel. *)
Definition remote_module_not_found (name : string) : exception :=
  {| exc_mro := [ModuleNotFoundError; UserClass "ImportError"; Exception;
                 BaseException];
     exc_str := "No module named '" ++ name ++ "'";
     exc_args := [ArgCommsErrorWrapper (Some name)];
     exc_name := None |}.

(** A console whose kernel answers and whose answers fail to load with
    [e]; Spyder and the kernel run Python 3.11.4. *)
Definition shell_failing_loads (e : exception) : Shell value :=
  {| kernel_get_value := fun _ => Ok "payload";
     kernel_set_value := fun _ _ => Ok tt;
     cloudpickle_loads := fun _ => Raise e;
     cloudpickle_dumps := fun _ => Ok "payload";
     sys_version_info := [3; 11; 4];
     pythonenv_python_version := "3.11.4";
     version_lt := release_lt;
     is_conda_based_app := false |}.

(** A console whose kernel calls raise [e]. *)
Definition shell_failing_kernel (e : exception) : Shell value :=
  {| kernel_get_value := fun _ => Raise e;
     kernel_set_value := fun _ _ => Raise e;
     cloudpickle_loads := fun _ => Ok VNone;
     cloudpickle_dumps := fun _ => Ok "payload";
     sys_version_info := [3; 11; 4];
     pythonenv_python_version := "3.11.4";
     version_lt := release_lt;
     is_conda_based_app := false |}.

(** A console in which values cannot be encoded: [cloudpickle.dumps]
    raises [e]. *)
Definition shell_failing_dumps (e : exception) : Shell value :=
  {| kernel_get_value := fun _ => Ok "payload";
     kernel_set_value := fun _ _ => Ok tt;
     cloudpickle_loads := fun _ => Ok VNone;
     cloudpickle_dumps := fun _ => Raise e;
     sys_version_info := [3; 11; 4];
     pythonenv_python_version := "3.11.4";
     version_lt := release_lt;
     is_conda_based_app := false |}.

End Inputs.

(* ===================================================================== *)
(** * A concrete model and delegates over it                              *)
(* ===================================================================== *)

Module DelegateInputs.
Import Py Values CollectionsDelegate.

(** A model over rows of key, type tag, size and value.  When [rm_locked]
    is set, [set_value] raises as the assignment of an attribute without
    a setter does. *)
Record RowModel : Type := mk_RowModel {
  rm_rows : list (key * string * cell * value);
  rm_locked : bool
}.

Definition rm_key (r : key * string * cell * value) : key := fst (fst (fst r)).
Definition rm_type (r : key * string * cell * value) : string :=
  snd (fst (fst r)).
Definition rm_size (r : key * string * cell * value) : cell := snd (fst r).
Definition rm_value (r : key * string * cell * value) : value := snd r.

Definition rm_row (m : RowModel) (i : nat)
    : option (key * string * cell * value) :=
  nth_error (rm_rows m) i.

Fixpoint set_row_value (rows : list (key * string * cell * value)) (i : nat)
    (v : value) : list (key * string * cell * value) :=
  match rows, i with
  | [], _ => []
  | (k, t, sz, _) :: rest, O => (k, t, sz, v) :: rest
  | r :: rest, S j => r :: set_row_value rest j v
  end.

Fixpoint position_of (k : key) (rows : list (key * string * cell * value))
    : option nat :=
  match rows with
  | [] => None
  | r :: rest =>
      if key_eqb (rm_key r) k then Some 0
      else option_map S (position_of k rest)
  end.

Definition key_text (k : key) : string :=
  match k with
  | KStr s => s
  | KInt _ => repr_key k
  end.

#[export] Instance row_model : TableModel RowModel := {|
  m_type_data := fun m i =>
    match rm_row m i with Some r => rm_type r | None => "" end;
  m_size_data := fun m i =>
    match rm_row m i with Some r => rm_size r | None => CellInt 0 end;
  m_keys := fun m => map rm_key (rm_rows m);
  m_get_key := fun m i =>
    match rm_row m i with Some r => rm_key r | None => KInt 0 end;
  m_obj_name := fun m i =>
    match rm_row m i with Some r => key_text (rm_key r) | None => "" end;
  m_obj_path := fun m i =>
    match rm_row m i with
    | Some r => ("obj." ++ key_text (rm_key r))%string
    | None => "obj"
    end;
  m_get_value := fun m i =>
    match rm_row m i with
    | Some r => Ok (rm_value r)
    | None => Raise (new_exception IndexError "list index out of range")
    end;
  m_tree_item_obj := fun m i =>
    match rm_row m i with Some r => rm_value r | None => VNone end;
  m_set_tree_item_obj := fun m i v =>
    mk_RowModel (set_row_value (rm_rows m) i v) (rm_locked m);
  m_set_value := fun m i v =>
    if rm_locked m
    then (m, Some (new_exception AttributeError "can't set attribute"))
    else (mk_RowModel (set_row_value (rm_rows m) i v) (rm_locked m), None);
  m_get_index_from_key := fun m k =>
    match position_of k (rm_rows m) with
    | Some i => mk_Index i 0 true
    | None => mk_Index 0 0 false
    end;
  m_row_type := fun m i =>
    match rm_row m i with Some r => rm_type r | None => "" end
|}.

(** The attributes of an object: [x] holds 1. *)
Definition point_rows : list (key * string * cell * value) :=
  [(KStr "x", "int", CellInt 1, VInt 1)].

(** A session opened on attribute [x], whose editor now holds 2. *)
Definition session_x (readonly : bool) : Session :=
  mk_Session (mk_Editor TextEditor (VInt 2) readonly None)
    (KStr "x") readonly None.

(** A delegate with the session registered under 7 and attribute [x]
    being edited. *)
Definition delegate_x (locked readonly : bool) : Delegate RowModel :=
  mk_Delegate {[ 7 := session_x readonly ]} (Some (RootFun "obj")) false
    (mk_RowModel point_rows locked) [] true (Some (mk_Index 0 3 true)) VNone.

(** An environment in which every type is known and editable and every
    library is installed. *)
Definition env_all_known : Env :=
  {| is_known_type := fun _ => true;
     is_editable_type := fun v =>
       match v with
       | VBool _ | VInt _ | VStr _ | VList _ | VSet _ | VDict _ | VTuple _ =>
           true
       | _ => false
       end;
     numpy_available := true;
     pil_available := true;
     pandas_available := true;
     warning_answer_no := false;
     setup_and_check := fun _ _ => true;
     new_editor_id := 8;
     np_array := fun v => v;
     pil_fromarray := fun _ arr => Ok arr;
     copy_of := fun v => Ok v |}.

(** A namespace in which [obj] is an object without attributes. *)
Definition ns_bare_object (name : string) : result value :=
  if String.eqb name "obj" then Ok (VObject (OtherClass "Point") [])
  else Raise (new_exception KeyError ("'" ++ name ++ "'")).

(** A namespace in which [xxx] is the dictionary [{'aaa': 1}]. *)
Definition ns_dict (name : string) : result value :=
  if String.eqb name "xxx" then Ok (VDict [(KStr "aaa", VInt 1)])
  else Raise (new_exception KeyError ("'" ++ name ++ "'")).

End DelegateInputs.

(* ===================================================================== *)
(** * Entries of a table model                                            *)
(* ===================================================================== *)

Module ModelInputs.
Import CollectionsModel.

(** The row of an integer held under a key. *)
Definition int_entry (k : string) (v : Z) (shown : string) : Entry :=
  mk_Entry k "int" (Count 1) shown (Some (inject_Z v)).

(** The dictionary [{2: 3, 3: 1, 1: 2}], in insertion order. *)
Definition my_dict : list Entry :=
  [int_entry "2" 3 "3"; int_entry "3" 1 "1"; int_entry "1" 2 "2"].

(** The dictionary [{'a': 1, 'b': 1}], in insertion order: two rows
    holding the same value. *)
Definition tied_rows : list Entry :=
  [int_entry "a" 1 "1"; int_entry "b" 1 "1"].

(** [ROWS_TO_LOAD] and the window of a model just opened on more rows
    than that. *)
Definition ROWS_TO_LOAD : nat := 50.
Definition first_page : PageWindow := mk_PageWindow ROWS_TO_LOAD ROWS_TO_LOAD.

End ModelInputs.

(* ===================================================================== *)
(** * Predicates used in the statements                                   *)
(* ===================================================================== *)

Module Statements.
Import Py Values NamespaceBrowser.

(** The [try] block of [get_value] raises [e]: in the kernel call
    ([kernel_call_success = false]) or while loading its answer. *)
Definition fetch_raises {Value : Type} (sh : Shell Value) (name : string)
    (kernel_call_success : bool) (e : exception) : Prop :=
  (kernel_call_success = false /\ kernel_get_value sh name = Raise e)
  \/ (kernel_call_success = true /\
      exists encoded, kernel_get_value sh name = Ok encoded /\
                      cloudpickle_loads sh encoded = Raise e).

(** The clause [except classes] is the first to match [e], [earlier]
    being the classes of the clauses before it. *)
Definition first_match (e : exception) (classes earlier : list exc_class)
    : Prop :=
  isinstance_any e classes = true /\ isinstance_any e earlier = false.

(** The classes of the [except] clauses of [get_value], clause by
    clause, each list holding the classes of the clauses before the one
    it is named after. *)
Definition pickle_classes : list exc_class :=
  [PicklingError; UnpicklingError; TypeError].
Definition before_runtime : list exc_class := TimeoutError :: pickle_classes.
Definition before_key : list exc_class := before_runtime ++ [RuntimeError].
Definition before_comm : list exc_class := before_key ++ [KeyError].
Definition before_module : list exc_class := before_comm ++ [CommError].
Definition before_exception : list exc_class :=
  before_module ++ [ModuleNotFoundError].

(** The version-mismatch explanation [get_value] builds for console
    [sh]. *)
Definition python_mismatch_reason {Value : Type} (sh : Shell Value)
    : string :=
  let spyder := join "." (map str_of_nat (firstn 3 (sys_version_info sh))) in
  let kernel := pythonenv_python_version sh in
  if version_lt sh spyder kernel
  then reason_mismatched_python spyder kernel "3.10" "lower"
  else reason_mismatched_python spyder kernel "3.11" "greater".

(** [e] is a [ValueError] whose message is the note around [reason]. *)
Definition explains (e : exception) (reason : string) : Prop :=
  e = value_error (msg reason).

(** ** Terms of the risk decision *)

(** The type tag names a built-in collection. *)
Definition collection_tag (val_type : string) : bool :=
  CollectionsDelegate.in_strings val_type ["list"; "set"; "tuple"; "dict"].

(** The type tag names a frame or an array: [DataFrame], [Series], or a
    tag containing [Array] or [Index]. *)
Definition array_like_tag (val_type : string) : bool :=
  CollectionsDelegate.in_strings val_type ["DataFrame"; "Series"]
  || contains val_type "Array" || contains val_type "Index".

(** The element count a size cell declares, when it holds an integer
    or the text of one. *)
Definition declared_count (val_size : CollectionsDelegate.cell) : option Z :=
  match CollectionsDelegate.py_int val_size with
  | Ok n => Some n
  | Raise _ => None
  end.

(** The dimensions a size cell declares: the integers between the
    parentheses of a text such as ["(3, 4)"], when it is a text, every
    piece between commas is empty or an integer, and there is at least
    one integer. *)
Definition declared_dims (val_size : CollectionsDelegate.cell)
    : option (list Z) :=
  match val_size with
  | CollectionsDelegate.CellInt _ => None
  | CollectionsDelegate.CellStr s =>
      match CollectionsDelegate.int_of_pieces
              (CollectionsDelegate.split ","%char
                 (CollectionsDelegate.strip CollectionsDelegate.is_paren
                    (list_ascii_of_string s))) with
      | Ok (d :: ds) => Some (d :: ds)
      | _ => None
      end
  end.

(** ** Terms of the closing of a session *)

(** The delegate once session [editor_id] is dropped from the registry. *)
Definition without_session {M : Type} (editor_id : nat)
    (self : CollectionsDelegate.Delegate M) : CollectionsDelegate.Delegate M :=
  CollectionsDelegate.with_editors
    (delete editor_id (CollectionsDelegate._editors self)) self.

(** ** Terms of the accessors and of the read-only flag *)

(** What key [k] designates in [data]: the item of a list, tuple,
    dictionary or set, the attribute of anything else. *)
Definition target_item (data : value) (k : key) : result value :=
  if is_tuple_list_dict_set data then getitem data k else getattr data k.

(** The failure is one that both accessors turn into [None]. *)
Definition turned_into_none (e : exception) : bool :=
  isinstance_any e CollectionsDelegate.datafun_caught.

(** [v] is a tuple, [v] is a set. *)
Definition is_tuple (v : value) : Prop := exists items, v = VTuple items.
Definition is_set (v : value) : Prop := exists items, v = VSet items.

(** The frame branch of [CollectionsDelegate.createEditor] is taken for
    a row whose type is a Polars frame. *)
Definition polars_forced {M : Type} `{CollectionsDelegate.TableModel M}
    (env : CollectionsDelegate.Env) (index : CollectionsDelegate.Index)
    (object_explorer : bool) (self : CollectionsDelegate.Delegate M)
    (v : value) : bool :=
  is_pandas v && CollectionsDelegate.pandas_available env
  && negb object_explorer
  && String.eqb
       (CollectionsDelegate.m_row_type (CollectionsDelegate.model self)
          (CollectionsDelegate.row index))
       "Polars DataFrame".

(** ** Terms of the natural sort *)

(** Adjacent runs differ in kind. *)
Fixpoint alternating (runs : list (bool * list ascii)) : Prop :=
  match runs with
  | r1 :: ((r2 :: _) as rest) => fst r1 <> fst r2 /\ alternating rest
  | _ => True
  end.

(** A run is not empty and holds digits only, or no digit at all, as its
    flag says. *)
Definition run_well_formed (r : bool * list ascii) : Prop :=
  snd r <> [] /\ Forall (fun c => CollectionsModel.is_digit c = fst r) (snd r).

(** The key [testN]. *)
Definition test_key (n : nat) : string := "test" ++ str_of_nat n.

(** The lexicographic order of lists over an order [lt] of their
    elements: the first place where two lists differ decides, and a list
    comes before every longer list it starts. *)
Inductive lex_lt {A : Type} (lt : A -> A -> Prop)
    : list A -> list A -> Prop :=
| lex_lt_shorter (y : A) (l' : list A) : lex_lt lt [] (y :: l')
| lex_lt_here (x y : A) (l l' : list A) :
    lt x y -> lex_lt lt (x :: l) (y :: l')
| lex_lt_later (x : A) (l l' : list A) :
    lex_lt lt l l' -> lex_lt lt (x :: l) (x :: l').

(** The order of characters, by code. *)
Definition char_lt (c d : ascii) : Prop := nat_of_ascii c < nat_of_ascii d.

(** The lexicographic order of texts. *)
Definition text_lt : list ascii -> list ascii -> Prop := lex_lt char_lt.

(** The order of runs: numbers by value, texts lexicographically, a
    number before a text. *)
Inductive run_lt : CollectionsModel.run -> CollectionsModel.run -> Prop :=
| run_lt_numbers (x y : nat) :
    x < y -> run_lt (CollectionsModel.Num x) (CollectionsModel.Num y)
| run_lt_texts (x y : list ascii) :
    text_lt x y -> run_lt (CollectionsModel.Txt x) (CollectionsModel.Txt y)
| run_lt_number_text (x : nat) (y : list ascii) :
    run_lt (CollectionsModel.Num x) (CollectionsModel.Txt y).

(** The natural order of keys: run by run. *)
Definition key_lt (a b : string) : Prop :=
  lex_lt run_lt (CollectionsModel.natural_key a)
    (CollectionsModel.natural_key b).

(** ** Terms of the sort directions *)

(** Exchanging the two sides of a comparison gives the opposite
    answer. *)
Definition cmp_antisymmetric {A : Type} (cmp : A -> A -> comparison) : Prop :=
  forall x y, cmp y x = CompOpp (cmp x y).

(** Not greater is transitive among the members of [l]. *)
Definition cmp_transitive_on {A : Type} (cmp : A -> A -> comparison)
    (l : list A) : Prop :=
  forall x y z, In x l -> In y l -> In z l ->
    cmp x y <> Gt -> cmp y z <> Gt -> cmp x z <> Gt.

(** Not greater is transitive. *)
Definition cmp_transitive {A : Type} (cmp : A -> A -> comparison) : Prop :=
  forall x y z, cmp x y <> Gt -> cmp y z <> Gt -> cmp x z <> Gt.

(** No two different members of [l] compare equal. *)
Definition without_ties {A : Type} (cmp : A -> A -> comparison)
    (l : list A) : Prop :=
  forall x y, In x l -> In y l -> cmp x y = Eq -> x = y.

(** The rows of [l] that compare equal to [x], in the order of [l]. *)
Definition tied_with {A : Type} (cmp : A -> A -> comparison) (x : A)
    (l : list A) : list A :=
  List.filter (fun y => match cmp x y with Eq => true | _ => false end) l.

(** The values of the rows are all numbers, or none is. *)
Definition values_of_one_kind (entries : list CollectionsModel.Entry) : Prop :=
  Forall (fun e => CollectionsModel.number e <> None) entries
  \/ Forall (fun e => CollectionsModel.number e = None) entries.

(** The dimensions multiplied together. *)
Definition product (dims : list Z) : Z := fold_right Z.mul 1%Z dims.

End Statements.

(* ===================================================================== *)
(** * Further predicates used in the statements                           *)
(* ===================================================================== *)

Module MoreStatements.
Import Py Values.

(** How many times signal [s] was emitted in a log. *)
Definition signal_eqb (a b : CollectionsDelegate.signal) : bool :=
  match a, b with
  | CollectionsDelegate.sig_free_memory_requested,
    CollectionsDelegate.sig_free_memory_requested
  | CollectionsDelegate.sig_editor_creation_started,
    CollectionsDelegate.sig_editor_creation_started
  | CollectionsDelegate.sig_editor_shown,
    CollectionsDelegate.sig_editor_shown => true
  | _, _ => false
  end.

Fixpoint count_emitted (s : CollectionsDelegate.signal)
    (events : list CollectionsDelegate.event) : nat :=
  match events with
  | [] => 0
  | CollectionsDelegate.Emitted s' :: rest =>
      (if signal_eqb s s' then 1 else 0) + count_emitted s rest
  | _ :: rest => count_emitted s rest
  end.

(** The characters of [str(n)]. *)
Definition digits_of (n : nat) : list ascii :=
  list_ascii_of_string (str_of_nat n).

(** The items of the text of a tuple with more than one dimension:
    [d], then [", "] and the next dimension, and so on. *)
Fixpoint tuple_items (d : nat) (rest : list nat) : list ascii :=
  match rest with
  | [] => digits_of d
  | d' :: rest' =>
      digits_of d ++ ","%char :: " "%char :: tuple_items d' rest'
  end.

(** [str(dims)] for a tuple of non-negative integers, as the size column
    shows a shape: ["()"], ["(3,)"], ["(3, 4)"]. *)
Definition tuple_text (dims : list nat) : string :=
  string_of_list_ascii
    (match dims with
     | [] => ["("; ")"]%char
     | [d] => "("%char :: digits_of d ++ [","; ")"]%char
     | d :: rest => "("%char :: tuple_items d rest ++ [")"%char]
     end).

(** No character of the name is a dot. *)
Definition dotless (name : string) : Prop :=
  Forall (fun c => Ascii.eqb c "."%char = false) (list_ascii_of_string name).

(** The bound below which an integer is edited in place: its bit length
    is under [MAX_INT_BIT_LENGTH_FOR_EDITING]. *)
Definition editable_int_bound : Z :=
  (2 ^ (CollectionsDelegate.MAX_INT_BIT_LENGTH_FOR_EDITING - 1))%Z.

(** Every exception the model raises from [set_value], and every one the
    conversion function of the session raises, is an [Exception]. *)
Definition store_raises_exceptions_only {M : Type}
    `{CollectionsDelegate.TableModel M} (m : M)
    (data : CollectionsDelegate.Session) : Prop :=
  (forall i v m' e,
     CollectionsDelegate.m_set_value m i v = (m', Some e) ->
     isinstance e Exception = true)
  /\ (forall conv_func v e,
        CollectionsDelegate.ses_conv data = Some conv_func ->
        conv_func v = Raise e ->
        isinstance e Exception = true).

End MoreStatements.

(* ===================================================================== *)
(** * Further concrete delegates                                          *)
(* ===================================================================== *)

Module MoreInputs.
Import Py Values CollectionsDelegate DelegateInputs.

(** An object whose attribute [items] is the list [[1]], shown by an
    object explorer that has opened no editor yet. *)
Definition delegate_items : Delegate RowModel :=
  mk_Delegate (∅ : gmap nat Session) (Some (RootFun "obj")) false
    (mk_RowModel [(KStr "items", "list", CellInt 1, VList [VInt 1])] false)
    [] true None VNone.

(** The model of [delegate_items] after the nested editor appended 2 to
    the list. *)
Definition items_edited : RowModel :=
  mk_RowModel [(KStr "items", "list", CellInt 2, VList [VInt 1; VInt 2])] false.

(** A session on attribute [x] whose conversion function fails, as
    [PIL.Image.fromarray] does on an array it cannot encode. *)
Definition session_failing_conv : Session :=
  mk_Session (mk_Editor ArrayEditor (VInt 2) false None) (KStr "x") false
    (Some (fun _ => Raise (new_exception TypeError "Cannot handle this data type"))).

Definition delegate_failing_conv : Delegate RowModel :=
  mk_Delegate {[ 7 := session_failing_conv ]} (Some (RootFun "obj")) false
    (mk_RowModel point_rows false) [] true None VNone.

(** [display_to_value] for integers: the text of a number gives the
    number, anything else raises [ValueError]. *)
Definition display_to_int (text : string) (current : value) : result value :=
  match int_of_text (list_ascii_of_string text) with
  | Ok z => Ok (VInt z)
  | Raise e => Raise e
  end.

End MoreInputs.

(* ===================================================================== *)
(** * Facts about namespacebrowser.py                                     *)
(* ===================================================================== *)

Module NamespaceBrowserFacts.
Import Py Values NamespaceBrowser Statements Inputs.

Lemma isinstance_any_cons (e : exception) (c : exc_class)
    (cs : list exc_class) :
  isinstance_any e (c :: cs) = isinstance e c || isinstance_any e cs.
Proof. reflexivity. Qed.

(** A failing fetch goes through the [except] clauses. *)
Lemma get_value_of_failure {Value : Type} (sh : Shell Value) (name : string)
    (kcs : bool) (e : exception) :
  fetch_raises sh name kcs e ->
  get_value sh name = get_value_except sh kcs e.
Proof.
  unfold fetch_raises, get_value.
  intros [[-> Hk] | [-> (encoded & Hk & Hl)]]; rewrite Hk; [reflexivity |].
  rewrite Hl. reflexivity.
Qed.

(** The clauses never return a value. *)
Lemma get_value_except_raises {Value : Type} (sh : Shell Value) (kcs : bool)
    (e : exception) :
  exists e', get_value_except sh kcs e = Raise e'.
Proof.
  unfold get_value_except.
  repeat match goal with
         | |- context [if ?b then _ else _] => destruct b
         | |- context [let* _ := ?r in _] => destruct r; simpl
         | |- context [let '(_, _) := ?p in _] => destruct p
         end; eauto.
Qed.

(** Closes a goal about [e'] from [H : Raise _ = Raise e']. *)
Ltac raised H := injection H as <-; reflexivity.


(** When a [CommError] is also an instance of [RuntimeError], as for a
    class deriving from it, the clause of [RuntimeError] comes first and
    the explanation is the dead kernel. *)
Lemma get_value_comm_error_caught_as_runtime_error {Value : Type}
    (sh : Shell Value) (name : string) (kcs : bool) (e : exception) :
  fetch_raises sh name kcs e ->
  isinstance e CommError = true ->
  first_match e [RuntimeError] before_runtime ->
  get_value sh name = Raise (value_error (msg reason_dead)).
Proof.
  intros Hfail _ [Hrun Hbefore].
  rewrite (get_value_of_failure sh name kcs e Hfail).
  unfold get_value_except.
  unfold before_runtime, pickle_classes in Hbefore.
  rewrite isinstance_any_cons in Hbefore.
  apply orb_false_iff in Hbefore. destruct Hbefore as [Htime Hpickle].
  rewrite isinstance_any_cons, orb_false_r in Hrun.
  rewrite Htime, Hpickle, Hrun. reflexivity.
Qed.



(** C2, as amended: an exception of the encoding, which runs before the
    [try] block, reaches the caller unchanged; an [Exception] of the
    kernel call that is no [ModuleNotFoundError] is discarded and
    [set_value] returns; a [ModuleNotFoundError] whose first argument
    wraps a kernel error with a module name raises a [ValueError] with
    the Numpy explanation when that name starts with [numpy._core], and
    is discarded otherwise. *)
Theorem set_value_failure_handling {Value : Type} (sh : Shell Value)
    (name : string) (v : Value) :
  (forall e, cloudpickle_dumps sh v = Raise e ->
     set_value sh name v = Raise e)
  /\ (forall encoded e,
        cloudpickle_dumps sh v = Ok encoded ->
        kernel_set_value sh name encoded = Raise e ->
        (isinstance e ModuleNotFoundError = false ->
         isinstance e Exception = true ->
         set_value sh name v = Ok tt)
        /\ (isinstance e ModuleNotFoundError = true ->
            forall n, args0_error_name e = Ok (Some n) ->
              set_value sh name v =
                if startswith n "numpy._core"
                then Raise (value_error (msg set_reason_mismatched_numpy))
                else Ok tt)).
Proof.
  split.
  - intros e Hdumps. unfold set_value. rewrite Hdumps. reflexivity.
  - intros encoded e Hdumps Hcall. unfold set_value.
    rewrite Hdumps. cbn [bind]. rewrite Hcall. split.
    + intros Hmod Hexc. rewrite Hmod, Hexc. reflexivity.
    + intros Hmod n Hname. rewrite Hmod, Hname. cbn [bind opt_startswith].
      destruct (startswith n "numpy._core"); reflexivity.
Qed.

(** The C2 theorem at a kernel that is dead when the value is sent. *)
Lemma set_value_failure_handling_witness :
  set_value
    (shell_failing_kernel (new_exception RuntimeError "Kernel is dead"))
    "x" (VInt 1) = Ok tt.
Proof.
  apply (proj2 (set_value_failure_handling
                  (shell_failing_kernel
                     (new_exception RuntimeError "Kernel is dead"))
                  "x" (VInt 1))
           "payload" (new_exception RuntimeError "Kernel is dead")
           eq_refl eq_refl);
    reflexivity.
Defined.

(** A kernel that lacks the [numpy._core] modules of the value sent: the
    one failure of the kernel call that [set_value] reports. *)
Lemma set_value_numpy_mismatch :
  set_value
    (shell_failing_kernel (remote_module_not_found "numpy._core.multiarray"))
    "x" (VInt 1)
  = Raise (value_error (msg set_reason_mismatched_numpy))
  /\ set_value
       (shell_failing_kernel (remote_module_not_found "mypackage"))
       "x" (VInt 1)
     = Ok tt.
Proof. split; reflexivity. Qed.

(** C2, as stated, fails for the encoding: a value that cannot be
    pickled makes [set_value] raise the pickling error. *)
Lemma set_value_encoding_failure_reaches_caller :
  cloudpickle_dumps
    (shell_failing_dumps (new_exception PicklingError "Can't pickle"))
    (VInt 1)
  = Raise (new_exception PicklingError "Can't pickle")
  /\ set_value
       (shell_failing_dumps (new_exception PicklingError "Can't pickle"))
       "x" (VInt 1)
     = Raise (new_exception PicklingError "Can't pickle")
  /\ set_value
       (shell_failing_dumps (new_exception PicklingError "Can't pickle"))
       "x" (VInt 1)
     <> Ok tt.
Proof.
  split; [reflexivity | split; [reflexivity |]].
  intros Heq. discriminate Heq.
Qed.

End NamespaceBrowserFacts.

(* ===================================================================== *)
(** * Facts about collectionsdelegate.py                                  *)
(* ===================================================================== *)

Module CollectionsDelegateFacts.
Import Py Values CollectionsDelegate Statements Inputs DelegateInputs.

(** ** The risk decision *)

Lemma fold_left_mul (zs : list Z) (a : Z) :
  fold_left Z.mul zs a = (a * product zs)%Z.
Proof.
  revert a. induction zs as [| z zs IH]; intros a; simpl.
  - lia.
  - rewrite IH. unfold product. lia.
Qed.

Lemma reduce_mul_product (d : Z) (ds : list Z) :
  reduce_mul (d :: ds) = Ok (product (d :: ds)).
Proof.
  unfold reduce_mul. rewrite fold_left_mul. reflexivity.
Qed.

(** A collection tag is one of four words, none of them array-like. *)
Lemma collection_tag_not_array_like (val_type : string) :
  collection_tag val_type = true -> array_like_tag val_type = false.
Proof.
  unfold collection_tag, in_strings. cbn [existsb].
  intros Htag.
  repeat (apply orb_true_iff in Htag; destruct Htag as [Htag | Htag]);
    try discriminate Htag;
    apply String.eqb_eq in Htag; subst val_type; reflexivity.
Qed.

(** Every exception the [try] block of [show_warning] raises is an
    [Exception]. *)
Lemma int_of_text_exception (l : list ascii) (e : exception) :
  int_of_text l = Raise e -> isinstance e Exception = true.
Proof.
  unfold int_of_text.
  destruct (match strip is_space l with
            | [] => _
            | _ => _
            end); intros Heq; [discriminate Heq |].
  injection Heq as <-. reflexivity.
Qed.

Lemma int_of_pieces_exception (pieces : list (list ascii)) (e : exception) :
  int_of_pieces pieces = Raise e -> isinstance e Exception = true.
Proof.
  induction pieces as [| piece rest IH]; simpl; [discriminate |].
  destruct piece as [| c piece]; [exact IH |].
  destruct (int_of_text (c :: piece)) eqn:Hint; simpl.
  - destruct (int_of_pieces rest); simpl; [discriminate |].
    intros Heq. injection Heq as <-. apply IH. reflexivity.
  - intros Heq. injection Heq as <-.
    exact (int_of_text_exception _ _ Hint).
Qed.

(** What the [try] block computes, in terms of the declared
    dimensions. *)
Lemma show_warning_try_dims (val_size : cell) :
  match declared_dims val_size with
  | Some dims => show_warning_try val_size = Ok (LARGE_ARRAY <? product dims)%Z
  | None =>
      exists e, show_warning_try val_size = Raise e
                /\ isinstance e Exception = true
  end.
Proof.
  unfold declared_dims, show_warning_try.
  destruct val_size as [z | s]; simpl.
  - eexists. split; reflexivity.
  - destruct (int_of_pieces _) as [[| d ds] | e] eqn:Hpieces; simpl.
    + eexists. split; reflexivity.
    + rewrite fold_left_mul. reflexivity.
    + exists e. split; [reflexivity |].
      exact (int_of_pieces_exception _ _ Hpieces).
Qed.

Lemma show_warning_collection (val_type : string) (val_size : cell) :
  collection_tag val_type = true ->
  show_warning val_type val_size =
    let* n := py_int val_size in Ok (LARGE_COLLECTION <? n)%Z.
Proof.
  unfold collection_tag, show_warning. intros ->.
  destruct (py_int val_size) as [n | e]; simpl; [| reflexivity].
  destruct (LARGE_COLLECTION <? n)%Z; reflexivity.
Qed.

Lemma show_warning_array_like (val_type : string) (val_size : cell) :
  collection_tag val_type = false ->
  array_like_tag val_type = true ->
  show_warning val_type val_size =
    match declared_dims val_size with
    | Some dims => Ok (LARGE_ARRAY <? product dims)%Z
    | None => Ok false
    end.
Proof.
  unfold collection_tag, array_like_tag, show_warning. intros -> ->.
  pose proof (show_warning_try_dims val_size) as Htry.
  destruct (declared_dims val_size) as [dims |].
  - rewrite Htry. destruct (LARGE_ARRAY <? product dims)%Z; reflexivity.
  - destruct Htry as (e & -> & ->). reflexivity.
Qed.

Lemma show_warning_other (val_type : string) (val_size : cell) :
  collection_tag val_type = false ->
  array_like_tag val_type = false ->
  show_warning val_type val_size = Ok false.
Proof.
  unfold collection_tag, array_like_tag, show_warning. intros -> ->.
  reflexivity.
Qed.

(** C7, as amended: [show_warning] returns true exactly when the type
    tag is a collection tag and the declared count exceeds
    [LARGE_COLLECTION], or the tag is array-like and the declared
    dimensions multiplied exceed [LARGE_ARRAY].  It returns, without
    raising, for every tag that is not a collection tag, whatever the
    size cell holds, and for a collection tag when the size cell
    declares a count. *)
Theorem show_warning_decision (val_type : string) (val_size : cell) :
  (show_warning val_type val_size = Ok true <->
     (collection_tag val_type = true /\
      exists n, declared_count val_size = Some n
                /\ (LARGE_COLLECTION < n)%Z)
     \/ (array_like_tag val_type = true /\
         exists dims, declared_dims val_size = Some dims
                      /\ (LARGE_ARRAY < product dims)%Z))
  /\ (collection_tag val_type = false ->
      exists b, show_warning val_type val_size = Ok b)
  /\ (forall n, declared_count val_size = Some n ->
      exists b, show_warning val_type val_size = Ok b).
Proof.
  destruct (collection_tag val_type) eqn:Hcoll.
  - pose proof (collection_tag_not_array_like _ Hcoll) as Harr.
    rewrite (show_warning_collection _ val_size Hcoll).
    unfold declared_count.
    destruct (py_int val_size) as [n | e]; simpl.
    + repeat split.
      * intros Heq. injection Heq as Hlt. left. split; [reflexivity |].
        exists n. split; [reflexivity |]. lia.
      * intros [(_ & m & Hm & Hlt) | (Habs & _)]; [| congruence].
        injection Hm as ->. f_equal. lia.
      * discriminate.
      * eauto.
    + repeat split.
      * discriminate.
      * intros [(_ & m & Hm & _) | (Habs & _)]; congruence.
      * discriminate.
      * discriminate.
  - destruct (array_like_tag val_type) eqn:Harr.
    + rewrite (show_warning_array_like _ val_size Hcoll Harr).
      destruct (declared_dims val_size) as [dims |].
      * repeat split; eauto.
        -- intros Heq. injection Heq as Hlt. right. split; [reflexivity |].
           exists dims. split; [reflexivity |]. lia.
        -- intros [(Habs & _) | (_ & ds & Hds & Hlt)]; [discriminate |].
           injection Hds as ->. f_equal. lia.
      * repeat split; eauto.
        -- discriminate.
        -- intros [(Habs & _) | (_ & ds & Hds & _)]; discriminate.
    + rewrite (show_warning_other _ val_size Hcoll Harr).
      repeat split; eauto.
      * discriminate.
      * intros [(Habs & _) | (Habs & _)]; discriminate.
Qed.

(** The C7 theorem on a frame of 3000 by 3000 cells. *)
Lemma show_warning_decision_witness :
  show_warning "DataFrame" (CellStr "(3000, 3000)") = Ok true.
Proof.
  apply (proj2 (proj1 (show_warning_decision "DataFrame"
                         (CellStr "(3000, 3000)")))).
  right. split; [reflexivity |].
  exists [3000; 3000]%Z. split; [reflexivity |].
  vm_compute. reflexivity.
Defined.

(** C7, as stated, fails on a collection tag: a size cell that is not
    the text of an integer makes [show_warning] raise a [ValueError]
    instead of answering false. *)
Lemma show_warning_collection_raises :
  (exists e, show_warning "list" (CellStr "(3, 3)") = Raise e
             /\ isinstance e ValueError = true)
  /\ show_warning "list" (CellStr "(3, 3)") <> Ok false.
Proof.
  split.
  - eexists. split; reflexivity.
  - intros Heq. discriminate Heq.
Qed.

(** ** Data functions *)

Section Accessors.
Context {M : Type} `{TableModel M}.

Lemma call_item (ns : string -> result value) (parent : DataFun) (k : key)
    (data : value) :
  call ns parent = Ok data ->
  call ns (ItemFun parent k) = datafun_item data k.
Proof. intros Hparent. cbn [call]. rewrite Hparent. reflexivity. Qed.

Lemma call_path (ns : string -> result value) (parent : DataFun)
    (path : list string) (data : value) :
  call ns parent = Ok data ->
  call ns (AttrPathFun parent path) = datafun_path data path.
Proof. intros Hparent. cbn [call]. rewrite Hparent. reflexivity. Qed.

(** C8, as amended: the accessor built for a row holds the key
    ([CollectionsDelegate]) or the attribute path
    ([ToggleColumnDelegate]) the row has when the editor is created, and
    every later call, whatever the namespace has become, resolves that
    key or path in the parent data fetched again.  A failure to fetch the
    parent data, or to find the key in a list, tuple, dictionary or set,
    raises to the caller; a failure to read an attribute with a
    [NotImplementedError], [AttributeError], [TypeError] or [ValueError]
    makes the accessor return [None]; other failures raise. *)
Theorem accessor_resolution (self : Delegate M) (index : Index)
    (parent : DataFun) :
  data_function self = Some parent ->
  (forall k, nth_error (m_keys (model self)) (row index) = Some k ->
     make_data_function index self = (self, Ok (Some (ItemFun parent k))))
  /\ toggle_make_data_function index self =
       (self,
        Ok (Some (AttrPathFun parent
                    (path_elements_of (m_obj_path (model self) (row index))))))
  /\ (forall ns data k path,
        call ns parent = Ok data ->
        call ns (ItemFun parent k) =
          match target_item data k with
          | Ok v => Ok v
          | Raise e =>
              if is_tuple_list_dict_set data then Raise e
              else if turned_into_none e then Ok VNone else Raise e
          end
        /\ call ns (AttrPathFun parent path) =
             match walk_attributes data path with
             | Ok v => Ok v
             | Raise e => if turned_into_none e then Ok VNone else Raise e
             end)
  /\ (forall ns e k path,
        call ns parent = Raise e ->
        call ns (ItemFun parent k) = Raise e
        /\ call ns (AttrPathFun parent path) = Raise e).
Proof.
  intros Hfun. repeat split.
  - intros k Hk. unfold make_data_function. rewrite Hfun, Hk. reflexivity.
  - unfold toggle_make_data_function. rewrite Hfun. reflexivity.
  - rewrite (call_item ns parent k data) by assumption.
    unfold datafun_item, target_item, turned_into_none.
    destruct (is_tuple_list_dict_set data).
    + destruct (getitem data k); reflexivity.
    + reflexivity.
  - rewrite (call_path ns parent path data) by assumption. reflexivity.
  - cbn [call]. rewrite H0. reflexivity.
  - cbn [call]. rewrite H0. reflexivity.
Qed.

End Accessors.

(** The C8 theorem on the editor opened for [xxx["aaa"]]. *)
Lemma accessor_resolution_witness :
  make_data_function (mk_Index 0 3 true)
    (mk_Delegate ∅ (Some (RootFun "xxx")) false
       (mk_RowModel [(KStr "aaa", "int", CellInt 1, VInt 1)] false)
       [] true None VNone)
  = (mk_Delegate ∅ (Some (RootFun "xxx")) false
       (mk_RowModel [(KStr "aaa", "int", CellInt 1, VInt 1)] false)
       [] true None VNone,
     Ok (Some (ItemFun (RootFun "xxx") (KStr "aaa"))))
  /\ call ns_dict (ItemFun (RootFun "xxx") (KStr "aaa")) = Ok (VInt 1).
Proof.
  pose proof (accessor_resolution
                (mk_Delegate ∅ (Some (RootFun "xxx")) false
                   (mk_RowModel [(KStr "aaa", "int", CellInt 1, VInt 1)] false)
                   [] true None VNone)
                (mk_Index 0 3 true) (RootFun "xxx") eq_refl)
    as (Hmake & _ & Hcall & _).
  split.
  - apply Hmake. reflexivity.
  - destruct (Hcall ns_dict (VDict [(KStr "aaa", VInt 1)]) (KStr "aaa") []
                eq_refl) as [Hitem _].
    exact Hitem.
Defined.

(** C8, as stated, fails: when the attribute is gone, both accessors
    return [None] and report no error. *)
Lemma accessor_missing_attribute_gives_none :
  (exists e,
     target_item (VObject (OtherClass "Point") []) (KStr "x") = Raise e)
  /\ call ns_bare_object (ItemFun (RootFun "obj") (KStr "x")) = Ok VNone
  /\ call ns_bare_object (AttrPathFun (RootFun "obj") ["x"]) = Ok VNone.
Proof.
  split; [eexists; reflexivity | split; reflexivity].
Qed.

(** ** The read-only flag *)

Section ReadOnly.
Context {M : Type} `{TableModel M}.

Lemma compute_readonly_cases (env : Env) (self : Delegate M) (v : value) :
  compute_readonly env self v = true <->
  is_tuple v \/ is_set v \/ parent_readonly self = true
  \/ is_known_type env v = false.
Proof.
  unfold compute_readonly, is_tuple, is_set.
  rewrite !orb_true_iff, negb_true_iff.
  split.
  - intros [[Hts | Hparent] | Hknown]; [| tauto | tauto].
    destruct v; try discriminate Hts; eauto.
  - intros [[items ->] | [[items ->] | [Hparent | Hknown]]]; auto.
Qed.

(** Unfolds the actions of a [createEditor]. *)
Ltac run_actions :=
  unfold createEditor_for, toggle_createEditor_for, dialog_and_none,
    shown_and_none, create_dialog, make_data_function,
    toggle_make_data_function, try_except, abind, gets, modify, ret, lift,
    emit;
  cbn [fst snd].

(** Follows every branch of an unfolded action. *)
Ltac follow_branches :=
  repeat match goal with
         | |- context [if ?b then _ else _] =>
             destruct b eqn:?; cbn [fst snd andb orb negb]
         | |- context [match data_function ?s with _ => _ end] =>
             destruct (data_function s) eqn:?; cbn [fst snd]
         | |- context [match nth_error ?l ?i with _ => _ end] =>
             destruct (nth_error l i) eqn:?; cbn [fst snd]
         | |- context [match getattr_str ?a ?b with _ => _ end] =>
             destruct (getattr_str a b) eqn:?; cbn [fst snd]
         | |- context [match int_bit_length ?a with _ => _ end] =>
             destruct (int_bit_length a) eqn:?; cbn [fst snd]
         end.

(** The frame branch is the only one that sees a pandas value. *)
Ltac not_the_frame_branch v :=
  try match goal with
      | Hp : is_pandas v && _ && _ = false |- _ => rewrite Hp
      end;
  destruct v as [| | | | | | | | | cls attrs]; try destruct cls;
  cbn in *; try discriminate;
  rewrite ?orb_false_r; reflexivity.

(** The dialogs [CollectionsDelegate.createEditor] registers, once the
    value is fetched: at most one session, under the identity of the new
    editor, with the computed flag, forced for a Polars frame. *)
Lemma createEditor_for_session (env : Env) (index : Index) (oe : bool)
    (v : value) (self : Delegate M) :
  _editors (fst (createEditor_for env index oe v self)) = _editors self
  \/ exists ses,
       _editors (fst (createEditor_for env index oe v self))
       = <[new_editor_id env := ses]> (_editors self)
       /\ ses_readonly ses
          = compute_readonly env self v || polars_forced env index oe self v.
Proof.
  unfold polars_forced. run_actions. follow_branches.
  all: try (left; reflexivity).
  all: right; eexists; split; [reflexivity | cbn [ses_readonly]].
  all: try (rewrite ?orb_false_r, ?orb_true_r; reflexivity).
  all: not_the_frame_branch v.
Qed.

(** The same for [ToggleColumnDelegate.createEditor], which forces
    nothing. *)
Lemma toggle_createEditor_for_session (env : Env) (index : Index)
    (v : value) (self : Delegate M) :
  _editors (fst (toggle_createEditor_for env index v self)) = _editors self
  \/ exists ses,
       _editors (fst (toggle_createEditor_for env index v self))
       = <[new_editor_id env := ses]> (_editors self)
       /\ ses_readonly ses = compute_readonly env self v.
Proof.
  run_actions. follow_branches.
  all: try (left; reflexivity).
  all: right; eexists; split; reflexivity.
Qed.

(** Follows [createEditor] up to the dispatch on the value. *)
Ltac follow_to_dispatch :=
  repeat match goal with
         | |- context [if ?b then _ else _] =>
             destruct b eqn:?; cbn [fst snd is_none]
         | |- context [match show_warning ?a ?b with _ => _ end] =>
             destruct (show_warning a b) as [[|] |] eqn:?;
             cbn [fst snd is_none]
         | |- context [match m_get_value ?a ?b with _ => _ end] =>
             destruct (m_get_value a b) eqn:?; cbn [fst snd is_none]
         | |- context [match copy_of ?a ?b with _ => _ end] =>
             destruct (copy_of a b) eqn:?; cbn [fst snd is_none]
         end.

(** A call of [CollectionsDelegate.createEditor] registers at most one
    session, for the value [v] it fetched, with the flag computed from
    [v]. *)
Lemma createEditor_session (env : Env) (index : Index) (oe : bool)
    (self : Delegate M) :
  _editors (fst (createEditor env index oe self)) = _editors self
  \/ exists v ses,
       get_value index self = (self, Ok v)
       /\ _editors (fst (createEditor env index oe self))
          = <[new_editor_id env := ses]> (_editors self)
       /\ ses_readonly ses
          = compute_readonly env self v || polars_forced env index oe self v.
Proof.
  unfold createEditor, fetch_value, shown_and_none, show_warning_at,
    get_value, try_except, abind, gets, modify, ret, lift, emit.
  cbn [fst snd]. follow_to_dispatch.
  all: try (left; reflexivity).
  all: match goal with
       | |- context [createEditor_for ?e ?i ?o ?v ?s] =>
           destruct (createEditor_for_session e i o v s)
             as [Hsame | (ses & Hins & Hro)];
           [ left; rewrite Hsame; reflexivity
           | right; exists v, ses; repeat split;
             [ match goal with
               | Hget : m_get_value _ _ = Ok _ |- _ => f_equal; exact Hget
               end
             | rewrite Hins; reflexivity
             | rewrite Hro; reflexivity ] ]
       end.
Qed.

(** The same for [ToggleColumnDelegate.createEditor]. *)
Lemma toggle_createEditor_session (env : Env) (index : Index)
    (self : Delegate M) :
  _editors (fst (toggle_createEditor env index self)) = _editors self
  \/ exists v ses,
       toggle_get_value index self = (self, Ok v)
       /\ _editors (fst (toggle_createEditor env index self))
          = <[new_editor_id env := ses]> (_editors self)
       /\ ses_readonly ses = compute_readonly env self v.
Proof.
  unfold toggle_createEditor, toggle_fetch_value, show_warning_at,
    toggle_get_value, try_except, abind, gets, modify, ret, lift, emit.
  cbn [fst snd]. follow_to_dispatch.
  all: try (left; reflexivity).
  all: match goal with
       | |- context [toggle_createEditor_for ?e ?i ?v ?s] =>
           destruct (toggle_createEditor_for_session e i v s)
             as [Hsame | (ses & Hins & Hro)];
           [ left; rewrite Hsame; reflexivity
           | right; exists v, ses; repeat split;
             [ rewrite Hins; reflexivity | rewrite Hro; reflexivity ] ]
       end.
Qed.

(** C9, as amended: the flag both [createEditor]s compute is true exactly
    when the value is a tuple or a set, or the parent is read-only, or
    the type of the value is not known; a session registered by
    [ToggleColumnDelegate.createEditor] carries this flag, and one
    registered by [CollectionsDelegate.createEditor] carries it too,
    forced to true for a Polars frame. *)
Theorem readonly_flag (env : Env) (self : Delegate M) (index : Index)
    (oe : bool) :
  (forall v,
     compute_readonly env self v = true <->
     is_tuple v \/ is_set v \/ parent_readonly self = true
     \/ is_known_type env v = false)
  /\ (_editors (fst (createEditor env index oe self)) = _editors self
      \/ exists v ses,
           get_value index self = (self, Ok v)
           /\ _editors (fst (createEditor env index oe self))
              = <[new_editor_id env := ses]> (_editors self)
           /\ ses_readonly ses
              = compute_readonly env self v
                || polars_forced env index oe self v)
  /\ (_editors (fst (toggle_createEditor env index self)) = _editors self
      \/ exists v ses,
           toggle_get_value index self = (self, Ok v)
           /\ _editors (fst (toggle_createEditor env index self))
              = <[new_editor_id env := ses]> (_editors self)
           /\ ses_readonly ses = compute_readonly env self v).
Proof.
  split; [| split].
  - intros v. apply compute_readonly_cases.
  - apply createEditor_session.
  - apply toggle_createEditor_session.
Qed.

End ReadOnly.

(** The C9 theorem on a tuple nested in a list that can be edited: the
    flag is set. *)
Lemma readonly_flag_witness :
  compute_readonly env_all_known (delegate_x false false)
    (VTuple [VInt 2; VStr "eggs"]) = true.
Proof.
  apply (proj1 (readonly_flag env_all_known (delegate_x false false)
                  (mk_Index 0 3 true) false)).
  left. exists [VInt 2; VStr "eggs"]. reflexivity.
Defined.

(** C9, as stated, fails: a frozenset, an immutable container of a known
    type, gets a false flag in a parent that is not read-only; a set,
    which is mutable, gets a true one. *)
Lemma readonly_flag_frozenset_and_set :
  is_known_type env_all_known (VFrozenSet [VInt 1]) = true
  /\ parent_readonly (delegate_x false false) = false
  /\ compute_readonly env_all_known (delegate_x false false)
       (VFrozenSet [VInt 1]) = false
  /\ compute_readonly env_all_known (delegate_x false false)
       (VSet [VInt 1]) = true.
Proof. repeat split. Qed.

(** ** Closing an edit session *)

Section ClosingSessions.
Context {M : Type} `{TableModel M}.

(** [free_memory] always returns; the request is emitted when the Qt
    object of the delegate is alive. *)
Lemma free_memory_returns (self : Delegate M) :
  free_memory self =
    (if qt_alive self
     then log_event (Emitted sig_free_memory_requested) self
     else self,
     Ok tt).
Proof.
  unfold free_memory, try_except, emit.
  destruct (qt_alive self); reflexivity.
Qed.

(** Rejecting drops the session, registered or not, and frees memory. *)
Lemma editor_rejected_returns (editor_id : nat) (self : Delegate M) :
  editor_rejected editor_id self =
    (if qt_alive self
     then log_event (Emitted sig_free_memory_requested)
            (without_session editor_id self)
     else without_session editor_id self,
     Ok tt).
Proof.
  unfold editor_rejected, abind, pop_editor, modify.
  rewrite free_memory_returns. reflexivity.
Qed.

Lemma editor_rejected_registry (editor_id : nat) (self : Delegate M) :
  _editors (fst (editor_rejected editor_id self))
  = delete editor_id (_editors self)
  /\ model (fst (editor_rejected editor_id self)) = model self
  /\ snd (editor_rejected editor_id self) = Ok tt.
Proof.
  rewrite editor_rejected_returns.
  destruct (qt_alive self); repeat split; reflexivity.
Qed.

(** Accepting a read-only session does what rejecting it does: nothing is
    stored. *)
Lemma editor_accepted_readonly (editor_id : nat) (self : Delegate M)
    (data : Session) :
  _editors self !! editor_id = Some data ->
  ses_readonly data = true ->
  editor_accepted editor_id self = editor_rejected editor_id self.
Proof.
  intros Hreg Hro.
  unfold editor_accepted, editor_rejected, abind at 1, lookup_editor.
  rewrite Hreg, Hro. reflexivity.
Qed.

Lemma toggle_editor_accepted_readonly (editor_id : nat) (self : Delegate M)
    (data : Session) :
  _editors self !! editor_id = Some data ->
  ses_readonly data = true ->
  toggle_editor_accepted editor_id self = editor_rejected editor_id self.
Proof.
  intros Hreg Hro.
  unfold toggle_editor_accepted, editor_rejected, abind at 1, lookup_editor.
  rewrite Hreg, Hro. reflexivity.
Qed.

(** [CollectionsDelegate.editor_accepted] on a session that is not
    read-only, without conversion: whether the model takes the value or
    raises an [Exception], the session is dropped and memory freed; a
    failure is shown in a dialog. *)
Lemma editor_accepted_store (editor_id : nat) (self : Delegate M)
    (data : Session) (m' : M) (raised : option exception) :
  _editors self !! editor_id = Some data ->
  ses_readonly data = false ->
  ses_conv data = None ->
  isValid (m_get_index_from_key (model self) (ses_key data)) = true ->
  m_set_value (model self)
    (row (m_get_index_from_key (model self) (ses_key data)))
    (ed_value (ses_editor data)) = (m', raised) ->
  match raised with
  | Some e => isinstance e Exception = true
  | None => True
  end ->
  editor_accepted editor_id self =
    editor_rejected editor_id
      (match raised with
       | Some e =>
           log_event (CriticalBox (set_error_text (exc_str e)))
             (with_model m' self)
       | None => with_model m' self
       end).
Proof.
  intros Hreg Hro Hconv Hvalid Hset Hexc.
  unfold editor_accepted, editor_rejected, abind at 1, lookup_editor.
  rewrite Hreg, Hro. cbn [negb].
  unfold abind at 1, abind at 1, gets, try_except, apply_conv.
  rewrite Hconv. unfold abind at 1, ret, set_value.
  rewrite Hvalid, Hset.
  destruct raised as [e |]; [rewrite Hexc |]; reflexivity.
Qed.

(** C10 on [ToggleColumnDelegate.editor_accepted]: when the session is
    not read-only, an index is current and the model raises on
    [set_value], the exception leaves the method: the session stays in the
    registry and no free-memory request is emitted.  The claim asks for
    the session to be removed and the request emitted whether or not the
    store succeeds, as [CollectionsDelegate.editor_accepted] does. *)
Theorem toggle_editor_accepted_store_failure (editor_id : nat)
    (self : Delegate M) (data : Session) (index : Index) (m' : M)
    (e : exception) :
  _editors self !! editor_id = Some data ->
  ses_readonly data = false ->
  ses_conv data = None ->
  current_index self = Some index ->
  isValid index = true ->
  m_set_value (model self) (row index) (ed_value (ses_editor data))
    = (m', Some e) ->
  toggle_editor_accepted editor_id self = (with_model m' self, Raise e)
  /\ _editors (fst (toggle_editor_accepted editor_id self)) !! editor_id
     = Some data
  /\ log (fst (toggle_editor_accepted editor_id self)) = log self.
Proof.
  intros Hreg Hro Hconv Hcur Hvalid Hset.
  assert (toggle_editor_accepted editor_id self
          = (with_model m' self, Raise e)) as Hrun.
  { unfold toggle_editor_accepted, abind at 1, lookup_editor.
    rewrite Hreg. unfold abind at 1, gets.
    rewrite Hro, Hcur. cbn [negb].
    unfold abind at 1, abind at 1, apply_conv.
    rewrite Hconv. unfold ret, set_value.
    rewrite Hvalid, Hset. reflexivity. }
  rewrite Hrun. repeat split; [exact Hreg].
Qed.

End ClosingSessions.

(** The C10 theorem on an attribute that cannot be assigned: the session
    registered under 7 is still there afterwards and nothing was
    emitted. *)
Lemma toggle_editor_accepted_store_failure_witness :
  snd (toggle_editor_accepted 7 (DelegateInputs.delegate_x true false))
  = Raise (new_exception AttributeError "can't set attribute")
  /\ _editors
       (fst (toggle_editor_accepted 7 (DelegateInputs.delegate_x true false)))
     !! 7 = Some (DelegateInputs.session_x false)
  /\ log (fst (toggle_editor_accepted 7
                 (DelegateInputs.delegate_x true false))) = [].
Proof.
  destruct (toggle_editor_accepted_store_failure 7
              (DelegateInputs.delegate_x true false)
              (DelegateInputs.session_x false)
              (mk_Index 0 3 true)
              (DelegateInputs.mk_RowModel DelegateInputs.point_rows true)
              (new_exception AttributeError "can't set attribute"))
    as (Hrun & Hreg & Hlog); try reflexivity.
  split; [| split].
  - rewrite Hrun. reflexivity.
  - exact Hreg.
  - exact Hlog.
Defined.

End CollectionsDelegateFacts.

(* ===================================================================== *)
(** * Facts about comparators                                             *)
(* ===================================================================== *)

Module ComparisonFacts.
Import Py CollectionsModel Statements.

(** ** Comparators in general *)

Lemma lex_opp (c1 c2 : comparison) :
  lex (CompOpp c1) (CompOpp c2) = CompOpp (lex c1 c2).
Proof. destruct c1; reflexivity. Qed.

Section Comparator.
Context {A : Type} (cmp : A -> A -> comparison).
Hypothesis cmp_anti : cmp_antisymmetric cmp.

Lemma cmp_refl (x : A) : cmp x x = Eq.
Proof. pose proof (cmp_anti x x) as Hopp. destruct (cmp x x); easy. Qed.

Lemma cmp_gt_lt (x y : A) : cmp x y = Gt <-> cmp y x = Lt.
Proof. rewrite (cmp_anti x y). destruct (cmp x y); easy. Qed.

Lemma cmp_eq_sym (x y : A) : cmp x y = Eq -> cmp y x = Eq.
Proof. intros Heq. rewrite (cmp_anti x y), Heq. reflexivity. Qed.

Lemma cmp_total (x y : A) : cmp x y <> Gt \/ cmp y x <> Gt.
Proof. rewrite (cmp_anti x y). destruct (cmp x y); auto; left; easy. Qed.

Section Among.
Variable l : list A.
Hypothesis cmp_trans : cmp_transitive_on cmp l.

Lemma cmp_le_lt (x y z : A) :
  In x l -> In y l -> In z l ->
  cmp x y <> Gt -> cmp y z = Lt -> cmp x z = Lt.
Proof.
  intros Hx Hy Hz Hxy Hyz.
  assert (cmp x z <> Gt) as Hxz
    by (apply (cmp_trans x y z); try assumption; rewrite Hyz; easy).
  destruct (cmp x z) eqn:Hc; [| reflexivity | easy].
  exfalso.
  apply (cmp_trans z x y); try assumption.
  - rewrite (cmp_anti x z), Hc. easy.
  - apply cmp_gt_lt. exact Hyz.
Qed.

Lemma cmp_lt_le (x y z : A) :
  In x l -> In y l -> In z l ->
  cmp x y = Lt -> cmp y z <> Gt -> cmp x z = Lt.
Proof.
  intros Hx Hy Hz Hxy Hyz.
  assert (cmp x z <> Gt) as Hxz
    by (apply (cmp_trans x y z); try assumption; rewrite Hxy; easy).
  destruct (cmp x z) eqn:Hc; [| reflexivity | easy].
  exfalso.
  apply (cmp_trans y z x); try assumption.
  - rewrite (cmp_anti x z), Hc. easy.
  - apply cmp_gt_lt. exact Hxy.
Qed.

Lemma cmp_eq_eq (x y z : A) :
  In x l -> In y l -> In z l ->
  cmp x y = Eq -> cmp y z = Eq -> cmp x z = Eq.
Proof.
  intros Hx Hy Hz Hxy Hyz.
  assert (cmp x z <> Gt) as Hxz
    by (apply (cmp_trans x y z); try assumption;
        [rewrite Hxy | rewrite Hyz]; easy).
  assert (cmp z x <> Gt) as Hzx
    by (apply (cmp_trans z y x); try assumption;
        [rewrite (cmp_eq_sym y z Hyz) | rewrite (cmp_eq_sym x y Hxy)]; easy).
  rewrite (cmp_anti x z) in Hzx.
  destruct (cmp x z); easy.
Qed.

End Among.

End Comparator.

(** A transitive comparator is transitive among the members of any
    list. *)
Lemma cmp_transitive_among {A : Type} (cmp : A -> A -> comparison)
    (l : list A) :
  cmp_transitive cmp -> cmp_transitive_on cmp l.
Proof. intros Htrans x y z _ _ _. apply Htrans. Qed.

(** Transitivity among all values, from transitivity on every list. *)
Lemma cmp_transitive_of_lists {A : Type} (cmp : A -> A -> comparison) :
  (forall l, cmp_transitive_on cmp l) -> cmp_transitive cmp.
Proof.
  intros Hall x y z. apply (Hall [x; y; z]); cbn; auto.
Qed.

(** ** Comparators built from others *)

Section Building.
Context {A B : Type}.

Lemma pullback_antisymmetric (f : A -> B) (cmp : B -> B -> comparison) :
  cmp_antisymmetric cmp ->
  cmp_antisymmetric (fun a b => cmp (f a) (f b)).
Proof. intros Hanti x y. apply Hanti. Qed.

Lemma pullback_transitive (f : A -> B) (cmp : B -> B -> comparison) :
  cmp_transitive cmp ->
  cmp_transitive (fun a b => cmp (f a) (f b)).
Proof. intros Htrans x y z. apply Htrans. Qed.

Lemma lex_antisymmetric (c1 c2 : A -> A -> comparison) :
  cmp_antisymmetric c1 -> cmp_antisymmetric c2 ->
  cmp_antisymmetric (fun a b => lex (c1 a b) (c2 a b)).
Proof.
  intros H1 H2 x y. cbv beta. rewrite (H1 x y), (H2 x y). apply lex_opp.
Qed.

Lemma lex_transitive (c1 c2 : A -> A -> comparison) :
  cmp_antisymmetric c1 -> cmp_transitive c1 -> cmp_transitive c2 ->
  cmp_transitive (fun a b => lex (c1 a b) (c2 a b)).
Proof.
  intros Hanti H1 H2 x y z. cbv beta.
  pose proof (cmp_transitive_among c1 [x; y; z] H1) as Hon.
  assert (In x [x; y; z] /\ In y [x; y; z] /\ In z [x; y; z])
    as (Hx & Hy & Hz) by (cbn; tauto).
  destruct (c1 x y) eqn:Hxy; cbn [lex]; [| | easy].
  - destruct (c1 y z) eqn:Hyz; cbn [lex]; [| | easy].
    + rewrite (cmp_eq_eq c1 Hanti _ Hon x y z Hx Hy Hz Hxy Hyz).
      cbn [lex]. apply H2.
    + intros _ _.
      rewrite (cmp_le_lt c1 Hanti _ Hon x y z Hx Hy Hz); cbn [lex];
        [easy | rewrite Hxy; easy | exact Hyz].
  - intros _ Hyz.
    rewrite (cmp_lt_le c1 Hanti _ Hon x y z Hx Hy Hz Hxy); cbn [lex];
      [easy |].
    destruct (c1 y z); cbn [lex] in Hyz; easy.
Qed.

End Building.

(** ** Lists compared lexicographically *)

Section Lists.
Context {A : Type} (cmp : A -> A -> comparison).
Hypothesis cmp_anti : cmp_antisymmetric cmp.

Lemma list_compare_antisymmetric : cmp_antisymmetric (list_compare cmp).
Proof.
  intros l1. induction l1 as [| x r1 IH]; intros [| y r2];
    cbn [list_compare]; try reflexivity.
  rewrite (cmp_anti x y), (IH r2). apply lex_opp.
Qed.

Hypothesis cmp_trans : cmp_transitive cmp.

Lemma list_compare_transitive : cmp_transitive (list_compare cmp).
Proof.
  intros l1. induction l1 as [| x r1 IH]; intros [| y r2] [| z r3];
    cbn [list_compare]; try easy.
  pose proof (cmp_transitive_among cmp [x; y; z] cmp_trans) as Hon.
  assert (In x [x; y; z] /\ In y [x; y; z] /\ In z [x; y; z])
    as (Hx & Hy & Hz) by (cbn; tauto).
  destruct (cmp x y) eqn:Hxy; cbn [lex]; [| | easy].
  - destruct (cmp y z) eqn:Hyz; cbn [lex]; [| | easy].
    + rewrite (cmp_eq_eq cmp cmp_anti _ Hon x y z Hx Hy Hz Hxy Hyz).
      cbn [lex]. apply IH.
    + intros _ _.
      rewrite (cmp_le_lt cmp cmp_anti _ Hon x y z Hx Hy Hz); cbn [lex];
        [easy | rewrite Hxy; easy | exact Hyz].
  - intros _ Hyz.
    rewrite (cmp_lt_le cmp cmp_anti _ Hon x y z Hx Hy Hz Hxy); cbn [lex];
      [easy |].
    destruct (cmp y z); cbn [lex] in Hyz; easy.
Qed.

Variable lt : A -> A -> Prop.
Hypothesis cmp_lt : forall x y, cmp x y = Lt <-> lt x y.
Hypothesis cmp_eq : forall x y, cmp x y = Eq <-> x = y.

Lemma list_compare_eq (l1 l2 : list A) :
  list_compare cmp l1 l2 = Eq <-> l1 = l2.
Proof.
  revert l2. induction l1 as [| x r1 IH]; intros [| y r2];
    cbn [list_compare]; try easy.
  split.
  - destruct (cmp x y) eqn:Hxy; cbn [lex]; try easy.
    intros Hrest. apply cmp_eq in Hxy. apply IH in Hrest. congruence.
  - intros Heq. injection Heq as -> ->.
    rewrite (proj2 (cmp_eq y y) eq_refl). cbn [lex]. apply IH. reflexivity.
Qed.

Lemma list_compare_lt (l1 l2 : list A) :
  list_compare cmp l1 l2 = Lt <-> lex_lt lt l1 l2.
Proof.
  revert l2. induction l1 as [| x r1 IH]; intros [| y r2];
    cbn [list_compare].
  - split; [easy | intros Hlt; inversion Hlt].
  - split; [constructor | reflexivity].
  - split; [easy | intros Hlt; inversion Hlt].
  - split.
    + destruct (cmp x y) eqn:Hxy; cbn [lex]; try easy.
      * intros Hrest. apply cmp_eq in Hxy. subst y.
        apply lex_lt_later, IH, Hrest.
      * intros _. apply lex_lt_here, cmp_lt, Hxy.
    + intros Hlt. inversion Hlt as [| ? ? ? ? Hhere | ? ? ? Hlater]; subst.
      * rewrite (proj2 (cmp_lt x y) Hhere). reflexivity.
      * rewrite (proj2 (cmp_eq y y) eq_refl). cbn [lex].
        apply IH, Hlater.
Qed.

Lemma list_compare_gt (l1 l2 : list A) :
  list_compare cmp l1 l2 = Gt <-> lex_lt lt l2 l1.
Proof.
  rewrite <- list_compare_lt.
  apply cmp_gt_lt, list_compare_antisymmetric.
Qed.

End Lists.

(** ** Numbers, characters and texts *)

Lemma nat_compare_antisymmetric : cmp_antisymmetric Nat.compare.
Proof. intros x y. apply Nat.compare_antisym. Qed.

Lemma nat_compare_transitive : cmp_transitive Nat.compare.
Proof.
  intros x y z. rewrite !Nat.compare_le_iff. apply Nat.le_trans.
Qed.

Lemma ascii_compare_antisymmetric : cmp_antisymmetric ascii_compare.
Proof. intros x y. apply Nat.compare_antisym. Qed.

Lemma ascii_compare_transitive : cmp_transitive ascii_compare.
Proof. intros x y z. apply nat_compare_transitive. Qed.

Lemma ascii_compare_lt (c d : ascii) : ascii_compare c d = Lt <-> char_lt c d.
Proof. apply Nat.compare_lt_iff. Qed.

Lemma ascii_compare_eq (c d : ascii) : ascii_compare c d = Eq <-> c = d.
Proof.
  unfold ascii_compare. rewrite Nat.compare_eq_iff. split.
  - intros Hcode.
    rewrite <- (ascii_nat_embedding c), <- (ascii_nat_embedding d), Hcode.
    reflexivity.
  - intros ->. reflexivity.
Qed.

Lemma text_compare_antisymmetric : cmp_antisymmetric text_compare.
Proof. apply list_compare_antisymmetric, ascii_compare_antisymmetric. Qed.

Lemma text_compare_transitive : cmp_transitive text_compare.
Proof.
  apply list_compare_transitive;
    [apply ascii_compare_antisymmetric | apply ascii_compare_transitive].
Qed.

Lemma text_compare_lt (x y : list ascii) :
  text_compare x y = Lt <-> text_lt x y.
Proof. apply list_compare_lt; [apply ascii_compare_lt | apply ascii_compare_eq]. Qed.

Lemma text_compare_eq (x y : list ascii) : text_compare x y = Eq <-> x = y.
Proof. apply list_compare_eq, ascii_compare_eq. Qed.

(** ** Runs and keys *)

Lemma run_compare_antisymmetric : cmp_antisymmetric run_compare.
Proof.
  intros [x | x] [y | y]; cbn [run_compare]; try reflexivity.
  - apply Nat.compare_antisym.
  - apply text_compare_antisymmetric.
Qed.

Lemma run_compare_transitive : cmp_transitive run_compare.
Proof.
  intros [x | x] [y | y] [z | z]; cbn [run_compare]; try easy.
  - apply nat_compare_transitive.
  - apply text_compare_transitive.
Qed.

Lemma run_compare_lt (a b : run) : run_compare a b = Lt <-> run_lt a b.
Proof.
  destruct a as [x | x], b as [y | y]; cbn [run_compare].
  - rewrite Nat.compare_lt_iff. split; [constructor; assumption |].
    intros Hlt. inversion Hlt. assumption.
  - split; [constructor | reflexivity].
  - split; [easy | intros Hlt; inversion Hlt].
  - rewrite text_compare_lt. split; [constructor; assumption |].
    intros Hlt. inversion Hlt. assumption.
Qed.

Lemma run_compare_eq (a b : run) : run_compare a b = Eq <-> a = b.
Proof.
  destruct a as [x | x], b as [y | y]; cbn [run_compare]; try easy.
  - rewrite Nat.compare_eq_iff. split; congruence.
  - rewrite text_compare_eq. split; congruence.
Qed.

Lemma natsort_compare_antisymmetric : cmp_antisymmetric natsort_compare.
Proof.
  apply (pullback_antisymmetric natural_key (list_compare run_compare)).
  apply list_compare_antisymmetric, run_compare_antisymmetric.
Qed.

Lemma natsort_compare_transitive : cmp_transitive natsort_compare.
Proof.
  apply (pullback_transitive natural_key (list_compare run_compare)).
  apply list_compare_transitive;
    [apply run_compare_antisymmetric | apply run_compare_transitive].
Qed.

Lemma natsort_compare_lt (a b : string) :
  natsort_compare a b = Lt <-> key_lt a b.
Proof.
  apply list_compare_lt; [apply run_compare_lt | apply run_compare_eq].
Qed.

Lemma natsort_compare_eq (a b : string) :
  natsort_compare a b = Eq <-> natural_key a = natural_key b.
Proof. apply list_compare_eq, run_compare_eq. Qed.

Lemma natsort_compare_gt (a b : string) :
  natsort_compare a b = Gt <-> key_lt b a.
Proof.
  apply list_compare_gt;
    [apply run_compare_antisymmetric | apply run_compare_lt
    | apply run_compare_eq].
Qed.

(** ** The comparators of the columns *)

Lemma string_compare_antisymmetric : cmp_antisymmetric string_compare.
Proof.
  apply (pullback_antisymmetric list_ascii_of_string text_compare).
  apply text_compare_antisymmetric.
Qed.

Lemma string_compare_transitive : cmp_transitive string_compare.
Proof.
  apply (pullback_transitive list_ascii_of_string text_compare).
  apply text_compare_transitive.
Qed.

Lemma size_compare_antisymmetric : cmp_antisymmetric size_compare.
Proof.
  intros [x | x] [y | y]; cbn [size_compare]; try reflexivity.
  - apply Nat.compare_antisym.
  - apply list_compare_antisymmetric, nat_compare_antisymmetric.
Qed.

Lemma size_compare_transitive : cmp_transitive size_compare.
Proof.
  intros [x | x] [y | y] [z | z]; cbn [size_compare]; try easy.
  - apply nat_compare_transitive.
  - apply list_compare_transitive;
      [apply nat_compare_antisymmetric | apply nat_compare_transitive].
Qed.

Lemma value_compare_antisymmetric : cmp_antisymmetric value_compare.
Proof.
  intros a b. unfold value_compare.
  destruct (number a) as [x |], (number b) as [y |];
    try apply string_compare_antisymmetric.
  symmetry. apply Qcompare_antisym.
Qed.

Lemma value_compare_transitive_on (entries : list Entry) :
  values_of_one_kind entries ->
  cmp_transitive_on value_compare entries.
Proof.
  intros [Hnumbers | Htexts] a b d Ha Hb Hd.
  - rewrite List.Forall_forall in Hnumbers. unfold value_compare.
    destruct (number a) as [x |] eqn:Hx; [| elim (Hnumbers a Ha Hx)].
    destruct (number b) as [y |] eqn:Hy; [| elim (Hnumbers b Hb Hy)].
    destruct (number d) as [z |] eqn:Hz; [| elim (Hnumbers d Hd Hz)].
    rewrite <- !Qle_alt. apply Qle_trans.
  - rewrite List.Forall_forall in Htexts. unfold value_compare.
    rewrite (Htexts a Ha), (Htexts b Hb). cbv iota.
    apply string_compare_transitive.
Qed.

Lemma column_compare_antisymmetric (c : Column) :
  cmp_antisymmetric (column_compare c).
Proof.
  pose proof (pullback_antisymmetric entry_key natsort_compare
                natsort_compare_antisymmetric) as Hkey.
  pose proof (pullback_antisymmetric size size_compare
                size_compare_antisymmetric) as Hsize.
  pose proof (pullback_antisymmetric type_tag string_compare
                string_compare_antisymmetric) as Htype.
  destruct c.
  - exact Hkey.
  - exact (lex_antisymmetric _ _ Htype (lex_antisymmetric _ _ Hsize Hkey)).
  - exact (lex_antisymmetric _ _ Hsize Hkey).
  - exact value_compare_antisymmetric.
Qed.

Lemma column_compare_transitive (c : Column) :
  c <> ValueColumn -> cmp_transitive (column_compare c).
Proof.
  pose proof (pullback_antisymmetric entry_key natsort_compare
                natsort_compare_antisymmetric) as Hkey.
  pose proof (pullback_antisymmetric size size_compare
                size_compare_antisymmetric) as Hsize.
  pose proof (pullback_antisymmetric type_tag string_compare
                string_compare_antisymmetric) as Htype.
  pose proof (pullback_transitive entry_key natsort_compare
                natsort_compare_transitive) as Tkey.
  pose proof (pullback_transitive size size_compare
                size_compare_transitive) as Tsize.
  pose proof (pullback_transitive type_tag string_compare
                string_compare_transitive) as Ttype.
  destruct c; intros Hcol.
  - exact Tkey.
  - exact (lex_transitive _ _ Htype Ttype
             (lex_transitive _ _ Hsize Tsize Tkey)).
  - exact (lex_transitive _ _ Hsize Tsize Tkey).
  - congruence.
Qed.

End ComparisonFacts.

(* ===================================================================== *)
(** * Facts about the table model                                         *)
(* ===================================================================== *)

Module CollectionsModelFacts.
Import Py CollectionsModel Statements ComparisonFacts.

(** ** Splitting a key into runs *)

Lemma split_runs_concat (l : list ascii) :
  concat (map snd (split_runs l)) = l.
Proof.
  induction l as [| c rest IH]; [reflexivity |].
  cbn [split_runs].
  destruct (split_runs rest) as [| [d r] more].
  - cbn in IH. subst rest. reflexivity.
  - destruct (Bool.eqb d (is_digit c)); cbn in *; rewrite IH; reflexivity.
Qed.

Lemma split_runs_well_formed (l : list ascii) :
  Forall run_well_formed (split_runs l).
Proof.
  induction l as [| c rest IH]; [constructor |].
  cbn [split_runs].
  destruct (split_runs rest) as [| [d r] more].
  - constructor; [| constructor].
    split; [discriminate |]. constructor; [reflexivity | constructor].
  - inversion IH as [| ? ? [Hne Hall] Hmore]; subst.
    destruct (Bool.eqb d (is_digit c)) eqn:Hsame.
    + apply Bool.eqb_prop in Hsame.
      constructor; [| exact Hmore].
      split; [discriminate |].
      constructor; [symmetry; exact Hsame | exact Hall].
    + constructor; [| exact IH].
      split; [discriminate |]. constructor; [reflexivity | constructor].
Qed.

Lemma split_runs_alternating (l : list ascii) :
  alternating (split_runs l).
Proof.
  induction l as [| c rest IH]; [exact I |].
  cbn [split_runs].
  destruct (split_runs rest) as [| [d r] more]; [exact I |].
  destruct (Bool.eqb d (is_digit c)) eqn:Hsame.
  - destruct more as [| r2 more]; [exact I |].
    exact IH.
  - split; [| exact IH].
    cbn. intros Heq. rewrite Heq, Bool.eqb_reflx in Hsame.
    discriminate Hsame.
Qed.

(** A run of digits is one run. *)
Lemma split_runs_digits (l : list ascii) :
  l <> [] ->
  Forall (fun c => is_digit c = true) l ->
  split_runs l = [(true, l)].
Proof.
  induction l as [| c rest IH]; [congruence |].
  intros _ Hall. inversion Hall as [| ? ? Hc Hrest]; subst.
  cbn [split_runs].
  destruct rest as [| c' rest'].
  - cbn. rewrite Hc. reflexivity.
  - rewrite IH by (congruence || assumption).
    rewrite Hc. reflexivity.
Qed.

(** A text without digits followed by digits makes two runs. *)
Lemma split_runs_text_digits (txt digits : list ascii) :
  txt <> [] ->
  Forall (fun c => is_digit c = false) txt ->
  digits <> [] ->
  Forall (fun c => is_digit c = true) digits ->
  split_runs (txt ++ digits) = [(false, txt); (true, digits)].
Proof.
  intros Htxt Hnodigit Hdigits Hall.
  induction txt as [| c rest IH]; [congruence |].
  inversion Hnodigit as [| ? ? Hc Hrest]; subst.
  cbn [app split_runs].
  destruct rest as [| c' rest'].
  - cbn [app]. rewrite (split_runs_digits digits Hdigits Hall).
    rewrite Hc. reflexivity.
  - rewrite IH by (congruence || assumption).
    rewrite Hc. reflexivity.
Qed.

(** Cutting the text written by alternating runs gives the runs
    back. *)
Lemma split_runs_of_runs (runs : list (bool * list ascii)) :
  alternating runs ->
  Forall run_well_formed runs ->
  split_runs (concat (map snd runs)) = runs.
Proof.
  induction runs as [| [d r] more IH]; [reflexivity |].
  intros Halt Hall.
  inversion Hall as [| ? ? [Hne Hkind] Hmore]; subst.
  cbn [fst snd] in Hne, Hkind. cbn [map snd concat].
  assert (split_runs (concat (map snd more)) = more) as Hrest.
  { apply IH; [| exact Hmore].
    destruct more as [| r2 more']; [exact I | apply Halt]. }
  clear IH Hall Hmore.
  induction r as [| c r IHr]; [congruence |].
  inversion Hkind as [| ? ? Hc Hr]; subst.
  cbn [app split_runs].
  destruct r as [| c' r'].
  - cbn [app]. rewrite Hrest.
    destruct more as [| [d' r2] more']; [reflexivity |].
    destruct Halt as [Hdiff _]. cbn [fst] in Hdiff.
    destruct (Bool.eqb d' (is_digit c)) eqn:Hsame; [| reflexivity].
    apply Bool.eqb_prop in Hsame. congruence.
  - rewrite IHr by (congruence || assumption).
    rewrite Bool.eqb_reflx. reflexivity.
Qed.

(** The sort key of the key written by alternating runs. *)
Lemma natural_key_of_runs (runs : list (bool * list ascii)) :
  alternating runs ->
  Forall run_well_formed runs ->
  natural_key (string_of_list_ascii (concat (map snd runs)))
  = map run_of runs.
Proof.
  intros Halt Hall. unfold natural_key.
  rewrite list_ascii_of_string_of_list_ascii.
  rewrite split_runs_of_runs by assumption. reflexivity.
Qed.

(** A key without digits is one text run, or no run when it is
    empty. *)
Lemma natural_key_text (s : string) :
  Forall (fun c => is_digit c = false) (list_ascii_of_string s) ->
  natural_key s
  = match list_ascii_of_string s with
    | [] => []
    | txt => [Txt txt]
    end.
Proof.
  intros Hplain.
  destruct (list_ascii_of_string s) as [| c txt] eqn:Hs.
  - unfold natural_key. rewrite Hs. reflexivity.
  - rewrite <- (string_of_list_ascii_of_string s), Hs.
    assert (Forall run_well_formed [(false, c :: txt)]) as Hrun.
    { constructor; [| constructor]. split; [discriminate | exact Hplain]. }
    pose proof (natural_key_of_runs [(false, c :: txt)] I Hrun) as Hkey.
    cbn [map snd concat run_of fst] in Hkey.
    rewrite app_nil_r in Hkey. exact Hkey.
Qed.

(** ** Decimal numerals *)

Lemma uint_chars_digits (d : Decimal.uint) :
  Forall (fun c => is_digit c = true)
    (list_ascii_of_string (NilEmpty.string_of_uint d)).
Proof.
  induction d; cbn; constructor; solve [reflexivity | assumption].
Qed.

Lemma uint_chars_nonempty (d : Decimal.uint) :
  d <> Decimal.Nil ->
  list_ascii_of_string (NilEmpty.string_of_uint d) <> [].
Proof. destruct d; [congruence | discriminate ..]. Qed.

Lemma uint_chars_value (d : Decimal.uint) (acc : nat) :
  fold_left (fun a c => 10 * a + (nat_of_ascii c - 48))
    (list_ascii_of_string (NilEmpty.string_of_uint d)) acc
  = Nat.of_uint_acc d acc.
Proof.
  revert acc.
  induction d; intros acc; cbn [NilEmpty.string_of_uint list_ascii_of_string
                                 fold_left Nat.of_uint_acc];
    [reflexivity | rewrite IHd; f_equal; rewrite Nat.tail_mul_spec ..].
  all: match goal with
       | |- context [nat_of_ascii ?c - 48] =>
           let v := eval vm_compute in (nat_of_ascii c - 48) in
           change (nat_of_ascii c - 48) with v
       end; lia.
Qed.

Lemma to_uint_nonnil (n : nat) : Nat.to_uint n <> Decimal.Nil.
Proof.
  rewrite <- (DecimalNat.Unsigned.of_to n) at 1.
  rewrite DecimalNat.Unsigned.to_of.
  apply DecimalFacts.unorm_nonnil.
Qed.

Lemma digits_value_str_of_nat (n : nat) :
  digits_value (list_ascii_of_string (str_of_nat n)) = n.
Proof.
  unfold digits_value, str_of_nat.
  rewrite uint_chars_value.
  exact (DecimalNat.Unsigned.of_to n).
Qed.

Lemma list_ascii_of_string_app (a b : string) :
  list_ascii_of_string (a ++ b)
  = list_ascii_of_string a ++ list_ascii_of_string b.
Proof.
  induction a as [| c a IH]; [reflexivity |].
  change (String c a ++ b)%string with (String c (a ++ b)%string).
  cbn [list_ascii_of_string app]. rewrite IH. reflexivity.
Qed.

(** ** Keys of the form [testN] *)

Lemma natural_key_test (n : nat) :
  natural_key (test_key n)
  = [Txt (list_ascii_of_string "test"); Num n].
Proof.
  unfold natural_key, test_key.
  rewrite list_ascii_of_string_app.
  rewrite split_runs_text_digits.
  - cbn [map run_of fst snd]. rewrite digits_value_str_of_nat. reflexivity.
  - discriminate.
  - repeat constructor.
  - apply uint_chars_nonempty, to_uint_nonnil.
  - apply uint_chars_digits.
Qed.

Lemma natsort_compare_test (n m : nat) :
  natsort_compare (test_key n) (test_key m) = Nat.compare n m.
Proof.
  unfold natsort_compare. rewrite !natural_key_test.
  cbn. destruct (Nat.compare n m); reflexivity.
Qed.

Lemma natsort_leb_test (n m : nat) :
  natsort_leb (test_key n) (test_key m) = (n <=? m)%nat.
Proof.
  unfold natsort_leb, leb_of. rewrite natsort_compare_test.
  destruct (Nat.compare_spec n m), (Nat.leb_spec n m);
    solve [reflexivity | lia].
Qed.

(** ** Keys that end with a number *)

Lemma lex_eq_r (c : comparison) : lex c Eq = c.
Proof. destruct c; reflexivity. Qed.

(** A text without digits followed by a number: the text, when there is
    one, then the number. *)
Lemma natural_key_numbered (p : string) (n : nat) :
  Forall (fun c => is_digit c = false) (list_ascii_of_string p) ->
  natural_key (p ++ str_of_nat n)
  = match list_ascii_of_string p with
    | [] => [Num n]
    | txt => [Txt txt; Num n]
    end.
Proof.
  intros Hplain. unfold natural_key.
  rewrite list_ascii_of_string_app.
  destruct (list_ascii_of_string p) as [| c txt].
  - cbn [app]. rewrite split_runs_digits.
    + cbn [map run_of fst snd]. rewrite digits_value_str_of_nat. reflexivity.
    + apply uint_chars_nonempty, to_uint_nonnil.
    + apply uint_chars_digits.
  - rewrite split_runs_text_digits.
    + cbn [map run_of fst snd]. rewrite digits_value_str_of_nat. reflexivity.
    + discriminate.
    + exact Hplain.
    + apply uint_chars_nonempty, to_uint_nonnil.
    + apply uint_chars_digits.
Qed.

(** Two keys that differ in their final number only compare as the
    numbers do. *)
Lemma natsort_compare_numbered (p : string) (n m : nat) :
  Forall (fun c => is_digit c = false) (list_ascii_of_string p) ->
  natsort_compare (p ++ str_of_nat n) (p ++ str_of_nat m) = Nat.compare n m.
Proof.
  intros Hplain. unfold natsort_compare.
  rewrite !natural_key_numbered by exact Hplain.
  destruct (list_ascii_of_string p) as [| c txt]; cbn [list_compare].
  - apply lex_eq_r.
  - change (run_compare (Txt (c :: txt)) (Txt (c :: txt)))
      with (text_compare (c :: txt) (c :: txt)).
    rewrite (cmp_refl text_compare text_compare_antisymmetric).
    cbn [lex run_compare]. apply lex_eq_r.
Qed.

(** Two keys without digits compare as their texts do. *)
Lemma natsort_compare_texts (a b : string) :
  Forall (fun c => is_digit c = false) (list_ascii_of_string a) ->
  Forall (fun c => is_digit c = false) (list_ascii_of_string b) ->
  natsort_compare a b = string_compare a b.
Proof.
  intros Ha Hb. unfold natsort_compare, string_compare.
  rewrite (natural_key_text a Ha), (natural_key_text b Hb).
  destruct (list_ascii_of_string a) as [| c x],
    (list_ascii_of_string b) as [| d y]; try reflexivity.
  cbn [list_compare run_compare]. apply lex_eq_r.
Qed.

(** ** The stable sort *)

Section Sorting.
Context {A : Type} (leb : A -> A -> bool).

Lemma insert_sorted_perm (x : A) (l : list A) :
  Permutation (insert_sorted leb x l) (x :: l).
Proof.
  induction l as [| y rest IH]; cbn [insert_sorted]; [reflexivity |].
  destruct (leb x y); [reflexivity |].
  rewrite IH. apply perm_swap.
Qed.

Lemma stable_sort_perm (l : list A) : Permutation (stable_sort leb l) l.
Proof.
  induction l as [| x rest IH]; cbn [stable_sort]; [reflexivity |].
  rewrite insert_sorted_perm, IH. reflexivity.
Qed.

Hypothesis leb_total : forall a b, leb a b = true \/ leb b a = true.

Lemma insert_sorted_hdrel (a x : A) (l : list A) :
  HdRel (fun u v => leb u v = true) a l ->
  leb a x = true ->
  HdRel (fun u v => leb u v = true) a (insert_sorted leb x l).
Proof.
  intros Hhd Hax. destruct l as [| y rest]; cbn [insert_sorted].
  - constructor. exact Hax.
  - destruct (leb x y); constructor; [exact Hax |].
    inversion Hhd; assumption.
Qed.

Lemma insert_sorted_sorted (x : A) (l : list A) :
  Sorted (fun u v => leb u v = true) l ->
  Sorted (fun u v => leb u v = true) (insert_sorted leb x l).
Proof.
  induction l as [| y rest IH]; intros Hsorted; cbn [insert_sorted].
  - repeat constructor.
  - destruct (leb x y) eqn:Hxy.
    + constructor; [exact Hsorted |]. constructor. exact Hxy.
    + inversion Hsorted as [| ? ? Hrest Hhd]; subst.
      constructor; [apply IH; exact Hrest |].
      apply insert_sorted_hdrel; [exact Hhd |].
      destruct (leb_total x y) as [Habs | Hyx]; [congruence | exact Hyx].
Qed.

Lemma stable_sort_sorted (l : list A) :
  Sorted (fun u v => leb u v = true) (stable_sort leb l).
Proof.
  induction l as [| x rest IH]; cbn [stable_sort]; [constructor |].
  apply insert_sorted_sorted. exact IH.
Qed.

End Sorting.

(** Sorting commutes with a map that preserves the comparison. *)
Lemma stable_sort_map {A B : Type} (f : A -> B) (lebA : A -> A -> bool)
    (lebB : B -> B -> bool) (l : list A) :
  (forall a b, lebB (f a) (f b) = lebA a b) ->
  stable_sort lebB (map f l) = map f (stable_sort lebA l).
Proof.
  intros Hleb.
  assert (forall x l', insert_sorted lebB (f x) (map f l')
                       = map f (insert_sorted lebA x l')) as Hins.
  { intros x l'. induction l' as [| y rest IH]; cbn; [reflexivity |].
    rewrite Hleb. destruct (lebA x y); cbn; [reflexivity |].
    rewrite IH. reflexivity. }
  induction l as [| x rest IH]; cbn [map stable_sort]; [reflexivity |].
  rewrite IH. apply Hins.
Qed.

Lemma stable_sort_nat_sorted (ns : list nat) :
  StronglySorted le (stable_sort Nat.leb ns).
Proof.
  apply Sorted_StronglySorted; [intros a b c; apply Nat.le_trans |].
  assert (Sorted (fun u v => Nat.leb u v = true) (stable_sort Nat.leb ns))
    as Hsorted.
  { apply stable_sort_sorted. intros a b.
    destruct (Nat.leb_spec a b); [left; reflexivity |].
    right. apply Nat.leb_le. lia. }
  induction Hsorted as [| a l Hl IH Hhd]; constructor; [exact IH |].
  destruct Hhd as [| b l' Hab]; constructor.
  apply Nat.leb_le. exact Hab.
Qed.

(** ** Sorting by a comparator, in both directions *)

Section Directions.
Context {A : Type} (cmp : A -> A -> comparison).
Hypothesis cmp_anti : cmp_antisymmetric cmp.

Lemma leb_of_true (a b : A) : leb_of cmp a b = true <-> cmp a b <> Gt.
Proof. unfold leb_of. destruct (cmp a b); easy. Qed.

Lemma leb_of_total (a b : A) :
  leb_of cmp a b = true \/ leb_of cmp b a = true.
Proof.
  rewrite !leb_of_true. apply cmp_total, cmp_anti.
Qed.

Lemma sorted_by_leb (l : list A) :
  Sorted (fun u v => leb_of cmp u v = true) l ->
  Sorted (fun u v => cmp u v <> Gt) l.
Proof.
  induction 1 as [| a l Hl IH Hhd]; constructor; [exact IH |].
  destruct Hhd as [| b l' Hab]; constructor.
  apply leb_of_true. exact Hab.
Qed.

(** The sort puts the rows in the order of the comparator. *)
Lemma stable_sort_ascending (l : list A) :
  Sorted (fun u v => cmp u v <> Gt) (stable_sort (leb_of cmp) l).
Proof. apply sorted_by_leb, stable_sort_sorted, leb_of_total. Qed.

(** Among the members of [l], a sorted list has every row before all
    the rows that are not smaller. *)
Lemma sorted_strongly (l s : list A) :
  cmp_transitive_on cmp l ->
  incl s l ->
  Sorted (fun u v => cmp u v <> Gt) s ->
  StronglySorted (fun u v => cmp u v <> Gt) s.
Proof.
  intros Htrans Hincl Hsorted.
  induction Hsorted as [| a r Hr IH Hhd]; constructor.
  - apply IH. intros x Hx. apply Hincl. right. exact Hx.
  - assert (StronglySorted (fun u v => cmp u v <> Gt) r) as Hstrong.
    { apply IH. intros x Hx. apply Hincl. right. exact Hx. }
    destruct Hhd as [| b r' Hab]; constructor; [exact Hab |].
    inversion Hstrong as [| ? ? _ Hall]; subst.
    rewrite List.Forall_forall in Hall |- *.
    intros x Hx.
    apply (Htrans a b x); try (apply Hincl; cbn; tauto);
      [exact Hab | apply Hall, Hx].
Qed.

Lemma strongly_sorted_snoc (R : A -> A -> Prop) (s : list A) (a : A) :
  StronglySorted R s ->
  Forall (fun b => R b a) s ->
  StronglySorted R (s ++ [a]).
Proof.
  induction 1 as [| b r Hr IH Hall]; intros Hlast; cbn [app].
  - repeat constructor.
  - inversion Hlast as [| ? ? Hba Hrest]; subst.
    constructor; [apply IH, Hrest |].
    apply List.Forall_app. split; [exact Hall |].
    constructor; [exact Hba | constructor].
Qed.

Lemma strongly_sorted_rev (R : A -> A -> Prop) (s : list A) :
  StronglySorted (fun u v => R v u) s ->
  StronglySorted R (rev s).
Proof.
  induction 1 as [| a r Hr IH Hall]; cbn [rev]; [constructor |].
  apply strongly_sorted_snoc; [exact IH |].
  apply List.Forall_rev. exact Hall.
Qed.

(** Two sorted lists of the same rows, no two of which compare equal,
    are the same list. *)
Lemma sorted_unique (s1 s2 : list A) :
  Permutation s1 s2 ->
  StronglySorted (fun u v => cmp u v <> Gt) s1 ->
  StronglySorted (fun u v => cmp u v <> Gt) s2 ->
  without_ties cmp s1 ->
  s1 = s2.
Proof.
  revert s2. induction s1 as [| a r1 IH]; intros s2 Hperm H1 H2 Hties.
  - apply Permutation_nil in Hperm. congruence.
  - destruct s2 as [| b r2];
      [apply Permutation_sym, Permutation_nil in Hperm; congruence |].
    inversion H1 as [| ? ? Hr1 Hall1]; subst.
    inversion H2 as [| ? ? Hr2 Hall2]; subst.
    rewrite List.Forall_forall in Hall1, Hall2.
    assert (a = b) as ->.
    { assert (In a (b :: r2)) as Ha
        by (apply (Permutation_in _ Hperm); left; reflexivity).
      assert (In b (a :: r1)) as Hb
        by (apply (Permutation_in _ (Permutation_sym Hperm)); left;
            reflexivity).
      destruct Ha as [Heq | Ha]; [congruence |].
      destruct Hb as [Heq | Hb]; [congruence |].
      apply Hties; [left; reflexivity | right; exact Hb |].
      pose proof (Hall1 b Hb) as Hab. pose proof (Hall2 a Ha) as Hba.
      rewrite (cmp_anti a b) in Hba.
      destruct (cmp a b); easy. }
    f_equal. apply IH; try assumption.
    + apply Permutation_cons_inv in Hperm. exact Hperm.
    + intros x y Hx Hy. apply Hties; right; assumption.
Qed.

(** A row goes to its place without passing a row it is tied with. *)
Lemma insert_sorted_tied (l s : list A) (x z : A) :
  cmp_transitive_on cmp l ->
  In x l -> In z l -> incl s l ->
  tied_with cmp x (insert_sorted (leb_of cmp) z s)
  = tied_with cmp x (z :: s).
Proof.
  intros Htrans Hx Hz. unfold tied_with.
  induction s as [| y rest IH]; intros Hincl; [reflexivity |].
  cbn [insert_sorted].
  destruct (leb_of cmp z y) eqn:Hzy; [reflexivity |].
  assert (cmp z y = Gt) as Hgt
    by (unfold leb_of in Hzy; destruct (cmp z y); easy).
  cbn [List.filter].
  rewrite IH by (intros u Hu; apply Hincl; right; exact Hu).
  cbn [List.filter].
  destruct (cmp x y) eqn:Hxy; try reflexivity.
  destruct (cmp x z) eqn:Hxz; try reflexivity.
  exfalso.
  assert (In y l) as Hy by (apply Hincl; left; reflexivity).
  pose proof (cmp_eq_eq cmp cmp_anti l Htrans z x y Hz Hx Hy
                (cmp_eq_sym cmp cmp_anti x z Hxz) Hxy) as Heq.
  congruence.
Qed.

(** The sort is stable: the rows tied with a row keep their order. *)
Lemma stable_sort_tied (l s : list A) (x : A) :
  cmp_transitive_on cmp l ->
  In x l -> incl s l ->
  tied_with cmp x (stable_sort (leb_of cmp) s) = tied_with cmp x s.
Proof.
  intros Htrans Hx.
  induction s as [| z rest IH]; intros Hincl; [reflexivity |].
  cbn [stable_sort].
  rewrite (insert_sorted_tied l); try assumption.
  - unfold tied_with in *. cbn [List.filter].
    rewrite IH by (intros u Hu; apply Hincl; right; exact Hu).
    reflexivity.
  - apply Hincl. left. reflexivity.
  - intros u Hu. apply Hincl. right.
    apply (Permutation_in _ (stable_sort_perm (leb_of cmp) rest)). exact Hu.
Qed.

End Directions.

Section Descending.
Context {A : Type} (cmp : A -> A -> comparison).
Hypothesis cmp_anti : cmp_antisymmetric cmp.

Lemma reversed_antisymmetric : cmp_antisymmetric (reversed cmp).
Proof. intros x y. apply cmp_anti. Qed.

Lemma reversed_transitive_on (l : list A) :
  cmp_transitive_on cmp l -> cmp_transitive_on (reversed cmp) l.
Proof.
  intros Htrans x y z Hx Hy Hz Hxy Hyz. unfold reversed in *.
  apply (Htrans z y x); assumption.
Qed.

Lemma reversed_not_gt (a b : A) : reversed cmp a b <> Gt <-> cmp a b <> Lt.
Proof.
  unfold reversed. rewrite (cmp_anti a b). destruct (cmp a b); easy.
Qed.

Lemma tied_with_reversed (x : A) (l : list A) :
  tied_with (reversed cmp) x l = tied_with cmp x l.
Proof.
  unfold tied_with, reversed. apply List.filter_ext. intros y.
  rewrite (cmp_anti x y). destruct (cmp x y); reflexivity.
Qed.

(** The descending sort puts the rows in the opposite order of the
    comparator. *)
Lemma stable_sort_descending (l : list A) :
  Sorted (fun u v => cmp u v <> Lt) (stable_sort (leb_of (reversed cmp)) l).
Proof.
  pose proof (stable_sort_ascending (reversed cmp) reversed_antisymmetric l)
    as Hsorted.
  induction Hsorted as [| a r Hr IH Hhd]; constructor; [exact IH |].
  destruct Hhd as [| b r' Hab]; constructor.
  apply reversed_not_gt. exact Hab.
Qed.

(** Without ties the descending order is the ascending one read
    backwards. *)
Lemma stable_sort_reversed (l : list A) :
  cmp_transitive_on cmp l ->
  without_ties cmp l ->
  stable_sort (leb_of (reversed cmp)) l = rev (stable_sort (leb_of cmp) l).
Proof.
  intros Htrans Hties.
  pose proof (stable_sort_perm (leb_of cmp) l) as Hasc.
  pose proof (stable_sort_perm (leb_of (reversed cmp)) l) as Hdesc.
  apply (sorted_unique (reversed cmp) reversed_antisymmetric).
  - rewrite Hdesc, <- Permutation_rev, Hasc. reflexivity.
  - apply (sorted_strongly (reversed cmp) l).
    + apply reversed_transitive_on, Htrans.
    + intros x Hx. apply (Permutation_in _ Hdesc). exact Hx.
    + apply stable_sort_ascending, reversed_antisymmetric.
  - apply strongly_sorted_rev. unfold reversed.
    apply (sorted_strongly cmp l _ Htrans).
    + intros x Hx. apply (Permutation_in _ Hasc). exact Hx.
    + apply stable_sort_ascending, cmp_anti.
  - intros x y Hx Hy Heq. unfold reversed in Heq.
    symmetry. apply Hties.
    + apply (Permutation_in _ Hdesc). exact Hy.
    + apply (Permutation_in _ Hdesc). exact Hx.
    + exact Heq.
Qed.

End Descending.


(** ** Sort direction *)




Lemma column_eqb_refl (c : Column) : column_eqb c c = true.
Proof. destruct c; reflexivity. Qed.

Lemma column_eqb_neq (c c' : Column) : c' <> c -> column_eqb c c' = false.
Proof. destruct c, c'; intros Hne; solve [reflexivity | congruence]. Qed.

(** C5: activating the column that is sorted moves the direction from
    ascending to descending, to the insertion order and to ascending
    again; activating another column starts at ascending.  Hence three
    activations of one column, the first of which sorts ascending, end in
    the insertion order, the rows being the entries as inserted; and
    three activations of the column in use come back to the state they
    started from. *)
Theorem activation_cycle (c : Column) :
  activate c (mk_SortState c Ascending) = mk_SortState c Descending
  /\ activate c (mk_SortState c Descending) = mk_SortState c InsertionOrder
  /\ activate c (mk_SortState c InsertionOrder) = mk_SortState c Ascending
  /\ (forall s, sort_column s <> c -> activate c s = mk_SortState c Ascending)
  /\ (forall s entries,
        activate c s = mk_SortState c Ascending ->
        activate c (activate c (activate c s)) = mk_SortState c InsertionOrder
        /\ row_order (activate c (activate c (activate c s))) entries
           = entries)
  /\ (forall s, sort_column s = c ->
        activate c (activate c (activate c s)) = s).
Proof.
  assert (forall d, activate c (mk_SortState c d)
                    = mk_SortState c (next_direction d)) as Hsame.
  { intros d. unfold activate. cbn [sort_column direction].
    rewrite column_eqb_refl. reflexivity. }
  split; [apply Hsame | split; [apply Hsame | split; [apply Hsame |]]].
  split; [| split].
  - intros s Hne. unfold activate.
    rewrite (column_eqb_neq c (sort_column s) Hne). reflexivity.
  - intros s entries Hfirst. rewrite Hfirst, !Hsame. split; reflexivity.
  - intros s <-. destruct s as [c' d]. cbn [sort_column].
    rewrite !Hsame. destruct d; reflexivity.
Qed.

(** The C5 theorem on the dictionary of the sorting test: three clicks
    on the key column of the unsorted view show the insertion order
    again. *)
Lemma activation_cycle_witness :
  row_order
    (activate KeyColumn (activate KeyColumn (activate KeyColumn unsorted)))
    ModelInputs.my_dict
  = ModelInputs.my_dict.
Proof.
  destruct (activation_cycle KeyColumn) as (_ & _ & _ & _ & Hthree & _).
  apply (Hthree unsorted ModelInputs.my_dict).
  reflexivity.
Defined.

(** The orders the sorting test sees on its dictionary: by key, by key
    reversed, as inserted, then by value and by value reversed. *)
Lemma dict_in_tableview_sorting :
  map entry_key (row_order (activate KeyColumn unsorted) ModelInputs.my_dict)
  = ["1"; "2"; "3"]
  /\ map entry_key
       (row_order (activate KeyColumn (activate KeyColumn unsorted))
          ModelInputs.my_dict)
     = ["3"; "2"; "1"]
  /\ map entry_key
       (row_order
          (activate KeyColumn
             (activate KeyColumn (activate KeyColumn unsorted)))
          ModelInputs.my_dict)
     = ["2"; "3"; "1"]
  /\ map entry_key
       (row_order (activate ValueColumn unsorted) ModelInputs.my_dict)
     = ["3"; "1"; "2"]
  /\ map entry_key
       (row_order (activate ValueColumn (activate ValueColumn unsorted))
          ModelInputs.my_dict)
     = ["2"; "1"; "3"].
Proof. repeat split; vm_compute; reflexivity. Qed.

(** ** Paged loading *)

Lemma fetch_more_loaded (total : nat) (w : PageWindow) :
  loaded_count w <= total ->
  fetch_more total w
  = mk_PageWindow (Nat.min (loaded_count w + page_size w) total)
      (page_size w).
Proof.
  intros Hle. unfold fetch_more, load_state.
  destruct (Nat.eqb_spec (loaded_count w) total) as [Heq | Hne].
  - destruct w as [loaded page]. cbn in *. subst loaded.
    f_equal. lia.
  - destruct (loaded_count w =? 0)%nat; reflexivity.
Qed.

Lemma iter_fetch_more (total k : nat) (w : PageWindow) :
  loaded_count w <= total ->
  Nat.iter k (fetch_more total) w
  = match k with
    | O => w
    | S _ => mk_PageWindow
               (Nat.min (loaded_count w + k * page_size w) total)
               (page_size w)
    end.
Proof.
  intros Hle. induction k as [| k IH]; [reflexivity |].
  rewrite Nat.iter_succ, IH.
  destruct k as [| k'].
  - rewrite fetch_more_loaded by exact Hle. f_equal. lia.
  - rewrite fetch_more_loaded by (cbn; lia).
    cbn [loaded_count page_size]. f_equal. lia.
Qed.

Lemma pages_needed_cover (total page : nat) :
  0 < page -> total <= pages_needed total page * page.
Proof.
  intros Hpage. unfold pages_needed.
  pose proof (Nat.div_mod (total + page - 1) page ltac:(lia)) as Hdiv.
  pose proof (Nat.mod_upper_bound (total + page - 1) page ltac:(lia)) as Hmod.
  nia.
Qed.

(** C6: on a window that is not fully loaded [fetch_more] adds one page,
    clamped to the number of entries; on a fully loaded one it changes
    nothing; after [ceil(total / page_size)] calls, or more, the row
    count is the number of entries and the model is fully loaded. *)
Theorem fetch_more_reaches_fully_loaded (total : nat) (w : PageWindow) :
  loaded_count w <= total ->
  0 < page_size w ->
  (loaded_count w < total ->
     fetch_more total w
     = mk_PageWindow (Nat.min (loaded_count w + page_size w) total)
         (page_size w))
  /\ (loaded_count w = total -> fetch_more total w = w)
  /\ (forall k,
        pages_needed total (page_size w) <= k ->
        row_count (Nat.iter k (fetch_more total) w) = total
        /\ load_state total (Nat.iter k (fetch_more total) w) = FullyLoaded).
Proof.
  intros Hle Hpage. split; [| split].
  - intros _. apply fetch_more_loaded. exact Hle.
  - intros Hfull. unfold fetch_more, load_state.
    rewrite (proj2 (Nat.eqb_eq _ _) Hfull). reflexivity.
  - intros k Hk.
    assert (row_count (Nat.iter k (fetch_more total) w) = total) as Hcount.
    { rewrite iter_fetch_more by exact Hle. unfold row_count.
      pose proof (pages_needed_cover total (page_size w) Hpage) as Hcover.
      destruct k as [| k'].
      - cbn in *. lia.
      - cbn [loaded_count]. nia. }
    split; [exact Hcount |].
    unfold load_state. unfold row_count in Hcount.
    rewrite (proj2 (Nat.eqb_eq _ _) Hcount). reflexivity.
Qed.

(** The C6 theorem on the model of the fetching test: 200 rows loaded by
    pages of 50, four calls after the first page. *)
Lemma fetch_more_reaches_fully_loaded_witness :
  row_count (Nat.iter 4 (fetch_more 200) ModelInputs.first_page) = 200
  /\ load_state 200 (Nat.iter 4 (fetch_more 200) ModelInputs.first_page)
     = FullyLoaded.
Proof.
  apply (fetch_more_reaches_fully_loaded 200 ModelInputs.first_page).
  - vm_compute. lia.
  - vm_compute. lia.
  - vm_compute. lia.
Defined.

End CollectionsModelFacts.

(* ===================================================================== *)
(** * Further facts about namespacebrowser.py                             *)
(* ===================================================================== *)

Module NamespaceBrowserMore.
Import Py Values NamespaceBrowser Statements Inputs NamespaceBrowserFacts.

(** X1: [get_value] returns a value exactly when the kernel call answers
    and the answer loads, and the value is the loaded one. *)
Theorem get_value_returns_iff {Value : Type} (sh : Shell Value)
    (name : string) (v : Value) :
  get_value sh name = Ok v <->
  exists encoded,
    kernel_get_value sh name = Ok encoded
    /\ cloudpickle_loads sh encoded = Ok v.
Proof.
  unfold get_value. split.
  - destruct (kernel_get_value sh name) as [encoded | e] eqn:Hcall.
    + destruct (cloudpickle_loads sh encoded) as [v' | e] eqn:Hload.
      * intros Heq. injection Heq as ->. exists encoded. split; reflexivity
          || assumption.
      * destruct (get_value_except_raises sh true e) as [e' ->].
        discriminate.
    + destruct (get_value_except_raises sh false e) as [e' ->].
      discriminate.
  - intros (encoded & -> & ->). reflexivity.
Qed.

(** X2: a [ModuleNotFoundError] whose first argument is a message text,
    not a wrapped kernel error, is not explained: when the kernel call of
    [get_value] raises it, [get_value] raises an [AttributeError] that is
    no [ValueError]; when the kernel call of [set_value] raises it,
    [set_value] raises an [AttributeError] instead of discarding it. *)
Theorem unwrapped_module_not_found_escapes {Value : Type} (sh : Shell Value)
    (name : string) (v : Value) (e : exception) (text : string)
    (rest : list exc_arg) :
  isinstance e ModuleNotFoundError = true ->
  exc_args e = ArgText text :: rest ->
  (isinstance_any e before_module = false ->
   kernel_get_value sh name = Raise e ->
   exists e',
     get_value sh name = Raise e'
     /\ isinstance e' AttributeError = true
     /\ isinstance e' ValueError = false)
  /\ (forall encoded,
        cloudpickle_dumps sh v = Ok encoded ->
        kernel_set_value sh name encoded = Raise e ->
        exists e',
          set_value sh name v = Raise e'
          /\ isinstance e' AttributeError = true).
Proof.
  intros Hmod Hargs. split.
  - intros Hbefore Hcall.
    unfold get_value. rewrite Hcall. unfold get_value_except.
    unfold before_module, before_comm, before_key, before_runtime,
      pickle_classes in Hbefore.
    cbn [app] in Hbefore. unfold isinstance_any in *.
    cbn [existsb] in *.
    repeat match goal with
           | H : _ || _ = false |- _ => apply orb_false_iff in H; destruct H
           end.
    repeat match goal with
           | H : isinstance e ?c = _ |- context [isinstance e ?c] => rewrite H
           end.
    cbn [orb negb]. unfold args0_error_name. rewrite Hargs. cbn [bind].
    eexists. split; [reflexivity | split; reflexivity].
  - intros encoded Hdumps Hcall. unfold set_value.
    rewrite Hdumps. cbn [bind]. rewrite Hcall, Hmod.
    unfold args0_error_name. rewrite Hargs. cbn [bind].
    eexists. split; reflexivity.
Qed.

(** The X2 theorem on an import error of this process met by a kernel
    call. *)
Lemma unwrapped_module_not_found_escapes_witness :
  (exists e',
     get_value (shell_failing_kernel (module_not_found "foo")) "x" = Raise e'
     /\ isinstance e' AttributeError = true
     /\ isinstance e' ValueError = false)
  /\ (exists e',
        set_value (shell_failing_kernel (module_not_found "foo")) "x" (VInt 1)
        = Raise e'
        /\ isinstance e' AttributeError = true).
Proof.
  destruct (unwrapped_module_not_found_escapes
              (shell_failing_kernel (module_not_found "foo")) "x" (VInt 1)
              (module_not_found "foo") "No module named 'foo'" []
              eq_refl eq_refl) as [Hget Hset].
  split.
  - apply Hget; reflexivity.
  - apply (Hset "payload"); reflexivity.
Defined.

End NamespaceBrowserMore.

(* ===================================================================== *)
(** * Further facts about collectionsdelegate.py                          *)
(* ===================================================================== *)

Module SizeTextFacts.
Import Py Values CollectionsDelegate Statements MoreStatements.
Import CollectionsDelegateFacts CollectionsModelFacts.

(** ** Stripping and splitting *)

Lemma lstrip_keep (p : ascii -> bool) (l : list ascii) :
  Forall (fun c => p c = false) l -> lstrip p l = l.
Proof.
  intros Hall. destruct Hall as [| c l Hc _]; [reflexivity |].
  cbn [lstrip]. rewrite Hc. reflexivity.
Qed.

Lemma strip_keep (p : ascii -> bool) (l : list ascii) :
  Forall (fun c => p c = false) l -> strip p l = l.
Proof.
  intros Hall. unfold strip.
  rewrite (lstrip_keep p l Hall).
  rewrite lstrip_keep by (apply List.Forall_rev; exact Hall).
  apply rev_involutive.
Qed.

Lemma strip_leading (p : ascii -> bool) (a : ascii) (body : list ascii) :
  p a = true ->
  Forall (fun c => p c = false) body ->
  strip p (a :: body) = body.
Proof.
  intros Ha Hall. unfold strip. cbn [lstrip]. rewrite Ha.
  exact (strip_keep p body Hall).
Qed.

Lemma strip_wrapped (p : ascii -> bool) (a b : ascii) (body : list ascii) :
  p a = true -> p b = true ->
  Forall (fun c => p c = false) body ->
  strip p (a :: body ++ [b]) = body.
Proof.
  intros Ha Hb Hall. unfold strip. cbn [lstrip]. rewrite Ha.
  destruct body as [| c body'].
  - cbn. rewrite Hb. reflexivity.
  - assert (lstrip p ((c :: body') ++ [b]) = (c :: body') ++ [b]) as ->.
    { cbn [app lstrip]. inversion Hall as [| ? ? Hc _]; subst.
      rewrite Hc. reflexivity. }
    rewrite rev_unit. cbn [lstrip]. rewrite Hb.
    rewrite lstrip_keep by (apply List.Forall_rev; exact Hall).
    apply rev_involutive.
Qed.

Lemma split_no_separator (sep : ascii) (l : list ascii) :
  Forall (fun c => Ascii.eqb c sep = false) l ->
  split sep l = [l].
Proof.
  induction 1 as [| c l Hc _ IH]; [reflexivity |].
  cbn [split]. rewrite Hc, IH. reflexivity.
Qed.

Lemma split_at_separator (sep : ascii) (l rest : list ascii) :
  Forall (fun c => Ascii.eqb c sep = false) l ->
  split sep (l ++ sep :: rest) = l :: split sep rest.
Proof.
  induction 1 as [| c l Hc _ IH].
  - cbn [app split]. rewrite Ascii.eqb_refl. reflexivity.
  - cbn [app split]. rewrite Hc, IH. reflexivity.
Qed.

(** ** Decimal digits *)

Lemma digit_is_plain (c : ascii) :
  is_digit c = true ->
  is_space c = false /\ is_paren c = false
  /\ Ascii.eqb c ","%char = false /\ Ascii.eqb c "."%char = false.
Proof.
  destruct c as [[] [] [] [] [] [] [] []]; vm_compute; intros Hd;
    solve [discriminate Hd | repeat split].
Qed.

Lemma digits_of_digits (n : nat) :
  Forall (fun c => is_digit c = true) (digits_of n).
Proof. apply uint_chars_digits. Qed.

Lemma digits_of_nonempty (n : nat) : digits_of n <> [].
Proof. apply uint_chars_nonempty, to_uint_nonnil. Qed.

Lemma digits_of_plain (n : nat) (p : ascii -> bool) :
  (forall c, is_digit c = true -> p c = false) ->
  Forall (fun c => p c = false) (digits_of n).
Proof.
  intros Hp. eapply List.Forall_impl; [| apply digits_of_digits].
  exact Hp.
Qed.

Lemma parse_digits_uint (d : Decimal.uint) (a : nat) (after : bool) :
  d <> Decimal.Nil \/ after = true ->
  parse_digits (Z.of_nat a) after
    (list_ascii_of_string (NilEmpty.string_of_uint d))
  = Some (Z.of_nat (Nat.of_uint_acc d a)).
Proof.
  revert a after.
  induction d; intros a after Hstart;
    cbn [NilEmpty.string_of_uint list_ascii_of_string parse_digits
         Nat.of_uint_acc].
  1: { destruct Hstart as [Habs | ->]; [congruence | reflexivity]. }
  all: match goal with
       | |- context [is_digit ?c] =>
           change (is_digit c) with true; cbv iota
       end.
  all: match goal with
       | |- parse_digits ?acc true _ = Some (Z.of_nat (Nat.of_uint_acc _ ?a')) =>
           replace acc with (Z.of_nat a');
           [ apply IHd; right; reflexivity | ]
       end.
  all: rewrite Nat.tail_mul_spec; unfold digit_value;
    match goal with
    | |- context [nat_of_ascii ?c - 48] =>
        let v := eval vm_compute in (nat_of_ascii c - 48) in
        change (nat_of_ascii c - 48) with v
    end; lia.
Qed.

Lemma parse_digits_of (n : nat) :
  parse_digits 0 false (digits_of n) = Some (Z.of_nat n).
Proof.
  pose proof (parse_digits_uint (Nat.to_uint n) 0 false
                (or_introl (to_uint_nonnil n))) as Hparse.
  change (Z.of_nat 0) with 0%Z in Hparse.
  change (Nat.of_uint_acc (Nat.to_uint n) 0)
    with (Nat.of_uint (Nat.to_uint n)) in Hparse.
  rewrite DecimalNat.Unsigned.of_to in Hparse.
  exact Hparse.
Qed.

(** A numeral carries no sign. *)
Lemma unsigned_body (l : list ascii) (A : Type) (plus minus : list ascii -> A)
    (other : A) :
  l <> [] ->
  Forall (fun c => is_digit c = true) l ->
  match l with
  | "+"%char :: digits => plus digits
  | "-"%char :: digits => minus digits
  | _ => other
  end = other.
Proof.
  intros Hne Hall. destruct Hall as [| c l Hc _]; [congruence |].
  destruct c as [[] [] [] [] [] [] [] []]; try reflexivity;
    vm_compute in Hc; discriminate Hc.
Qed.

(** [int()] reads the text of a number back, with or without a space
    before it. *)
Lemma int_of_text_digits (n : nat) (padded : bool) :
  int_of_text (if padded then " "%char :: digits_of n else digits_of n)
  = Ok (Z.of_nat n).
Proof.
  unfold int_of_text.
  assert (strip is_space
            (if padded then " "%char :: digits_of n else digits_of n)
          = digits_of n) as ->.
  { destruct padded.
    - apply strip_leading; [reflexivity |].
      apply digits_of_plain. intros c Hc. apply (digit_is_plain c Hc).
    - apply strip_keep.
      apply digits_of_plain. intros c Hc. apply (digit_is_plain c Hc). }
  rewrite (unsigned_body (digits_of n) (option Z))
    by (apply digits_of_nonempty || apply digits_of_digits).
  rewrite parse_digits_of. reflexivity.
Qed.

(** X3: for a collection tag, a size given as the text of a count is read
    as that count: [show_warning] answers the same for the text and for
    the integer, true exactly above [LARGE_COLLECTION]. *)
Theorem show_warning_count_as_text (val_type : string) (n : nat) :
  collection_tag val_type = true ->
  show_warning val_type (CellStr (str_of_nat n))
  = Ok (LARGE_COLLECTION <? Z.of_nat n)%Z
  /\ show_warning val_type (CellInt (Z.of_nat n))
     = Ok (LARGE_COLLECTION <? Z.of_nat n)%Z.
Proof.
  intros Htag. rewrite !(show_warning_collection val_type _ Htag).
  split; [| reflexivity].
  cbn [py_int]. fold (digits_of n).
  rewrite (int_of_text_digits n false). reflexivity.
Qed.

(** The X3 theorem on a list of 42 items. *)
Lemma show_warning_count_as_text_witness :
  show_warning "list" (CellStr "42") = Ok false
  /\ show_warning "list" (CellInt 42) = Ok false.
Proof.
  exact (show_warning_count_as_text "list" 42 eq_refl).
Defined.

(** ** The text of a shape *)

Lemma int_of_pieces_piece (piece : list ascii) (rest : list (list ascii)) :
  piece <> [] ->
  int_of_pieces (piece :: rest)
  = let* z := int_of_text piece in
    let* zs := int_of_pieces rest in
    Ok (z :: zs).
Proof. destruct piece; [congruence | reflexivity]. Qed.

Lemma padded_digits_no_comma (n : nat) (padded : bool) :
  Forall (fun c => Ascii.eqb c ","%char = false)
    (if padded then " "%char :: digits_of n else digits_of n).
Proof.
  assert (Forall (fun c => Ascii.eqb c ","%char = false) (digits_of n))
    as Hdigits.
  { apply (digits_of_plain n (fun c => Ascii.eqb c ","%char)).
    intros c Hc. apply (digit_is_plain c Hc). }
  destruct padded; [constructor; [reflexivity | exact Hdigits] | exact Hdigits].
Qed.

Lemma padded_digits_nonempty (n : nat) (padded : bool) :
  (if padded then " "%char :: digits_of n else digits_of n) <> [].
Proof. destruct padded; [discriminate | apply digits_of_nonempty]. Qed.

(** The pieces between the commas of the items of a tuple are its
    dimensions. *)
Lemma tuple_items_pieces (rest : list nat) (d : nat) (padded : bool) :
  int_of_pieces
    (split ","%char
       (if padded then " "%char :: tuple_items d rest
        else tuple_items d rest))
  = Ok (map Z.of_nat (d :: rest)).
Proof.
  revert d padded. induction rest as [| d' rest' IH]; intros d padded.
  - cbn [tuple_items map].
    rewrite (split_no_separator _ _ (padded_digits_no_comma d padded)).
    rewrite (int_of_pieces_piece _ _ (padded_digits_nonempty d padded)).
    rewrite (int_of_text_digits d padded). reflexivity.
  - cbn [tuple_items].
    replace (if padded
             then " "%char
                  :: digits_of d ++ ","%char :: " "%char :: tuple_items d' rest'
             else digits_of d ++ ","%char :: " "%char :: tuple_items d' rest')
      with ((if padded then " "%char :: digits_of d else digits_of d)
            ++ ","%char :: " "%char :: tuple_items d' rest')
      by (destruct padded; reflexivity).
    rewrite (split_at_separator _ _ _ (padded_digits_no_comma d padded)).
    rewrite (int_of_pieces_piece _ _ (padded_digits_nonempty d padded)).
    rewrite (int_of_text_digits d padded).
    rewrite (IH d' true). reflexivity.
Qed.

Lemma tuple_items_no_paren (rest : list nat) (d : nat) :
  Forall (fun c => is_paren c = false) (tuple_items d rest).
Proof.
  assert (forall n, Forall (fun c => is_paren c = false) (digits_of n))
    as Hdigits.
  { intros n. apply (digits_of_plain n is_paren).
    intros c Hc. apply (digit_is_plain c Hc). }
  revert d. induction rest as [| d' rest' IH]; intros d; cbn [tuple_items].
  - apply Hdigits.
  - apply List.Forall_app. split; [apply Hdigits |].
    constructor; [reflexivity |]. constructor; [reflexivity |]. apply IH.
Qed.

(** The dimensions read from the text of a tuple are the tuple. *)
Lemma declared_dims_tuple_text (d : nat) (rest : list nat) :
  declared_dims (CellStr (tuple_text (d :: rest)))
  = Some (map Z.of_nat (d :: rest)).
Proof.
  unfold declared_dims, tuple_text.
  rewrite list_ascii_of_string_of_list_ascii.
  destruct rest as [| d' rest'].
  - replace ("("%char :: digits_of d ++ [","; ")"]%char)
      with ("("%char :: (digits_of d ++ [","%char]) ++ [")"%char])
      by (rewrite <- app_assoc; reflexivity).
    rewrite strip_wrapped; [| reflexivity | reflexivity |].
    + rewrite (split_at_separator ","%char (digits_of d) []
                 (padded_digits_no_comma d false)).
      rewrite (int_of_pieces_piece _ _ (digits_of_nonempty d)).
      rewrite (int_of_text_digits d false). reflexivity.
    + apply List.Forall_app. split; [| repeat constructor].
      apply (digits_of_plain d is_paren).
      intros c Hc. apply (digit_is_plain c Hc).
  - rewrite strip_wrapped;
      [| reflexivity | reflexivity | apply tuple_items_no_paren].
    rewrite (tuple_items_pieces (d' :: rest') d false). reflexivity.
Qed.

(** X4: for an array or frame tag, the text of a shape, as Python writes
    a tuple of dimensions, is read back as those dimensions:
    [show_warning] answers true exactly when their product exceeds
    [LARGE_ARRAY]; the empty shape [()] never warns. *)
Theorem show_warning_shape_text (val_type : string) (dims : list nat) :
  collection_tag val_type = false ->
  array_like_tag val_type = true ->
  show_warning val_type (CellStr (tuple_text dims))
  = Ok (match dims with
        | [] => false
        | _ => (LARGE_ARRAY <? product (map Z.of_nat dims))%Z
        end).
Proof.
  intros Hcoll Harr.
  rewrite (show_warning_array_like val_type _ Hcoll Harr).
  destruct dims as [| d rest]; [reflexivity |].
  rewrite declared_dims_tuple_text. reflexivity.
Qed.

(** The X4 theorem on an array of 3000 by 2000 cells. *)
Lemma show_warning_shape_text_witness :
  show_warning "Array of float64" (CellStr (tuple_text [3000; 2000]))
  = Ok true.
Proof.
  rewrite (show_warning_shape_text "Array of float64" [3000; 2000]
             eq_refl eq_refl).
  vm_compute. reflexivity.
Defined.

End SizeTextFacts.

Module CreateEditorFacts.
Import Py Values CollectionsDelegate Statements MoreStatements.
Import DelegateInputs MoreInputs CollectionsDelegateFacts.

(** Unfolds both [createEditor]s down to the state they build. *)
Ltac unfold_actions :=
  unfold createEditor, toggle_createEditor, fetch_value, toggle_fetch_value,
    show_warning_at, get_value, toggle_get_value,
    createEditor_for, toggle_createEditor_for, dialog_and_none,
    shown_and_none, create_dialog, make_data_function,
    toggle_make_data_function, try_except, abind, gets, modify, ret, lift,
    emit.

Ltac reduce_state :=
  cbn [fst snd is_none qt_alive _editors model parent_readonly data_function
       log current_index old_obj log_event with_editors with_model
       with_current_index with_old_obj andb orb negb].

(** Follows every path through an unfolded [createEditor]. *)
Ltac follow :=
  reduce_state;
  repeat (match goal with
          | Hq : qt_alive ?s = _ |- context [qt_alive ?s] => rewrite Hq
          | |- context [if ?b then _ else _] => destruct b eqn:?
          | |- context [match show_warning ?a ?b with _ => _ end] =>
              destruct (show_warning a b) as [[|] |] eqn:?
          | |- context [match m_get_value ?a ?b with _ => _ end] =>
              destruct (m_get_value a b) eqn:?
          | |- context [match copy_of ?a ?b with _ => _ end] =>
              destruct (copy_of a b) eqn:?
          | |- context [match data_function ?s with _ => _ end] =>
              destruct (data_function s) eqn:?
          | |- context [match nth_error ?l ?i with _ => _ end] =>
              destruct (nth_error l i) eqn:?
          | |- context [match getattr_str ?a ?b with _ => _ end] =>
              destruct (getattr_str a b) eqn:?
          | |- context [match int_bit_length ?a with _ => _ end] =>
              destruct (int_bit_length a) eqn:?
          end; reduce_state).

Section CreateEditor.
Context {M : Type} `{TableModel M}.

(** X5: neither [createEditor] writes to the model, to the read-only mark
    of the parent or to the data function of the delegate, and neither
    touches a session other than the one of the editor it creates. *)
Theorem createEditor_leaves_the_rest (env : Env) (index : Index) (oe : bool)
    (self : Delegate M) :
  (model (fst (createEditor env index oe self)) = model self
   /\ parent_readonly (fst (createEditor env index oe self))
      = parent_readonly self
   /\ data_function (fst (createEditor env index oe self))
      = data_function self
   /\ (forall id, id <> new_editor_id env ->
         _editors (fst (createEditor env index oe self)) !! id
         = _editors self !! id))
  /\ (model (fst (toggle_createEditor env index self)) = model self
      /\ parent_readonly (fst (toggle_createEditor env index self))
         = parent_readonly self
      /\ data_function (fst (toggle_createEditor env index self))
         = data_function self
      /\ (forall id, id <> new_editor_id env ->
            _editors (fst (toggle_createEditor env index self)) !! id
            = _editors self !! id)).
Proof.
  split.
  - unfold_actions. follow.
    all: split; [reflexivity | split; [reflexivity | split; [congruence |]]].
    all: intros id Hid;
      first [reflexivity | rewrite lookup_insert_ne by congruence; reflexivity].
  - unfold_actions. follow.
    all: split; [reflexivity | split; [reflexivity | split; [congruence |]]].
    all: intros id Hid;
      first [reflexivity | rewrite lookup_insert_ne by congruence; reflexivity].
Qed.

(** X6: an editor for editing in place is returned only for a value
    whose flag is not read-only, and then no session is registered. *)
Theorem inline_editor_only_when_editable (env : Env) (index : Index)
    (oe : bool) (self : Delegate M) (w : InlineEditor) :
  (snd (createEditor env index oe self) = Ok (Some w) ->
   _editors (fst (createEditor env index oe self)) = _editors self
   /\ exists v,
        m_get_value (model self) (row index) = Ok v
        /\ compute_readonly env self v = false)
  /\ (snd (toggle_createEditor env index self) = Ok (Some w) ->
      _editors (fst (toggle_createEditor env index self)) = _editors self
      /\ compute_readonly env self (m_tree_item_obj (model self) (row index))
         = false).
Proof.
  split.
  - unfold_actions. follow.
    all: intros Hres; try discriminate Hres.
    all: split; [reflexivity |].
    all: eexists; split; [reflexivity |].
    all: match goal with
         | Hro : compute_readonly _ _ _ = false |- _ => exact Hro
         end.
  - unfold_actions. follow.
    all: intros Hres; try discriminate Hres.
    all: split; [reflexivity |].
    all: match goal with
         | Hro : compute_readonly _ _ _ = false |- _ => exact Hro
         end.
Qed.

(** X7: while the Qt object of the delegate is alive,
    [CollectionsDelegate.createEditor] emits [sig_editor_creation_started]
    once, before anything else, and [sig_editor_shown] at most once; it
    emits [sig_editor_shown] exactly once whenever it returns an editor
    or registers a session. *)
Theorem createEditor_signals (env : Env) (index : Index) (oe : bool)
    (self : Delegate M) :
  qt_alive self = true ->
  exists rest,
    log (fst (createEditor env index oe self))
    = log self ++ Emitted sig_editor_creation_started :: rest
    /\ count_emitted sig_editor_creation_started rest = 0
    /\ count_emitted sig_editor_shown rest <= 1
    /\ (forall w, snd (createEditor env index oe self) = Ok (Some w) ->
          count_emitted sig_editor_shown rest = 1)
    /\ (_editors (fst (createEditor env index oe self)) <> _editors self ->
          count_emitted sig_editor_shown rest = 1).
Proof.
  intros Hq. unfold_actions. follow.
  all: eexists; split; [rewrite <- ?app_assoc; cbn [app]; reflexivity |].
  all: cbn [count_emitted signal_eqb Nat.add].
  all: repeat split; try lia; try discriminate; try reflexivity.
  all: intros Hne; exfalso; apply Hne; reflexivity.
Qed.

Lemma bit_length_bound (z : Z) :
  (MAX_INT_BIT_LENGTH_FOR_EDITING
   <=? (if z =? 0 then 0 else Z.log2 (Z.abs z) + 1))%Z
  = negb (Z.abs z <? editable_int_bound)%Z.
Proof.
  unfold editable_int_bound.
  assert (0 <= MAX_INT_BIT_LENGTH_FOR_EDITING - 1)%Z as Hnonneg
    by (unfold MAX_INT_BIT_LENGTH_FOR_EDITING; lia).
  assert (0 < MAX_INT_BIT_LENGTH_FOR_EDITING)%Z as Hpos
    by (unfold MAX_INT_BIT_LENGTH_FOR_EDITING; lia).
  pose proof (Z.pow_pos_nonneg 2 _ ltac:(lia) Hnonneg) as Hbound.
  set (bound := (2 ^ (MAX_INT_BIT_LENGTH_FOR_EDITING - 1))%Z) in *.
  destruct (Z.eqb_spec z 0) as [-> | Hz].
  - cbn [Z.abs].
    destruct (Z.leb_spec MAX_INT_BIT_LENGTH_FOR_EDITING 0),
      (Z.ltb_spec 0 bound); cbn [negb]; solve [reflexivity | lia].
  - assert (0 < Z.abs z)%Z as Habs by lia.
    pose proof (Z.log2_le_pow2 (Z.abs z)
                  (MAX_INT_BIT_LENGTH_FOR_EDITING - 1) Habs) as Hlog.
    fold bound in Hlog.
    destruct (Z.leb_spec MAX_INT_BIT_LENGTH_FOR_EDITING
                (Z.log2 (Z.abs z) + 1)),
      (Z.ltb_spec (Z.abs z) bound); cbn [negb];
      solve [reflexivity | lia].
Qed.

(** X8: an integer of an editable type, in a parent that is not
    read-only, gets a line editor exactly when its magnitude is below
    [2 ^ (MAX_INT_BIT_LENGTH_FOR_EDITING - 1)]; at or above it no editor
    is returned and the user is told that the value is too large. *)
Theorem large_int_is_not_edited (env : Env) (index : Index)
    (self : Delegate M) (z : Z) :
  qt_alive self = true ->
  is_editable_type env (VInt z) = true ->
  compute_readonly env self (VInt z) = false ->
  createEditor_for env index false (VInt z) self
  = if (Z.abs z <? editable_int_bound)%Z
    then (log_event (Emitted sig_editor_shown) self, Ok (Some QLineEdit))
    else (log_event (CriticalBox too_large_text)
            (log_event (Emitted sig_editor_shown) self),
          Ok None).
Proof.
  intros Hq Hedit Hro.
  unfold createEditor_for, shown_and_none, abind, gets, modify, ret, emit.
  cbn [is_np_void is_collection is_ndarray is_pil_image is_pandas is_date
       is_text_string has_class andb negb int_bit_length].
  rewrite Hedit, Hro. cbn [andb negb].
  rewrite bit_length_bound.
  destruct (Z.abs z <? editable_int_bound)%Z; cbn [negb];
    rewrite Hq; reduce_state; rewrite ?Hq; reflexivity.
Qed.


(** X10: a fetch that raises an [Exception] does not leave
    [CollectionsDelegate.createEditor]: the method returns [None],
    registers nothing and, when the fetch was reached, shows the text of
    the exception. *)
Theorem fetch_failure_is_contained (env : Env) (index : Index) (oe : bool)
    (self : Delegate M) (e : exception) (warn : bool) :
  qt_alive self = true ->
  isValid index = true ->
  show_warning (m_type_data (model self) (row index))
    (m_size_data (model self) (row index)) = Ok warn ->
  m_get_value (model self) (row index) = Raise e ->
  isinstance e Exception = true ->
  snd (createEditor env index oe self) = Ok None
  /\ _editors (fst (createEditor env index oe self)) = _editors self
  /\ ((column index <? 3)%nat = false ->
      warn && warning_answer_no env = false ->
      exists before,
        log (fst (createEditor env index oe self))
        = before ++ [CriticalBox (retrieve_error_text (exc_str e))]).
Proof.
  intros Hq Hvalid Hwarn Hget Hexc.
  unfold createEditor, fetch_value, show_warning_at, get_value,
    shown_and_none, try_except, abind, gets, modify, ret, lift, emit.
  reduce_state. rewrite Hq. reduce_state.
  destruct (column index <? 3)%nat; reduce_state.
  { repeat split; discriminate. }
  rewrite Hwarn. reduce_state.
  destruct warn; reduce_state.
  - destruct (warning_answer_no env); reduce_state; rewrite ?Hq;
      reduce_state.
    + repeat split; discriminate.
    + rewrite Hvalid, Hget, Hexc. reduce_state. rewrite Hq. reduce_state.
      repeat split. intros _ _. eexists. reflexivity.
  - rewrite Hvalid, Hget, Hexc. reduce_state. rewrite Hq. reduce_state.
    repeat split. intros _ _. eexists. reflexivity.
Qed.

(** X11: the editor of a session registered by
    [CollectionsDelegate.createEditor] has no data function, or the one
    that looks the key of the row up in what the data function of the
    delegate returns; it has none when the delegate has none. *)
Theorem registered_editor_chains_to_parent (env : Env) (index : Index)
    (oe : bool) (self : Delegate M) :
  _editors (fst (createEditor env index oe self)) = _editors self
  \/ exists ses,
       _editors (fst (createEditor env index oe self))
       = <[new_editor_id env := ses]> (_editors self)
       /\ (ed_data_function (ses_editor ses) = None
           \/ exists parent k,
                data_function self = Some parent
                /\ nth_error (m_keys (model self)) (row index) = Some k
                /\ ed_data_function (ses_editor ses)
                   = Some (ItemFun parent k)).
Proof.
  unfold_actions. follow.
  all: first
         [ left; reflexivity
         | right; eexists; split; [reflexivity |];
           cbn [ses_editor ed_data_function];
           first [ left; reflexivity
                 | right; eexists _, _; repeat split; reflexivity ] ].
Qed.

End CreateEditor.

(** The X6 theorem on the integer cell of [delegate_x], edited in a line
    editor: the session registered under 7 is the only one afterwards. *)
Lemma inline_editor_only_when_editable_witness :
  _editors (fst (createEditor env_all_known (mk_Index 0 3 true) false
                   (delegate_x false false)))
  = _editors (delegate_x false false).
Proof.
  destruct (inline_editor_only_when_editable env_all_known
              (mk_Index 0 3 true) false (delegate_x false false) QLineEdit)
    as [Hinline _].
  destruct (Hinline eq_refl) as [Hsame _]. exact Hsame.
Defined.

(** The X7 theorem on the integer cell of [delegate_x]: the line editor
    comes with one [sig_editor_shown]. *)
Lemma createEditor_signals_witness :
  exists rest,
    log (fst (createEditor env_all_known (mk_Index 0 3 true) false
                (delegate_x false false)))
    = [] ++ Emitted sig_editor_creation_started :: rest
    /\ count_emitted sig_editor_shown rest = 1.
Proof.
  destruct (createEditor_signals env_all_known (mk_Index 0 3 true) false
              (delegate_x false false) eq_refl)
    as (rest & Hlog & _ & _ & Hinline & _).
  exists rest. split; [exact Hlog |].
  apply (Hinline QLineEdit). reflexivity.
Defined.

(** The X8 theorem on the integer 1 held by [delegate_x]. *)
Lemma large_int_is_not_edited_witness :
  snd (createEditor_for env_all_known (mk_Index 0 3 true) false (VInt 1)
         (delegate_x false false))
  = Ok (Some QLineEdit).
Proof.
  rewrite (large_int_is_not_edited env_all_known (mk_Index 0 3 true)
             (delegate_x false false) 1 eq_refl eq_refl eq_refl).
  assert ((Z.abs 1 <? editable_int_bound)%Z = true) as ->.
  { apply Z.ltb_lt. unfold editable_int_bound.
    change (Z.abs 1) with (2 ^ 0)%Z.
    apply Z.pow_lt_mono_r; unfold MAX_INT_BIT_LENGTH_FOR_EDITING; lia. }
  reflexivity.
Defined.


(** The X10 theorem on a row beyond the rows of the model, whose fetch
    raises [IndexError]. *)
Lemma fetch_failure_is_contained_witness :
  snd (createEditor env_all_known (mk_Index 5 3 true) false
         (delegate_x false false)) = Ok None
  /\ _editors (fst (createEditor env_all_known (mk_Index 5 3 true) false
                      (delegate_x false false)))
     = _editors (delegate_x false false).
Proof.
  destruct (fetch_failure_is_contained env_all_known (mk_Index 5 3 true)
              false (delegate_x false false)
              (new_exception IndexError "list index out of range") false)
    as (Hnone & Hsame & _); try reflexivity.
  split; [exact Hnone | exact Hsame].
Defined.

End CreateEditorFacts.

(* ===================================================================== *)
(** * Facts about closing the sessions of a delegate                      *)
(* ===================================================================== *)

Module SessionFacts.
Import Py Values CollectionsDelegate Statements MoreStatements.
Import DelegateInputs MoreInputs CollectionsDelegateFacts CreateEditorFacts.

Section Sessions.
Context {M : Type} `{TableModel M}.

(** What [ToggleColumnDelegate.editor_rejected] leaves: the registry
    without the session, and the model with the saved object assigned to
    the current item. *)
Lemma toggle_editor_rejected_state (editor_id : nat) (self : Delegate M) :
  _editors (fst (toggle_editor_rejected editor_id self))
  = delete editor_id (_editors self)
  /\ model (fst (toggle_editor_rejected editor_id self))
     = match current_index self with
       | Some index =>
           if is_none (old_obj self) then model self
           else m_set_tree_item_obj (model self) (row index) (old_obj self)
       | None => model self
       end
  /\ snd (toggle_editor_rejected editor_id self) = Ok tt.
Proof.
  unfold toggle_editor_rejected, abind at 1, restore_object, modify.
  rewrite editor_rejected_returns.
  destruct self as [eds df pro m lg alive [index |] old];
    cbn [current_index old_obj model _editors qt_alive].
  - destruct old, alive; repeat split; reflexivity.
  - destruct alive; repeat split; reflexivity.
Qed.

(** Accepting a registered session with [CollectionsDelegate] ends as
    rejecting it from a state with the same registry. *)
Lemma editor_accepted_as_rejected (editor_id : nat) (self : Delegate M)
    (data : Session) :
  _editors self !! editor_id = Some data ->
  store_raises_exceptions_only (model self) data ->
  exists stored,
    editor_accepted editor_id self = editor_rejected editor_id stored
    /\ _editors stored = _editors self.
Proof.
  intros Hreg [Hstore Hconv].
  unfold editor_accepted, editor_rejected, abind at 1, lookup_editor.
  rewrite Hreg.
  destruct (ses_readonly data); cbn [negb].
  { exists self. split; reflexivity. }
  unfold abind at 1, abind at 1, gets, try_except.
  unfold abind at 1, apply_conv.
  destruct (ses_conv data) as [conv_func |] eqn:Hc.
  - unfold lift.
    destruct (conv_func (ed_value (ses_editor data))) as [v | e] eqn:Hv.
    + unfold set_value.
      destruct (isValid _); [| exists self; split; reflexivity].
      destruct (m_set_value _ _ _) as [m' [e |]] eqn:Hset.
      * rewrite (Hstore _ _ _ _ Hset).
        unfold modify. eexists. split; reflexivity.
      * eexists. split; reflexivity.
    + rewrite (Hconv _ _ _ eq_refl Hv).
      unfold modify. eexists. split; reflexivity.
  - unfold ret, set_value.
    destruct (isValid _); [| exists self; split; reflexivity].
    destruct (m_set_value _ _ _) as [m' [e |]] eqn:Hset.
    + rewrite (Hstore _ _ _ _ Hset).
      unfold modify. eexists. split; reflexivity.
    + eexists. split; reflexivity.
Qed.

(** What [ToggleColumnDelegate.createEditor] has saved when it registered
    a session. *)
Lemma toggle_createEditor_saved (env : Env) (index : Index)
    (self : Delegate M) :
  _editors (fst (toggle_createEditor env index self)) <> _editors self ->
  exists old,
    isValid index = true
    /\ copy_of env (m_tree_item_obj (model self) (row index)) = Ok old
    /\ current_index (fst (toggle_createEditor env index self)) = Some index
    /\ old_obj (fst (toggle_createEditor env index self)) = old.
Proof.
  unfold_actions. follow.
  all: intros Hne; try (exfalso; apply Hne; reflexivity).
  all: eexists; repeat split; try reflexivity; try eassumption.
Qed.

(** X12: opening an editor and rejecting it restores the registry of
    sessions, for both delegates, when the identity of the new editor was
    not in use. *)
Theorem open_then_reject_restores_registry (env : Env) (index : Index)
    (oe : bool) (self : Delegate M) :
  _editors self !! new_editor_id env = None ->
  _editors
    (fst (editor_rejected (new_editor_id env)
            (fst (createEditor env index oe self))))
  = _editors self
  /\ _editors
       (fst (toggle_editor_rejected (new_editor_id env)
               (fst (toggle_createEditor env index self))))
     = _editors self.
Proof.
  intros Hfresh. split.
  - destruct (editor_rejected_registry (new_editor_id env)
                (fst (createEditor env index oe self))) as (-> & _).
    destruct (createEditor_session env index oe self)
      as [-> | (v & ses & _ & -> & _)].
    + apply delete_id, Hfresh.
    + apply delete_insert_id, Hfresh.
  - destruct (toggle_editor_rejected_state (new_editor_id env)
                (fst (toggle_createEditor env index self))) as (-> & _).
    destruct (toggle_createEditor_session env index self)
      as [-> | (v & ses & _ & -> & _)].
    + apply delete_id, Hfresh.
    + apply delete_insert_id, Hfresh.
Qed.

(** X13: closing a session that is not registered: accepting raises
    [KeyError] from the lookup, with both delegates, and changes
    nothing; rejecting returns and leaves the registry as it is. *)
Theorem closing_an_unknown_session (editor_id : nat) (self : Delegate M) :
  _editors self !! editor_id = None ->
  editor_accepted editor_id self
  = (self, Raise (new_exception KeyError (str_of_nat editor_id)))
  /\ toggle_editor_accepted editor_id self
     = (self, Raise (new_exception KeyError (str_of_nat editor_id)))
  /\ snd (editor_rejected editor_id self) = Ok tt
  /\ _editors (fst (editor_rejected editor_id self)) = _editors self
  /\ snd (toggle_editor_rejected editor_id self) = Ok tt
  /\ _editors (fst (toggle_editor_rejected editor_id self)) = _editors self.
Proof.
  intros Hnone.
  destruct (editor_rejected_registry editor_id self) as (Hreg & _ & Hret).
  destruct (toggle_editor_rejected_state editor_id self)
    as (Htreg & _ & Htret).
  rewrite Hreg, Htreg, (delete_id _ _ Hnone).
  unfold editor_accepted, toggle_editor_accepted, abind, lookup_editor.
  rewrite Hnone. repeat split; assumption.
Qed.

(** X14: rejecting never raises, with either delegate: not when the
    session is unknown, not when the Qt object of the delegate has been
    deleted.  The session is gone afterwards, every other session is
    still registered, and a deleted delegate emits nothing. *)
Theorem rejecting_never_raises (editor_id : nat) (self : Delegate M) :
  snd (editor_rejected editor_id self) = Ok tt
  /\ snd (toggle_editor_rejected editor_id self) = Ok tt
  /\ _editors (fst (editor_rejected editor_id self)) !! editor_id = None
  /\ _editors (fst (toggle_editor_rejected editor_id self)) !! editor_id
     = None
  /\ (forall other, other <> editor_id ->
        _editors (fst (editor_rejected editor_id self)) !! other
        = _editors self !! other
        /\ _editors (fst (toggle_editor_rejected editor_id self)) !! other
           = _editors self !! other)
  /\ (qt_alive self = false ->
      log (fst (editor_rejected editor_id self)) = log self).
Proof.
  destruct (editor_rejected_registry editor_id self) as (Hreg & _ & Hret).
  destruct (toggle_editor_rejected_state editor_id self)
    as (Htreg & _ & Htret).
  rewrite Hreg, Htreg.
  split; [exact Hret |]. split; [exact Htret |].
  split; [apply lookup_delete_eq |]. split; [apply lookup_delete_eq |].
  split.
  - intros other Hother.
    split; apply lookup_delete_ne; congruence.
  - intros Hdead. rewrite editor_rejected_returns.
    unfold without_session. cbn [qt_alive with_editors].
    rewrite Hdead. reflexivity.
Qed.

(** X15: [ToggleColumnDelegate] keeps one saved copy, [old_obj], and
    one [current_index], both written by [createEditor].  When
    [createEditor] registered a session and the two attributes are still
    as that call left them, no later call of [createEditor] having
    overwritten them, [editor_rejected] assigns the copy taken at
    opening back to the item the session was opened on, whatever the
    identity it is given and whatever has become of the model, of the
    registry and of the log in between. *)
Theorem toggle_reject_restores_copy (env : Env) (index : Index)
    (self later : Delegate M) :
  _editors (fst (toggle_createEditor env index self)) <> _editors self ->
  current_index later
  = current_index (fst (toggle_createEditor env index self)) ->
  old_obj later = old_obj (fst (toggle_createEditor env index self)) ->
  exists old,
    copy_of env (m_tree_item_obj (model self) (row index)) = Ok old
    /\ forall editor_id,
         model (fst (toggle_editor_rejected editor_id later))
         = if is_none old then model later
           else m_set_tree_item_obj (model later) (row index) old.
Proof.
  intros Hopened Hsame_index Hsame_copy.
  destruct (toggle_createEditor_saved env index self Hopened)
    as (old & _ & Hcopy & Hcur & Hold).
  exists old. split; [exact Hcopy |].
  intros editor_id.
  destruct (toggle_editor_rejected_state editor_id later) as (_ & -> & _).
  rewrite Hsame_index, Hcur, Hsame_copy, Hold. reflexivity.
Qed.


End Sessions.

(** The X12 theorem on [delegate_x], where 8 is not in use. *)
Lemma open_then_reject_restores_registry_witness :
  _editors
    (fst (editor_rejected 8
            (fst (createEditor env_all_known (mk_Index 0 3 true) true
                    (delegate_x false false)))))
  = _editors (delegate_x false false).
Proof.
  apply (open_then_reject_restores_registry env_all_known
           (mk_Index 0 3 true) true (delegate_x false false)).
  reflexivity.
Defined.

(** The X13 theorem on [delegate_x], where 9 is not registered. *)
Lemma closing_an_unknown_session_witness :
  snd (editor_accepted 9 (delegate_x false false))
  = Raise (new_exception KeyError "9").
Proof.
  destruct (closing_an_unknown_session 9 (delegate_x false false))
    as (Haccepted & _); [reflexivity |].
  rewrite Haccepted. reflexivity.
Defined.

(** The X15 theorem on [delegate_items]: the nested editor appended to
    the list, and rejecting it puts the list [[1]] back. *)
Lemma toggle_reject_restores_copy_witness :
  model
    (fst (toggle_editor_rejected 8
            (with_model items_edited
               (fst (toggle_createEditor env_all_known (mk_Index 0 3 true)
                       delegate_items)))))
  = mk_RowModel [(KStr "items", "list", CellInt 2, VList [VInt 1])] false.
Proof.
  destruct (toggle_reject_restores_copy env_all_known (mk_Index 0 3 true)
              delegate_items
              (with_model items_edited
                 (fst (toggle_createEditor env_all_known (mk_Index 0 3 true)
                         delegate_items))))
    as (old & Hcopy & Hmodel).
  - intros Hsame.
    apply (f_equal (fun eds => match eds !! 8 with
                               | Some _ => true
                               | None => false
                               end)) in Hsame.
    vm_compute in Hsame. discriminate Hsame.
  - reflexivity.
  - reflexivity.
  - injection Hcopy as <-. exact (Hmodel 8).
Defined.


End SessionFacts.

(* ===================================================================== *)
(** * Facts about attribute paths                                         *)
(* ===================================================================== *)

Module AttributePathFacts.
Import Py Values CollectionsDelegate Statements MoreStatements.
Import CollectionsModelFacts SizeTextFacts.

Lemma walk_attributes_app (data : value) (first_part rest : list string) :
  walk_attributes data (first_part ++ rest)
  = match walk_attributes data first_part with
    | Ok reached => walk_attributes reached rest
    | Raise e => Raise e
    end.
Proof.
  revert data.
  induction first_part as [| name first_part IH]; intros data;
    [reflexivity |].
  cbn [app walk_attributes]. unfold bind.
  destruct (getattr_str data name); [apply IH | reflexivity].
Qed.

(** X17: the accessor of a path in two parts returns what the accessor
    of the second part returns on the object the first part leads to;
    when the first part fails with one of the classes caught, the
    accessor returns [None] whatever follows. *)
Theorem datafun_path_app (data : value) (first_part rest : list string) :
  datafun_path data (first_part ++ rest)
  = match walk_attributes data first_part with
    | Ok reached => datafun_path reached rest
    | Raise e => if isinstance_any e datafun_caught then Ok VNone else Raise e
    end.
Proof.
  unfold datafun_path. rewrite walk_attributes_app.
  destruct (walk_attributes data first_part); reflexivity.
Qed.

Lemma split_join (name : string) (attributes : list string) :
  Forall dotless (name :: attributes) ->
  split "."%char (list_ascii_of_string (join "." (name :: attributes)))
  = map list_ascii_of_string (name :: attributes).
Proof.
  revert name.
  induction attributes as [| attribute attributes IH]; intros name Hdots.
  - cbn [join map]. apply split_no_separator.
    apply (List.Forall_inv Hdots).
  - change (join "." (name :: attribute :: attributes))
      with (name ++ String "."%char (join "." (attribute :: attributes)))%string.
    rewrite list_ascii_of_string_app.
    cbn [list_ascii_of_string].
    rewrite split_at_separator by apply (List.Forall_inv Hdots).
    rewrite IH by apply (List.Forall_inv_tail Hdots).
    reflexivity.
Qed.

(** X18: the path elements kept from an object path are the attribute
    names after the name of the variable: from the path written for
    [name.a1. ... .an], where no name contains a dot, they are
    [a1, ..., an]. *)
Theorem path_elements_of_join (name : string) (attributes : list string) :
  Forall dotless (name :: attributes) ->
  path_elements_of (join "." (name :: attributes)) = attributes.
Proof.
  intros Hdots. unfold path_elements_of.
  rewrite split_join by exact Hdots.
  cbn [map tl]. rewrite map_map.
  rewrite <- (map_id attributes) at 2.
  apply map_ext. intros a. apply string_of_list_ascii_of_string.
Qed.

(** The X18 theorem on the path [obj.xxx.yyy]. *)
Lemma path_elements_of_join_witness :
  path_elements_of "obj.xxx.yyy" = ["xxx"; "yyy"].
Proof.
  apply (path_elements_of_join "obj" ["xxx"; "yyy"]).
  repeat constructor.
Defined.

End AttributePathFacts.

(* ===================================================================== *)
(** * Facts about writing an inline editor back                           *)
(* ===================================================================== *)

Module SetModelDataFacts.
Import Py Values CollectionsDelegate DelegateEditing.
Import DelegateInputs MoreInputs.

Section Writing.
Context {M : Type} `{TableModel M}.
Variable display_to_value : string -> value -> result value.

(** X19: [setModelData] changes the model only through [set_value], and
    only when the model can be written, the index is valid and the
    widget is a line, date or date-time editor; for a line editor it
    does so only after the current value was fetched and the text
    converted. *)
Theorem setModelData_writes_only_when (editor : EditorWidget)
    (caps : ModelCaps) (index : Index) (self : Delegate M) :
  model (fst (setModelData display_to_value editor caps index self))
  <> model self ->
  has_set_value caps = true
  /\ (has_sourceModel caps = true -> sourceModel_has_set_value caps = true)
  /\ isValid index = true
  /\ exists v,
       model (fst (setModelData display_to_value editor caps index self))
       = fst (m_set_value (model self) (row index) v)
       /\ match editor with
          | LineEditWidget text =>
              exists current,
                m_get_value (model self) (row index) = Ok current
                /\ display_to_value text current = Ok v
          | DateEditWidget year month day => v = date_value year month day
          | DateTimeEditWidget year month day hour minute second msec =>
              v = datetime_value year month day hour minute second
                    (msec * 1000)
          | OtherWidget => False
          end.
Proof.
  unfold setModelData.
  destruct ((has_sourceModel caps && negb (sourceModel_has_set_value caps))
            || negb (has_set_value caps)) eqn:Hcaps.
  { intros Hne. exfalso. apply Hne. reflexivity. }
  assert (has_set_value caps = true
          /\ (has_sourceModel caps = true ->
              sourceModel_has_set_value caps = true)) as [Hset Hsource].
  { destruct (has_sourceModel caps), (sourceModel_has_set_value caps),
      (has_set_value caps); cbn in Hcaps; try discriminate Hcaps;
      split; auto. }
  intros Hne. split; [exact Hset |]. split; [exact Hsource |]. revert Hne.
  unfold line_edit_value, try_except, abind, get_value, set_value, lift,
    ret, modify.
  destruct (isValid index) eqn:Hvalid.
  2: { intros Hne. exfalso. apply Hne.
       destruct editor as [text | | |]; cbn [fst]; try reflexivity.
       destruct (display_to_value text VNone) as [v | e]; [reflexivity |].
       destruct (isinstance e Exception); reflexivity. }
  intros Hne. split; [reflexivity |]. revert Hne.
  destruct editor as [text | year month day
                     | year month day hour minute second msec |].
  - destruct (m_get_value (model self) (row index)) as [current | e]
      eqn:Hget.
    + destruct (display_to_value text current) as [v | e] eqn:Hconv.
      * intros _. exists v. split.
        { destruct (m_set_value (model self) (row index) v); reflexivity. }
        exists current. split; [reflexivity | exact Hconv].
      * intros Hne. exfalso. apply Hne.
        destruct (isinstance e Exception); reflexivity.
    + intros Hne. exfalso. apply Hne.
      destruct (isinstance e Exception); reflexivity.
  - intros _. eexists. split; [| reflexivity].
    destruct (m_set_value (model self) (row index) _); reflexivity.
  - intros _. eexists. split; [| reflexivity].
    destruct (m_set_value (model self) (row index) _); reflexivity.
  - intros Hne. exfalso. apply Hne. reflexivity.
Qed.

(** X20: when fetching the current value or converting the text of a
    line editor raises an [Exception], [setModelData] on a model that
    can be written shows the message of the exception, stores nothing
    and returns normally. *)
Theorem setModelData_conversion_failure (text : string) (caps : ModelCaps)
    (index : Index) (self : Delegate M) (e : exception) :
  (has_sourceModel caps && negb (sourceModel_has_set_value caps))
  || negb (has_set_value caps) = false ->
  isValid index = true ->
  m_get_value (model self) (row index) = Raise e
  \/ (exists current,
        m_get_value (model self) (row index) = Ok current
        /\ display_to_value text current = Raise e) ->
  isinstance e Exception = true ->
  setModelData display_to_value (LineEditWidget text) caps index self
  = (log_event (CriticalBox (assign_error_text (exc_str e))) self, Ok tt).
Proof.
  intros Hcaps Hvalid Hfail Hexc.
  unfold setModelData. rewrite Hcaps.
  unfold line_edit_value, try_except, abind, get_value, lift, ret, modify.
  rewrite Hvalid.
  destruct Hfail as [-> | (current & -> & ->)]; rewrite Hexc; reflexivity.
Qed.

End Writing.

(** The X19 theorem on the line editor of attribute [x] holding the
    text 5. *)
Lemma setModelData_writes_only_when_witness :
  exists v,
    model (fst (setModelData display_to_int (LineEditWidget "5")
                  (mk_ModelCaps false false true) (mk_Index 0 3 true)
                  (delegate_x false false)))
    = fst (m_set_value (model (delegate_x false false)) 0 v)
    /\ display_to_int "5" (VInt 1) = Ok v.
Proof.
  destruct (setModelData_writes_only_when display_to_int
              (LineEditWidget "5") (mk_ModelCaps false false true)
              (mk_Index 0 3 true) (delegate_x false false))
    as (_ & _ & _ & v & Hmodel & current & Hget & Hconv).
  - intros Hsame. vm_compute in Hsame. discriminate Hsame.
  - exists v. split; [exact Hmodel |].
    injection Hget as <-. exact Hconv.
Defined.

(** The X20 theorem on the line editor of attribute [x] holding a text
    that is no number. *)
Lemma setModelData_conversion_failure_witness :
  snd (setModelData display_to_int (LineEditWidget "five")
         (mk_ModelCaps false false true) (mk_Index 0 3 true)
         (delegate_x false false))
  = Ok tt.
Proof.
  destruct (display_to_int "five" (VInt 1)) as [v | e] eqn:Hconv;
    [vm_compute in Hconv; discriminate Hconv |].
  rewrite (setModelData_conversion_failure display_to_int "five"
             (mk_ModelCaps false false true) (mk_Index 0 3 true)
             (delegate_x false false) e).
  - reflexivity.
  - reflexivity.
  - reflexivity.
  - right. exists (VInt 1). split; [reflexivity | exact Hconv].
  - vm_compute in Hconv. injection Hconv as <-. reflexivity.
Defined.

End SetModelDataFacts.
